(** * The page-fetch pipeline of scrape.py: orchestrator, DOM extraction, chunking

    A shallow embedding of [scrape_website], [parse_dom_content],
    [create_content_chunks] and [analyze_content_with_llm]
    (src/scrape.py), of [clean_html_content] (src/main.py) and of
    [clean_dom_content], [parse_with_llm] and [get_parsing_suggestions]
    (src/parse.py), together with executable models of the library
    calls they make: the bs4 tree and its queries, the html.parser tree
    builder, urllib.parse, the regular expressions of the patterns and
    LangChain's recursive text splitter.

    Python [str] values are modelled as [string] (the UTF-8 bytes of the
    text); character classes are the ASCII ones. *)

From Stdlib Require Import String Ascii List Bool Arith ZArith Lia ListSet.
Import ListNotations.
Local Open Scope string_scope.
Local Open Scope list_scope.

Set Warnings "-register-all".

Infix "+s+" := String.append (at level 60, right associativity).

(* ================================================================= *)
(** ** Python values, exceptions and [str] methods *)

Module Py.

(** Instances of [Exception]: what [except Exception] catches. *)
Inductive exn : Type :=
| AttributeError (msg : string)
| ValueError (msg : string)
| TypeError (msg : string)
| OtherException (msg : string).

Inductive outcome (A : Type) : Type :=
| Returns (a : A)
| Raises (e : exn).
Arguments Returns {A} a.
Arguments Raises {A} e.

Definition bind {A B : Type} (c : outcome A) (k : A -> outcome B) : outcome B :=
  match c with
  | Returns a => k a
  | Raises e => Raises e
  end.

(** [for x in xs: body] where the body may raise. *)
Fixpoint mapM {A B : Type} (f : A -> outcome B) (xs : list A) : outcome (list B) :=
  match xs with
  | [] => Returns []
  | x :: r =>
      bind (f x) (fun y => bind (mapM f r) (fun ys => Returns (y :: ys)))
  end.

Definition code (c : ascii) : nat := nat_of_ascii c.

Definition in_range (lo hi : nat) (c : ascii) : bool :=
  Nat.leb lo (code c) && Nat.leb (code c) hi.

(** [str.isspace] on the ASCII range: TAB..CR, FS..US and space. *)
Definition isspace (c : ascii) : bool :=
  in_range 9 13 c || in_range 28 32 c.

Definition isdigit (c : ascii) : bool := in_range 48 57 c.
Definition isupper (c : ascii) : bool := in_range 65 90 c.
Definition islower (c : ascii) : bool := in_range 97 122 c.
Definition isalpha (c : ascii) : bool := isupper c || islower c.
Definition isalnum (c : ascii) : bool := isalpha c || isdigit c.

Definition to_lower (c : ascii) : ascii :=
  if isupper c then ascii_of_nat (code c + 32) else c.
Definition to_upper (c : ascii) : ascii :=
  if islower c then ascii_of_nat (code c - 32) else c.

Fixpoint smap (f : ascii -> ascii) (s : string) : string :=
  match s with
  | EmptyString => EmptyString
  | String c r => String (f c) (smap f r)
  end.

Definition lower : string -> string := smap to_lower.
Definition upper : string -> string := smap to_upper.

(** Truth value of a [str]: non-empty. *)
Definition truthy (s : string) : bool :=
  match s with EmptyString => false | String _ _ => true end.

(** Truth value of an optional [str] ([None] or a string). *)
Definition truthy_opt (o : option string) : bool :=
  match o with None => false | Some s => truthy s end.

Definition startswith (s p : string) : bool := String.prefix p s.

Fixpoint lstrip (s : string) : string :=
  match s with
  | EmptyString => EmptyString
  | String c r => if isspace c then lstrip r else s
  end.

Fixpoint rstrip (s : string) : string :=
  match s with
  | EmptyString => EmptyString
  | String c r =>
      match rstrip r with
      | EmptyString => if isspace c then EmptyString else String c EmptyString
      | r' => String c r'
      end
  end.

Definition strip (s : string) : string := rstrip (lstrip s).

(** [sep.join(parts)] *)
Fixpoint join (sep : string) (parts : list string) : string :=
  match parts with
  | [] => ""
  | [p] => p
  | p :: r => p +s+ sep +s+ join sep r
  end.

(** [s.split(c)] for a one-character separator; the result is never empty. *)
Fixpoint split_on (sep : ascii) (s : string) : list string :=
  match s with
  | EmptyString => [""]
  | String c r =>
      if Ascii.eqb c sep then "" :: split_on sep r
      else match split_on sep r with
           | [] => [String c ""]
           | p :: ps => String c p :: ps
           end
  end.

(** [c in s] *)
Fixpoint contains_char (c : ascii) (s : string) : bool :=
  match s with
  | EmptyString => false
  | String d r => Ascii.eqb c d || contains_char c r
  end.

(** [s.isascii()] *)
Fixpoint isascii (s : string) : bool :=
  match s with
  | EmptyString => true
  | String c r => Nat.ltb (code c) 128 && isascii r
  end.

(** The digit of value [n] in lower-case hexadecimal. *)
Definition hex_digit (n : nat) : ascii :=
  if Nat.ltb n 10 then ascii_of_nat (48 + n) else ascii_of_nat (87 + n).

Definition double_quote : ascii := ascii_of_nat 34.
Definition backslash : ascii := ascii_of_nat 92.

(** What [repr] writes for one character inside the quotes.  Bytes
    from 128 on stand for printable characters and are kept. *)
Definition repr_char (quote c : ascii) : string :=
  if Ascii.eqb c quote || Ascii.eqb c backslash then String backslash (String c "")
  else if Nat.eqb (code c) 9 then String backslash "t"
  else if Nat.eqb (code c) 10 then String backslash "n"
  else if Nat.eqb (code c) 13 then String backslash "r"
  else if Nat.ltb (code c) 32 || Nat.eqb (code c) 127 then
    String backslash
      (String "x" (String (hex_digit (code c / 16)) (String (hex_digit (code c mod 16)) "")))
  else String c "".

Fixpoint repr_chars (quote : ascii) (s : string) : string :=
  match s with
  | EmptyString => EmptyString
  | String c r => repr_char quote c +s+ repr_chars quote r
  end.

(** [repr(s)]: single quotes, unless the text has one and no double
    quote. *)
Definition repr (s : string) : string :=
  let quote :=
    if contains_char "'" s && negb (contains_char double_quote s)
    then double_quote else "'"%char in
  String quote (repr_chars quote s +s+ String quote "").

(** [list(set(xs))]: the distinct values of [xs].  Python leaves the
    order unspecified; the model fixes one. *)
Definition list_set (xs : list string) : list string :=
  fold_left (fun acc x => set_add string_dec x acc) xs (empty_set string).

End Py.

Import Py.

Notation "x <- c ;; k" := (Py.bind c (fun x => k))
  (at level 61, c at next level, right associativity).

(* ================================================================= *)
(** ** The bs4 tree and the queries used by the extractor *)

Module Bs4.

(** A [PageElement].  [NavigableString] stands for the text nodes that
    [get_text] collects (NavigableString and CData); [OtherString] for
    the string subclasses it skips (Comment, Doctype, Declaration). *)
Inductive node : Type :=
| Tag (name : string) (attrs : list (string * string)) (contents : list node)
| NavigableString (s : string)
| OtherString (s : string).

(** The [BeautifulSoup] object, given by its [contents]. *)
Definition soup : Type := list node.

Definition is_tag (n : node) : bool :=
  match n with Tag _ _ _ => true | _ => false end.

Definition tag_name (n : node) : string :=
  match n with Tag nm _ _ => nm | _ => "" end.

Definition tag_attrs (n : node) : list (string * string) :=
  match n with Tag _ a _ => a | _ => [] end.

Definition tag_contents (n : node) : list node :=
  match n with Tag _ _ cs => cs | _ => [] end.

(** [tag.descendants]: every node below, in document order. *)
Fixpoint descendants (n : node) : list node :=
  match n with
  | Tag _ _ cs => flat_map (fun c => c :: descendants c) cs
  | _ => []
  end.

Definition descendants_of (cs : list node) : list node :=
  flat_map (fun c => c :: descendants c) cs.

Fixpoint lookup (k : string) (d : list (string * string)) : option string :=
  match d with
  | [] => None
  | (k', v) :: r => if String.eqb k k' then Some v else lookup k r
  end.

(** [tag.get(key, default)] *)
Definition get (n : node) (key default : string) : string :=
  match lookup key (tag_attrs n) with
  | Some v => v
  | None => default
  end.

(** [tag.has_attr(key)] *)
Definition has_attr (n : node) (key : string) : bool :=
  match lookup key (tag_attrs n) with Some _ => true | None => false end.

Definition name_in (names : list string) (n : node) : bool :=
  is_tag n && existsb (String.eqb (tag_name n)) names.

(** [x.find_all(names)] where [cs] is [x.contents]. *)
Definition find_all (names : list string) (cs : list node) : list node :=
  filter (name_in names) (descendants_of cs).

(** [x.find_all(name, key=True)]: the attribute is present. *)
Definition find_all_with (name key : string) (cs : list node) : list node :=
  filter (fun n => name_in [name] n && has_attr n key) (descendants_of cs).

(** [x.find(name, attrs={key: value})] *)
Definition find_attr (name key value : string) (cs : list node) : option node :=
  hd_error
    (filter (fun n => name_in [name] n &&
                      match lookup key (tag_attrs n) with
                      | Some v => String.eqb v value
                      | None => false
                      end)
            (descendants_of cs)).

(** [x.find(name)], which is also [x.name] as in [soup.title]. *)
Definition find (name : string) (cs : list node) : option node :=
  hd_error (find_all [name] cs).

Definition text_of (n : node) : string :=
  match n with NavigableString s => s | _ => "" end.

(** [x.get_text()] with the default separator and types. *)
Definition get_text (cs : list node) : string :=
  String.concat "" (map text_of (descendants_of cs)).

Definition node_text (n : node) : string := get_text (tag_contents n).

(** [tag.string]: the single string below [tag], or [None]. *)
Fixpoint string_of (n : node) : option string :=
  match n with
  | Tag _ _ cs =>
      match cs with
      | [c] => match c with
               | Tag _ _ _ => string_of c
               | NavigableString s => Some s
               | OtherString s => Some s
               end
      | _ => None
      end
  | NavigableString s => Some s
  | OtherString s => Some s
  end.

End Bs4.

(* ================================================================= *)
(** ** A model of [BeautifulSoup(markup, 'html.parser')]

    The tokenizer follows html.parser on markup made of start tags with
    attributes, end tags, text and comments; names are lower-cased.
    Character references, raw-text elements and processing instructions
    are outside the fragment.  The tree builder follows bs4's
    [object_was_parsed], [endData] and [_popToTag]. *)

Module HtmlParser.
Import Bs4.

Inductive token : Type :=
| StartTag (name : string) (attrs : list (string * string)) (selfclosing : bool)
| EndTag (name : string)
| Data (s : string)
| CommentTok (s : string).

(** Buffers hold the characters read so far, last one first. *)
Definition buf : Type := list ascii.

Definition flush (b : buf) : string := string_of_list_ascii (rev b).

Definition attrs_t : Type := list (string * string).

(** [attr_dict[key] = value]: a repeated attribute keeps its place and
    takes the later value. *)
Fixpoint dict_set (d : attrs_t) (k v : string) : attrs_t :=
  match d with
  | [] => [(k, v)]
  | (k', v') :: r =>
      if String.eqb k k' then (k', v) :: r else (k', v') :: dict_set r k v
  end.

Inductive mode : Type :=
| MData (text : buf)
| MLt (text : buf)
| MLtSlash (text : buf)
| MEndName (name : buf)
| MEndRest (name : buf)
| MName (name : buf)
| MAttrs (name : string) (attrs : attrs_t)
| MAttrName (name : string) (attrs : attrs_t) (an : buf)
| MAfterName (name : string) (attrs : attrs_t) (an : string)
| MBeforeValue (name : string) (attrs : attrs_t) (an : string)
| MValueQ (q : ascii) (name : string) (attrs : attrs_t) (an : string) (v : buf)
| MValueU (name : string) (attrs : attrs_t) (an : string) (v : buf)
| MSlash (name : string) (attrs : attrs_t)
| MBang (text : buf) (dashes : nat)
| MComment (body : buf) (dashes : nat)
| MDecl.

Definition ch_is (c : ascii) (s : string) : bool :=
  match s with String d EmptyString => Ascii.eqb c d | _ => false end.

(** Tokens are accumulated last-first. *)
Definition emit_data (text : buf) (out : list token) : list token :=
  match text with [] => out | _ => Data (flush text) :: out end.

Definition dashes (n : nat) : buf := repeat "-"%char n.

Definition step (st : mode * list token) (c : ascii) : mode * list token :=
  let '(m, out) := st in
  match m with
  | MData text =>
      if ch_is c "<" then (MLt text, out) else (MData (c :: text), out)
  | MLt text =>
      if isalpha c then (MName [to_lower c], emit_data text out)
      else if ch_is c "/" then (MLtSlash text, out)
      else if ch_is c "!" then (MBang text 0, out)
      else if ch_is c "<" then (MLt ("<"%char :: text), out)
      else (MData (c :: "<"%char :: text), out)
  | MLtSlash text =>
      if isalpha c then (MEndName [to_lower c], emit_data text out)
      else (MData (c :: "/"%char :: "<"%char :: text), out)
  | MEndName name =>
      if ch_is c ">" then (MData [], EndTag (flush name) :: out)
      else if isspace c then (MEndRest name, out)
      else (MEndName (to_lower c :: name), out)
  | MEndRest name =>
      if ch_is c ">" then (MData [], EndTag (flush name) :: out)
      else (MEndRest name, out)
  | MName name =>
      if isspace c then (MAttrs (flush name) [], out)
      else if ch_is c "/" then (MSlash (flush name) [], out)
      else if ch_is c ">" then (MData [], StartTag (flush name) [] false :: out)
      else (MName (to_lower c :: name), out)
  | MAttrs name attrs =>
      if isspace c then (m, out)
      else if ch_is c "/" then (MSlash name attrs, out)
      else if ch_is c ">" then (MData [], StartTag name attrs false :: out)
      else (MAttrName name attrs [to_lower c], out)
  | MAttrName name attrs an =>
      if isspace c then (MAfterName name attrs (flush an), out)
      else if ch_is c "=" then (MBeforeValue name attrs (flush an), out)
      else if ch_is c "/" then (MSlash name (dict_set attrs (flush an) ""), out)
      else if ch_is c ">" then
        (MData [], StartTag name (dict_set attrs (flush an) "") false :: out)
      else (MAttrName name attrs (to_lower c :: an), out)
  | MAfterName name attrs an =>
      if isspace c then (m, out)
      else if ch_is c "=" then (MBeforeValue name attrs an, out)
      else if ch_is c "/" then (MSlash name (dict_set attrs an ""), out)
      else if ch_is c ">" then
        (MData [], StartTag name (dict_set attrs an "") false :: out)
      else (MAttrName name (dict_set attrs an "") [to_lower c], out)
  | MBeforeValue name attrs an =>
      if isspace c then (m, out)
      else if Ascii.eqb c (ascii_of_nat 34) || ch_is c "'" then (MValueQ c name attrs an [], out)
      else if ch_is c ">" then
        (MData [], StartTag name (dict_set attrs an "") false :: out)
      else (MValueU name attrs an [c], out)
  | MValueQ q name attrs an v =>
      if Ascii.eqb c q then (MAttrs name (dict_set attrs an (flush v)), out)
      else (MValueQ q name attrs an (c :: v), out)
  | MValueU name attrs an v =>
      if isspace c then (MAttrs name (dict_set attrs an (flush v)), out)
      else if ch_is c ">" then
        (MData [], StartTag name (dict_set attrs an (flush v)) false :: out)
      else (MValueU name attrs an (c :: v), out)
  | MSlash name attrs =>
      if ch_is c ">" then (MData [], StartTag name attrs true :: out)
      else if isspace c then (MAttrs name attrs, out)
      else (MAttrName name attrs [to_lower c], out)
  | MBang text n =>
      if ch_is c "-" then
        match n with
        | O => (MBang text 1, out)
        | S _ => (MComment [] 0, emit_data text out)
        end
      else if ch_is c ">" then (MData [], emit_data text out)
      else (MDecl, emit_data text out)
  | MComment body n =>
      if ch_is c "-" then (MComment body (S n), out)
      else if ch_is c ">" then
        match n with
        | S (S k) => (MData [], CommentTok (flush (dashes k ++ body)) :: out)
        | _ => (MComment (c :: dashes n ++ body) 0, out)
        end
      else (MComment (c :: dashes n ++ body) 0, out)
  | MDecl =>
      if ch_is c ">" then (MData [], out) else (MDecl, out)
  end.

(** At the end of the input pending text is delivered and an unfinished
    tag, comment or declaration is dropped. *)
Definition finish (st : mode * list token) : list token :=
  let '(m, out) := st in
  match m with
  | MData text => emit_data text out
  | MLt text => emit_data ("<"%char :: text) out
  | MLtSlash text => emit_data ("/"%char :: "<"%char :: text) out
  | MBang text _ => emit_data text out
  | _ => out
  end.

Definition tokenize (markup : string) : list token :=
  rev (finish (fold_left step (list_ascii_of_string markup) (MData [], []))).

(** [HTMLTreeBuilder.empty_element_tags] *)
Definition empty_element_tags : list string :=
  ["area"; "base"; "br"; "col"; "embed"; "hr"; "img"; "input"; "keygen";
   "link"; "menuitem"; "meta"; "param"; "source"; "track"; "wbr";
   "basefont"; "bgsound"; "command"; "frame"; "image"; "isindex";
   "nextid"; "spacer"].

Definition preserve_whitespace_tags : list string := ["pre"; "textarea"].

Definition mem (s : string) (l : list string) : bool := existsb (String.eqb s) l.

(** An open element: name, attributes and the children so far, last first. *)
Definition frame : Type := (string * attrs_t * list node)%type.

Definition frame_name (f : frame) : string := fst (fst f).

(** The builder: the stack of open elements, innermost first, and the
    children of the document so far, last first. *)
Definition builder : Type := (list frame * list node)%type.

Definition add_child (n : node) (b : builder) : builder :=
  match b with
  | ([], root) => ([], n :: root)
  | ((nm, a, ch) :: r, root) => ((nm, a, n :: ch) :: r, root)
  end.

(** Closes open elements, innermost first, up to and including the most
    recent one called [name]; [inner] is the element just closed, still
    to be attached to its parent. *)
Fixpoint close_until (name : string) (inner : list node) (stack : list frame)
         (root : list node) : builder :=
  match stack with
  | [] => ([], inner ++ root)
  | (nm, a, ch) :: r =>
      let t := Tag nm a (rev (inner ++ ch)) in
      if String.eqb nm name then add_child t (r, root)
      else close_until name [t] r root
  end.

Fixpoint close_all (inner : list node) (stack : list frame) (root : list node)
  : list node :=
  match stack with
  | [] => inner ++ root
  | (nm, a, ch) :: r => close_all [Tag nm a (rev (inner ++ ch))] r root
  end.

(** [_popToTag(name)] *)
Definition pop_to_tag (name : string) (b : builder) : builder :=
  let '(stack, root) := b in
  if mem name (map frame_name stack) then close_until name [] stack root else b.

Definition ascii_spaces (c : ascii) : bool :=
  ch_is c " " || Ascii.eqb c (ascii_of_nat 10) || Ascii.eqb c (ascii_of_nat 9)
  || Ascii.eqb c (ascii_of_nat 12) || Ascii.eqb c (ascii_of_nat 13).

(** [endData]: text made only of ASCII spaces shrinks to one newline or
    one space, unless an enclosing element preserves whitespace. *)
Definition end_data (stack : list frame) (s : string) : string :=
  if existsb (fun f => mem (frame_name f) preserve_whitespace_tags) stack then s
  else if forallb ascii_spaces (list_ascii_of_string s) then
    if contains_char (ascii_of_nat 10) s then String (ascii_of_nat 10) "" else " "
  else s.

Definition feed (b : builder) (t : token) : builder :=
  match t with
  | Data s => add_child (NavigableString (end_data (fst b) s)) b
  | CommentTok s => add_child (OtherString s) b
  | StartTag name attrs selfclosing =>
      if selfclosing || mem name empty_element_tags
      then add_child (Tag name attrs []) b
      else ((name, attrs, []) :: fst b, snd b)
  | EndTag name => pop_to_tag name b
  end.

Definition build (ts : list token) : soup :=
  let '(stack, root) := fold_left feed ts ([], []) in
  rev (close_all [] stack root).

(** [BeautifulSoup(markup, 'html.parser')] *)
Definition BeautifulSoup (markup : string) : outcome soup :=
  Returns (build (tokenize markup)).

End HtmlParser.

(* ================================================================= *)
(** ** A model of urllib.parse: [urlsplit], [urlparse], [urljoin] *)

(** The functions follow CPython 3.11 with its security fixes: the
    stripping of control characters, [_checknetloc] and
    [_check_bracketed_netloc] with [ipaddress.ip_address]. *)

Module Urllib.

Record SplitResult : Type := mkSplit {
  scheme : string;
  netloc : string;
  path : string;
  query : string;
  fragment : string
}.

(** [ParseResult]: the split result with the parameters of the last
    path segment taken apart. *)
Record ParseResult : Type := mkParse {
  p_scheme : string;
  p_netloc : string;
  p_path : string;
  p_params : string;
  p_query : string;
  p_fragment : string
}.

Definition uses_relative : list string :=
  [""; "ftp"; "http"; "gopher"; "nntp"; "imap"; "wais"; "file"; "https";
   "shttp"; "mms"; "prospero"; "rtsp"; "rtspu"; "sftp"; "svn"; "svn+ssh";
   "ws"; "wss"].

Definition uses_netloc : list string :=
  [""; "ftp"; "http"; "gopher"; "nntp"; "telnet"; "imap"; "wais"; "file";
   "mms"; "https"; "shttp"; "snews"; "prospero"; "rtsp"; "rtspu"; "rsync";
   "svn"; "svn+ssh"; "sftp"; "nfs"; "git"; "git+ssh"; "ws"; "wss"].

Definition uses_params : list string :=
  [""; "ftp"; "hdl"; "prospero"; "http"; "imap"; "https"; "shttp"; "rtsp";
   "rtspu"; "sip"; "sips"; "mms"; "sftp"; "tel"].

Definition mem (s : string) (l : list string) : bool := existsb (String.eqb s) l.

Definition one_of (chars : string) (c : ascii) : bool := contains_char c chars.

(** [scheme_chars]: letters, digits and "+-." *)
Definition scheme_char (c : ascii) : bool := isalnum c || one_of "+-." c.

(** The text before the first character satisfying [p], and the text
    from that character on. *)
Fixpoint break_at (p : ascii -> bool) (s : string) : string * string :=
  match s with
  | EmptyString => (EmptyString, EmptyString)
  | String c r =>
      if p c then (EmptyString, s)
      else let '(a, b) := break_at p r in (String c a, b)
  end.

(** [s.partition(c)] as (head, found, tail). *)
Definition partition (c : ascii) (s : string) : string * bool * string :=
  match break_at (Ascii.eqb c) s with
  | (a, String _ b) => (a, true, b)
  | (a, EmptyString) => (a, false, EmptyString)
  end.

(** The tail of [s.rpartition(c)]: the text after the last [c], or all
    of [s] when there is none. *)
Fixpoint after_last (c : ascii) (s : string) : string :=
  match s with
  | EmptyString => EmptyString
  | String d r =>
      if contains_char c r then after_last c r
      else if Ascii.eqb c d then r else s
  end.

(** [sub in s] *)
Fixpoint has_substring (sub s : string) : bool :=
  String.prefix sub s ||
  match s with
  | EmptyString => false
  | String _ r => has_substring sub r
  end.

Fixpoint all_of (p : ascii -> bool) (s : string) : bool :=
  match s with
  | EmptyString => true
  | String c r => p c && all_of p r
  end.

(** The module [ipaddress], as far as [ip_address] of a [str] goes:
    an address is given by its integer, [None] standing for
    [AddressValueError]. *)
Module Ipaddress.

(** [int(s, base)] for a text of digits of that base. *)
Definition digit_value (c : ascii) : N :=
  if isdigit c then N.of_nat (code c - 48)
  else if isupper c then N.of_nat (code c - 55)
  else N.of_nat (code c - 87).

Fixpoint int_from (base acc : N) (s : string) : N :=
  match s with
  | EmptyString => acc
  | String c r => int_from base (acc * base + digit_value c) r
  end.

(** [IPv4Address._parse_octet(octet_str)] *)
Definition _parse_octet (octet_str : string) : option N :=
  if negb (truthy octet_str) then None
  else if negb (isascii octet_str && all_of isdigit octet_str) then None
  else if Nat.ltb 3 (String.length octet_str) then None
  else if negb (String.eqb octet_str "0") && startswith octet_str "0" then None
  else
    let octet_int := int_from 10 0 octet_str in
    if (255 <? octet_int)%N then None else Some octet_int.

(** [int.from_bytes(map(cls._parse_octet, octets), 'big')] *)
Fixpoint from_octets (acc : N) (octets : list string) : option N :=
  match octets with
  | [] => Some acc
  | o :: r =>
      match _parse_octet o with
      | Some v => from_octets (acc * 256 + v) r
      | None => None
      end
  end.

(** [IPv4Address(address)._ip] *)
Definition IPv4Address (address : string) : option N :=
  if contains_char "/" address then None
  else if negb (truthy address) then None
  else
    let octets := split_on "." address in
    if negb (Nat.eqb (List.length octets) 4) then None
    else from_octets 0 octets.

Definition is_hex_digit (c : ascii) : bool :=
  isdigit c || in_range 65 70 c || in_range 97 102 c.

(** [IPv6Address._parse_hextet(hextet_str)]; [int('', 16)] raises. *)
Definition _parse_hextet (hextet_str : string) : option N :=
  if negb (all_of is_hex_digit hextet_str) then None
  else if Nat.ltb 4 (String.length hextet_str) then None
  else if negb (truthy hextet_str) then None
  else Some (int_from 16 0 hextet_str).

(** ['%x' % n] for a number below 65536. *)
Definition hex4 (n : N) : string :=
  let digit (k : N) := String (hex_digit (N.to_nat ((n / k) mod 16))) "" in
  if (n <? 16)%N then digit 1%N
  else if (n <? 256)%N then digit 16%N +s+ digit 1%N
  else if (n <? 4096)%N then digit 256%N +s+ digit 16%N +s+ digit 1%N
  else digit 4096%N +s+ digit 256%N +s+ digit 16%N +s+ digit 1%N.

(** The indices from [i] on at which a part is empty, the last part
    left out: the candidates for [skip_index]. *)
Fixpoint empty_inner (i : nat) (parts : list string) : list nat :=
  match parts with
  | [] => []
  | [_] => []
  | p :: r => (if truthy p then [] else [i]) ++ empty_inner (S i) r
  end.

(** [ip_int <<= 16; ip_int |= cls._parse_hextet(parts[i])] over the
    given parts. *)
Fixpoint hextets (ip_int : N) (parts : list string) : option N :=
  match parts with
  | [] => Some ip_int
  | p :: r =>
      match _parse_hextet p with
      | Some v => hextets (ip_int * 65536 + v) r
      | None => None
      end
  end.

(** [IPv6Address._ip_int_from_string(ip_str)] *)
Definition _ip_int_from_string (ip_str : string) : option N :=
  if negb (truthy ip_str) then None
  else
    let parts := split_on ":" ip_str in
    if Nat.ltb (List.length parts) 3 then None
    else
      let with_suffix :=
        if contains_char "." (last parts "") then
          match IPv4Address (last parts "") with
          | Some ipv4_int =>
              Some (removelast parts
                    ++ [hex4 ((ipv4_int / 65536) mod 65536); hex4 (ipv4_int mod 65536)])
          | None => None
          end
        else Some parts in
      match with_suffix with
      | None => None
      | Some parts =>
          if Nat.ltb 9 (List.length parts) then None
          else
            let first_empty := negb (truthy (hd "" parts)) in
            let last_empty := negb (truthy (last parts "")) in
            match empty_inner 1 (tl parts) with
            | _ :: _ :: _ => None
            | [skip_index] =>
                let parts_hi := skip_index in
                let parts_lo := List.length parts - skip_index - 1 in
                let parts_hi := if first_empty then parts_hi - 1 else parts_hi in
                let parts_lo := if last_empty then parts_lo - 1 else parts_lo in
                if first_empty && negb (Nat.eqb parts_hi 0) then None
                else if last_empty && negb (Nat.eqb parts_lo 0) then None
                else if Nat.ltb (8 - (parts_hi + parts_lo)) 1 then None
                else
                  match hextets 0 (firstn parts_hi parts) with
                  | None => None
                  | Some ip_int =>
                      hextets (ip_int * 65536 ^ N.of_nat (8 - (parts_hi + parts_lo)))
                              (skipn (List.length parts - parts_lo) parts)
                  end
            | [] =>
                if negb (Nat.eqb (List.length parts) 8) then None
                else if first_empty then None
                else if last_empty then None
                else hextets 0 parts
            end
      end.

(** [IPv6Address(address)._ip], the scope identifier checked and set
    aside. *)
Definition IPv6Address (address : string) : option N :=
  if contains_char "/" address then None
  else
    let '(addr, sep, scope_id) := partition "%" address in
    if sep && (negb (truthy scope_id) || contains_char "%" scope_id) then None
    else _ip_int_from_string addr.

Inductive address : Type :=
| V4 (ip : N)
| V6 (ip : N).

(** [ip_address(address)] *)
Definition ip_address (addr : string) : outcome address :=
  match IPv4Address addr with
  | Some ip => Returns (V4 ip)
  | None =>
      match IPv6Address addr with
      | Some ip => Returns (V6 ip)
      | None =>
          Raises (ValueError (repr addr +s+ " does not appear to be an IPv4 or IPv6 address"))
      end
  end.

End Ipaddress.

(** [re.match(r"\Av[a-fA-F0-9]+\..+\Z", hostname)]: "v", hexadecimal
    digits, a dot and at least one more character, none a line feed. *)
Definition ipvfuture (hostname : string) : bool :=
  match hostname with
  | String "v" r =>
      let '(digits, rest) := break_at (fun c => negb (Ipaddress.is_hex_digit c)) r in
      truthy digits
      && match rest with
         | String "." tail =>
             truthy tail && all_of (fun c => negb (Nat.eqb (code c) 10)) tail
         | _ => false
         end
  | _ => false
  end.

(** [_check_bracketed_host(hostname)] *)
Definition _check_bracketed_host (hostname : string) : outcome unit :=
  if startswith hostname "v" then
    if negb (ipvfuture hostname) then Raises (ValueError "IPvFuture address is invalid")
    else Returns tt
  else
    ip <- Ipaddress.ip_address hostname ;;
    match ip with
    | Ipaddress.V4 _ => Raises (ValueError "An IPv4 address cannot be in brackets")
    | Ipaddress.V6 _ => Returns tt
    end.

(** [_check_bracketed_netloc(netloc)] *)
Definition _check_bracketed_netloc (netloc : string) : outcome unit :=
  let hostname_and_port := after_last "@" netloc in
  let '(before_bracket, have_open_br, bracketed) := partition "[" hostname_and_port in
  if have_open_br then
    if truthy before_bracket then Raises (ValueError "Invalid IPv6 URL")
    else
      let '(hostname, _, port) := partition "]" bracketed in
      if truthy port && negb (startswith port ":") then
        Raises (ValueError "Invalid IPv6 URL")
      else _check_bracketed_host hostname
  else
    let '(hostname, _, port) := partition ":" hostname_and_port in
    _check_bracketed_host hostname.

Definition utf8 (bytes : list nat) : string :=
  fold_right (fun b s => String (ascii_of_nat b) s) EmptyString bytes.

(** The characters that [unicodedata.normalize('NFKC', _)] rewrites
    into a text with one of "/?#@:" (Unicode 14.0), in UTF-8. *)
Definition nfkc_hazards : list string :=
  map utf8
    [ [226; 129; 135];  (* U+2047, "??" *)
      [226; 129; 136];  (* U+2048, "?!" *)
      [226; 129; 137];  (* U+2049, "!?" *)
      [226; 132; 128];  (* U+2100, "a/c" *)
      [226; 132; 129];  (* U+2101, "a/s" *)
      [226; 132; 133];  (* U+2105, "c/o" *)
      [226; 132; 134];  (* U+2106, "c/u" *)
      [226; 169; 180];  (* U+2A74, "::=" *)
      [239; 184; 147];  (* U+FE13, ":" *)
      [239; 184; 150];  (* U+FE16, "?" *)
      [239; 185; 149];  (* U+FE55, ":" *)
      [239; 185; 150];  (* U+FE56, "?" *)
      [239; 185; 159];  (* U+FE5F, "#" *)
      [239; 185; 171];  (* U+FE6B, "@" *)
      [239; 188; 131];  (* U+FF03, "#" *)
      [239; 188; 143];  (* U+FF0F, "/" *)
      [239; 188; 154];  (* U+FF1A, ":" *)
      [239; 188; 159];  (* U+FF1F, "?" *)
      [239; 188; 160] ] (* U+FF20, "@" *).

(** [s.replace(c, '')] for each character [c] of [chars]. *)
Fixpoint remove_chars (chars s : string) : string :=
  match s with
  | EmptyString => EmptyString
  | String c r =>
      if contains_char c chars then remove_chars chars r
      else String c (remove_chars chars r)
  end.

(** [_checknetloc(netloc)], for a network location as [urlsplit] cuts
    it, without "/", "?" and "#": its normal form has one of "/?#@:"
    exactly when one of the characters above occurs in it. *)
Definition _checknetloc (netloc : string) : outcome unit :=
  if negb (truthy netloc) || isascii netloc then Returns tt
  else
    let n := remove_chars "@:#?" netloc in
    if existsb (fun hazard => has_substring hazard n) nfkc_hazards then
      Raises (ValueError ("netloc '" +s+ netloc
                          +s+ "' contains invalid characters under NFKC normalization"))
    else Returns tt.

(** [url[:i]] and [url[i+1:]] for the first colon at [i], when every
    character before it is a scheme character. *)
Fixpoint scan_scheme (s : string) : option (string * string) :=
  match s with
  | EmptyString => None
  | String c r =>
      if Ascii.eqb c ":" then Some (EmptyString, r)
      else if scheme_char c then
        match scan_scheme r with
        | Some (a, b) => Some (String c a, b)
        | None => None
        end
      else None
  end.

Definition split_scheme (url default : string) : string * string :=
  match url with
  | String c _ =>
      if isalpha c then
        match scan_scheme url with
        | Some (sch, rest) => (lower sch, rest)
        | None => (default, url)
        end
      else (default, url)
  | EmptyString => (default, url)
  end.

(** [_WHATWG_C0_CONTROL_OR_SPACE] *)
Definition c0_or_space (c : ascii) : bool := Nat.leb (code c) 32.

Fixpoint lstrip_c0 (s : string) : string :=
  match s with
  | EmptyString => EmptyString
  | String c r => if c0_or_space c then lstrip_c0 r else s
  end.

Fixpoint rstrip_c0 (s : string) : string :=
  match s with
  | EmptyString => EmptyString
  | String c r =>
      match rstrip_c0 r with
      | EmptyString => if c0_or_space c then EmptyString else String c EmptyString
      | r' => String c r'
      end
  end.

(** [scheme.strip(_WHATWG_C0_CONTROL_OR_SPACE)] *)
Definition strip_c0 (s : string) : string := rstrip_c0 (lstrip_c0 s).

(** [_UNSAFE_URL_BYTES_TO_REMOVE]: TAB, CR and LF are deleted. *)
Definition unsafe_byte (c : ascii) : bool :=
  Nat.eqb (code c) 9 || Nat.eqb (code c) 13 || Nat.eqb (code c) 10.

Fixpoint remove_unsafe (s : string) : string :=
  match s with
  | EmptyString => EmptyString
  | String c r => if unsafe_byte c then remove_unsafe r else String c (remove_unsafe r)
  end.

Definition bad_brackets (nl : string) : bool :=
  (contains_char "[" nl && negb (contains_char "]" nl))
  || (contains_char "]" nl && negb (contains_char "[" nl)).

(** [_splitnetloc(url, 2)] after a leading "//". *)
Definition split_netloc (url : string) : string * string :=
  match url with
  | String "/" (String "/" r) => break_at (one_of "/?#") r
  | _ => (EmptyString, url)
  end.

(** The checks on the network location right after it is cut. *)
Definition check_brackets (nl : string) : outcome unit :=
  if bad_brackets nl then Raises (ValueError "Invalid IPv6 URL")
  else if contains_char "[" nl && contains_char "]" nl then _check_bracketed_netloc nl
  else Returns tt.

(** A network location that passes the checks of [urlsplit]. *)
Definition accepted (nl : string) : Prop :=
  check_brackets nl = Returns tt /\ _checknetloc nl = Returns tt.

(** [urlsplit(url, scheme)] *)
Definition urlsplit (url default : string) : outcome SplitResult :=
  let url := remove_unsafe (lstrip_c0 url) in
  let default := remove_unsafe (strip_c0 default) in
  let '(sch, url) := split_scheme url default in
  let '(nl, url) := split_netloc url in
  _ <- check_brackets nl ;;
  let '(url, _, frag) := partition "#" url in
  let '(url, _, qry) := partition "?" url in
  _ <- _checknetloc nl ;;
  Returns (mkSplit sch nl url qry frag).

(** [_splitparams(url)]: the parameters follow the first ";" of the
    last path segment. *)
Fixpoint split_params (url : string) : string * string :=
  match url with
  | EmptyString => (EmptyString, EmptyString)
  | String c r =>
      if contains_char "/" r then
        let '(a, b) := split_params r in (String c a, b)
      else if Ascii.eqb c "/" then
        let '(a, _, b) := partition ";" r in (String c a, b)
      else
        let '(a, _, b) := partition ";" url in (a, b)
  end.

(** [urlparse(url, scheme)] *)
Definition urlparse (url default : string) : outcome ParseResult :=
  r <- urlsplit url default ;;
  let '(pth, prm) :=
    if mem (scheme r) uses_params && contains_char ";" (path r)
    then split_params (path r) else (path r, EmptyString) in
  Returns (mkParse (scheme r) (netloc r) pth prm (query r) (fragment r)).

(** [urlunsplit((scheme, netloc, url, query, fragment))] *)
Definition urlunsplit (sch nl url qry frag : string) : string :=
  let url :=
    if truthy nl || (truthy sch && mem sch uses_netloc
                     && negb (startswith url "//"))
    then "//" +s+ nl +s+ (if truthy url && negb (startswith url "/")
                          then "/" +s+ url else url)
    else url in
  let url := if truthy sch then sch +s+ ":" +s+ url else url in
  let url := if truthy qry then url +s+ "?" +s+ qry else url in
  if truthy frag then url +s+ "#" +s+ frag else url.

(** [urlunparse((scheme, netloc, url, params, query, fragment))] *)
Definition urlunparse (sch nl url prm qry frag : string) : string :=
  urlunsplit sch nl (if truthy prm then url +s+ ";" +s+ prm else url) qry frag.

(** The loop of [urljoin] over the merged segments: ".." drops the
    last kept segment, "." is skipped.  [kept] is last-first. *)
Fixpoint resolve (segments kept : list string) : list string :=
  match segments with
  | [] => rev kept
  | seg :: r =>
      if String.eqb seg ".." then resolve r (tl kept)
      else if String.eqb seg "." then resolve r kept
      else resolve r (seg :: kept)
  end.

(** [segments[1:-1] = filter(None, segments[1:-1])] *)
Definition drop_empty_inner (segments : list string) : list string :=
  match segments with
  | [] => []
  | first :: r =>
      match rev r with
      | [] => [first]
      | last :: mid => first :: filter truthy (rev mid) ++ [last]
      end
  end.

Definition merge_paths (bpath pth : string) : string :=
  let base_parts := split_on "/" bpath in
  let base_parts :=
    if String.eqb (last base_parts "") "" then base_parts
    else removelast base_parts in
  let segments :=
    if startswith pth "/" then split_on "/" pth
    else drop_empty_inner (base_parts ++ split_on "/" pth) in
  let resolved := resolve segments [] in
  let resolved :=
    if mem (last segments "") ["."; ".."] then resolved ++ [""] else resolved in
  let joined := join "/" resolved in
  if truthy joined then joined else "/".

(** [urljoin(base, url)] *)
Definition urljoin (base url : string) : outcome string :=
  if negb (truthy base) then Returns url
  else if negb (truthy url) then Returns base
  else
    b <- urlparse base "" ;;
    u <- urlparse url (p_scheme b) ;;
    if negb (String.eqb (p_scheme u) (p_scheme b))
       || negb (mem (p_scheme u) uses_relative)
    then Returns url
    else if mem (p_scheme u) uses_netloc && truthy (p_netloc u) then
      Returns (urlunparse (p_scheme u) (p_netloc u) (p_path u) (p_params u)
                          (p_query u) (p_fragment u))
    else
      let nl := if mem (p_scheme u) uses_netloc then p_netloc b else p_netloc u in
      if negb (truthy (p_path u)) && negb (truthy (p_params u)) then
        Returns (urlunparse (p_scheme u) nl (p_path b) (p_params b)
                   (if truthy (p_query u) then p_query u else p_query b)
                   (p_fragment u))
      else
        Returns (urlunparse (p_scheme u) nl (merge_paths (p_path b) (p_path u))
                   (p_params u) (p_query u) (p_fragment u)).

(** [urlsplit(url).hostname]: the host of a URL, without user
    information and port, lower-cased up to a zone identifier. *)
Definition hostname_of (nl : string) : string :=
  let hostinfo := after_last "@" nl in
  let '(_, open_br, bracketed) := partition "[" hostinfo in
  let host :=
    if open_br then fst (fst (partition "]" bracketed))
    else fst (fst (partition ":" hostinfo)) in
  let '(h, pct, zone) := partition "%" host in
  lower h +s+ (if pct then "%" else "") +s+ zone.

Definition hostname (url : string) : outcome string :=
  r <- urlsplit url "" ;; Returns (hostname_of (netloc r)).

(** A URL is absolute when it carries its own scheme. *)
Definition is_absolute (url : string) : bool :=
  match urlsplit url "" with
  | Returns r => truthy (scheme r)
  | Raises _ => false
  end.

(** The scheme [urlsplit] finds written in [url], empty when [url]
    has none. *)
Definition scheme_of (url : string) : string :=
  fst (split_scheme (remove_unsafe (lstrip_c0 url)) "").

(** The text is empty or begins with a character of the class. *)
Definition begins_with (p : ascii -> bool) (s : string) : Prop :=
  match s with
  | EmptyString => True
  | String c _ => p c = true
  end.

(** No character of [s] is one that [urlsplit] deletes. *)
Fixpoint all_safe (s : string) : bool :=
  match s with
  | EmptyString => true
  | String c r => negb (unsafe_byte c) && all_safe r
  end.

(** A well-formed base URL: [urlsplit] accepts it and finds the http or
    https scheme and a network location. *)
Definition well_formed_base (base : string) : bool :=
  match urlsplit base "" with
  | Returns b =>
      (String.eqb (scheme b) "http" || String.eqb (scheme b) "https")
      && truthy (netloc b)
  | Raises _ => false
  end.

End Urllib.

(* ================================================================= *)
(** ** A model of the [re] calls: backtracking match, [findall], [sub] *)

Module Re.

(** The patterns of the source are sequences of word boundaries and
    greedily repeated character classes. *)
Inductive item : Type :=
| Boundary
| Rep (cls : ascii -> bool) (lo : nat) (hi : option nat).

Definition regex : Type := list item.

Definition lit (c : ascii) : item := Rep (Ascii.eqb c) 1 (Some 1).

(** [\w] on the ASCII range. *)
Definition word_char (c : ascii) : bool := isalnum c || Ascii.eqb c "_".

Definition word_opt (o : option ascii) : bool :=
  match o with Some c => word_char c | None => false end.

Definition head (s : string) : option ascii :=
  match s with String c _ => Some c | EmptyString => None end.

(** [\b] between the previous character and the rest of the text. *)
Definition at_boundary (prev : option ascii) (s : string) : bool :=
  xorb (word_opt prev) (word_opt (head s)).

Definition may_take (hi : option nat) : bool :=
  match hi with Some O => false | _ => true end.

Definition dec (hi : option nat) : option nat :=
  match hi with Some n => Some (pred n) | None => None end.

(** Greedy repetition: take one more character of the class when
    allowed and the rest of the pattern then matches, else stop here
    when enough were taken.  The result is the number of characters
    the match consumes from [s] on. *)
Fixpoint rep (cls : ascii -> bool) (k : option ascii -> string -> option nat)
         (lo : nat) (hi : option nat) (prev : option ascii) (s : string)
  : option nat :=
  let stop := match lo with O => k prev s | S _ => None end in
  match s with
  | EmptyString => stop
  | String c r =>
      if cls c && may_take hi then
        match rep cls k (pred lo) (dec hi) (Some c) r with
        | Some n => Some (S n)
        | None => stop
        end
      else stop
  end.

Fixpoint match_here (re : regex) : option ascii -> string -> option nat :=
  match re with
  | [] => fun _ _ => Some 0
  | Boundary :: r =>
      fun prev s => if at_boundary prev s then match_here r prev s else None
  | Rep cls lo hi :: r => rep cls (match_here r) lo hi
  end.

(** The scan of [findall]: [skip] characters of the last match are
    still to be passed over. *)
Fixpoint scan (re : regex) (prev : option ascii) (s : string) (skip : nat)
  : list string :=
  match skip with
  | S k =>
      match s with
      | EmptyString => []
      | String c r => scan re (Some c) r k
      end
  | O =>
      match match_here re prev s with
      | Some n =>
          substring 0 n s ::
          match s with
          | EmptyString => []
          | String c r => scan re (Some c) r (pred n)
          end
      | None =>
          match s with
          | EmptyString => []
          | String c r => scan re (Some c) r 0
          end
      end
  end.

(** [re.findall(pattern, text)] for a pattern without groups. *)
Definition findall (re : regex) (text : string) : list string :=
  scan re None text 0.

(** [re.sub(r'\s+', ' ', text)] *)
Fixpoint sub_spaces_from (in_run : bool) (s : string) : string :=
  match s with
  | EmptyString => EmptyString
  | String c r =>
      if isspace c then
        if in_run then sub_spaces_from true r
        else String " " (sub_spaces_from true r)
      else String c (sub_spaces_from false r)
  end.

Definition sub_spaces (text : string) : string := sub_spaces_from false text.

Definition digit : ascii -> bool := isdigit.
Definition one_of (chars : string) (c : ascii) : bool := contains_char c chars.

End Re.

(* ================================================================= *)
(** ** scrape.py: the structural extractor *)

Module Scrape.
Import Bs4.

Record link : Type := mkLink {
  link_text : string;
  link_url : string;
  link_is_external : bool
}.

Record image : Type := mkImage {
  img_src : string;
  img_alt : string;
  img_title : string
}.

Record html_list : Type := mkList {
  list_type : string;
  list_items : list string
}.

Record form_input : Type := mkInput {
  input_type : string;
  input_name : string;
  input_placeholder : string;
  input_required : bool
}.

Record form : Type := mkForm {
  form_action : string;
  form_method : string;
  form_inputs : list form_input
}.

Record headings_t : Type := mkHeadings {
  h1 : list string;
  h2 : list string;
  h3 : list string
}.

Record contact_info_t : Type := mkContact {
  emails : list string;
  phones : list string;
  addresses : list string
}.

(** The dictionary [dom_data]. *)
Record dom_data : Type := mkDom {
  title : string;
  meta_description : string;
  headings : headings_t;
  links : list link;
  images : list image;
  paragraphs : list string;
  lists : list html_list;
  tables : list (list (list string));
  forms : list form;
  contact_info : contact_info_t
}.

(** The failure marker that opens every sentinel string. *)
Definition error_marker : string := "❌".

(** [r'\b[A-Za-z0-9._%+-]+@[A-Za-z0-9.-]+\.[A-Z|a-z]{2,}\b'] *)
Definition email_pattern : Re.regex :=
  [Re.Boundary;
   Re.Rep (fun c => isalnum c || Re.one_of "._%+-" c) 1 None;
   Re.lit "@";
   Re.Rep (fun c => isalnum c || Re.one_of ".-" c) 1 None;
   Re.lit ".";
   Re.Rep (fun c => isupper c || Re.one_of "|" c || islower c) 2 None;
   Re.Boundary].

Definition phone_patterns : list Re.regex :=
  [ (* r'\b\d{3}[-.]?\d{3}[-.]?\d{4}\b' *)
    [Re.Boundary; Re.Rep Re.digit 3 (Some 3); Re.Rep (Re.one_of "-.") 0 (Some 1);
     Re.Rep Re.digit 3 (Some 3); Re.Rep (Re.one_of "-.") 0 (Some 1);
     Re.Rep Re.digit 4 (Some 4); Re.Boundary];
    (* r'\b\(\d{3}\)\s?\d{3}[-.]?\d{4}\b' *)
    [Re.Boundary; Re.lit "("; Re.Rep Re.digit 3 (Some 3); Re.lit ")";
     Re.Rep isspace 0 (Some 1); Re.Rep Re.digit 3 (Some 3);
     Re.Rep (Re.one_of "-.") 0 (Some 1); Re.Rep Re.digit 4 (Some 4); Re.Boundary];
    (* r'\b\+\d{1,3}[-.\s]?\d{1,14}\b' *)
    [Re.Boundary; Re.lit "+"; Re.Rep Re.digit 1 (Some 3);
     Re.Rep (fun c => Re.one_of "-." c || isspace c) 0 (Some 1);
     Re.Rep Re.digit 1 (Some 14); Re.Boundary] ].

(** [[x.get_text().strip() for x in xs]] *)
Definition stripped_texts (xs : list node) : list string :=
  map (fun x => strip (node_text x)) xs.

(** [soup.title.string.strip() if soup.title else 'No title found'] *)
Definition extract_title (soup : soup) : outcome string :=
  match find "title" soup with
  | Some t =>
      match string_of t with
      | Some s => Returns (strip s)
      | None => Raises (AttributeError "'NoneType' object has no attribute 'strip'")
      end
  | None => Returns "No title found"
  end.

Definition extract_meta_description (soup : soup) : string :=
  match find_attr "meta" "name" "description" soup with
  | Some meta_desc => get meta_desc "content" ""
  | None => ""
  end.

(** One round of the links loop: the entry appended, if any. *)
Definition extract_link (base_url : string) (a : node) : outcome (option link) :=
  let link_text := strip (node_text a) in
  link_url <- Urllib.urljoin base_url (get a "href" "") ;;
  if truthy link_text then
    r <- Urllib.urlparse link_url "" ;;
    b <- Urllib.urlparse base_url "" ;;
    Returns (Some (mkLink link_text link_url
                     (negb (String.eqb (Urllib.p_netloc r) (Urllib.p_netloc b)))))
  else Returns None.

(** One round of the images loop. *)
Definition extract_image (base_url : string) (img : node) : outcome (option image) :=
  let img_src := get img "src" "" in
  if truthy img_src then
    u <- Urllib.urljoin base_url img_src ;;
    Returns (Some (mkImage u (get img "alt" "") (get img "title" "")))
  else Returns None.

(** The entries a loop appended, in order. *)
Fixpoint appended {A : Type} (rounds : list (option A)) : list A :=
  match rounds with
  | [] => []
  | Some x :: r => x :: appended r
  | None :: r => appended r
  end.

Definition nonempty {A : Type} (l : list A) : bool :=
  match l with [] => false | _ :: _ => true end.

Definition extract_list (ul : node) : option html_list :=
  let list_items := stripped_texts (find_all ["li"] (tag_contents ul)) in
  if nonempty list_items then Some (mkList (tag_name ul) list_items) else None.

Definition extract_row (row : node) : list string :=
  stripped_texts (find_all ["td"; "th"] (tag_contents row)).

Definition extract_table (table : node) : list (list string) :=
  filter nonempty (map extract_row (find_all ["tr"] (tag_contents table))).

Definition extract_input (input_field : node) : form_input :=
  mkInput (get input_field "type" (tag_name input_field))
          (get input_field "name" "")
          (get input_field "placeholder" "")
          (has_attr input_field "required").

Definition extract_form (f : node) : form :=
  mkForm (get f "action" "") (get f "method" "get")
         (map extract_input (find_all ["input"; "textarea"; "select"] (tag_contents f))).

Definition extract_emails (text_content : string) : list string :=
  list_set (Re.findall email_pattern text_content).

(** The three [extend] calls, then [list(set(...))]. *)
Definition extract_phones (text_content : string) : list string :=
  list_set (flat_map (fun pattern => Re.findall pattern text_content) phone_patterns).

Section WithParser.

(** [BeautifulSoup(markup, 'html.parser')]: any tree builder, which
    may reject the markup by raising. *)
Variable BeautifulSoup : string -> outcome soup.

(** The body of the [try] block of [parse_dom_content]. *)
Definition parse_dom_body (html_content base_url : string) : outcome dom_data :=
  soup <- BeautifulSoup html_content ;;
  title <- extract_title soup ;;
  let headings :=
    mkHeadings (stripped_texts (find_all ["h1"] soup))
               (stripped_texts (find_all ["h2"] soup))
               (stripped_texts (find_all ["h3"] soup)) in
  let paragraphs := filter truthy (stripped_texts (find_all ["p"] soup)) in
  let meta_description := extract_meta_description soup in
  link_rounds <- mapM (extract_link base_url) (find_all_with "a" "href" soup) ;;
  image_rounds <- mapM (extract_image base_url) (find_all ["img"] soup) ;;
  let lists := appended (map extract_list (find_all ["ul"; "ol"] soup)) in
  let tables := filter nonempty (map extract_table (find_all ["table"] soup)) in
  let forms := map extract_form (find_all ["form"] soup) in
  let text_content := get_text soup in
  Returns (mkDom title meta_description headings (appended link_rounds)
                 (appended image_rounds) paragraphs lists tables forms
                 (mkContact (extract_emails text_content)
                            (extract_phones text_content)
                            [])).

(** [parse_dom_content(html_content, base_url)]; [None] is Python's
    [None]. *)
Definition parse_dom_content (html_content base_url : string)
  : outcome (option dom_data) :=
  if negb (truthy html_content) || startswith html_content error_marker
  then Returns None
  else match parse_dom_body html_content base_url with
       | Returns dom => Returns (Some dom)
       | Raises _ => Returns None
       end.

End WithParser.

End Scrape.

(* ================================================================= *)
(** ** A model of LangChain's [RecursiveCharacterTextSplitter]

    As the source configures it: [length_function=len], the default
    [keep_separator=True] and [strip_whitespace=True], literal
    separators. *)

Module TextSplitter.

Definition len (s : string) : Z := Z.of_nat (String.length s).

Definition nonempty {A : Type} (l : list A) : bool :=
  match l with [] => false | _ :: _ => true end.

(** [sep in text] *)
Fixpoint contains (sep text : string) : bool :=
  String.prefix sep text ||
  match text with
  | EmptyString => false
  | String _ r => contains sep r
  end.

(** [re.split(re.escape(sep), text)] for a non-empty [sep]; [skip]
    characters of the separator just found are still to be passed. *)
Fixpoint split_str (sep text : string) (skip : nat) : list string :=
  match text with
  | EmptyString => [""]
  | String c r =>
      match skip with
      | S k => split_str sep r k
      | O =>
          if String.prefix sep text then "" :: split_str sep r (pred (String.length sep))
          else match split_str sep r 0 with
               | p :: ps => String c p :: ps
               | [] => [String c ""]
               end
      end
  end.

Fixpoint chars (text : string) : list string :=
  match text with
  | EmptyString => []
  | String c r => String c "" :: chars r
  end.

(** [_split_text_with_regex(text, separator, keep_separator=True)]:
    each separator stays at the start of the piece that follows it;
    empty pieces are dropped. *)
Definition split_text_with_regex (text separator : string) : list string :=
  let splits :=
    if truthy separator then
      match split_str separator text 0 with
      | [] => []
      | first :: r => first :: map (fun piece => separator +s+ piece) r
      end
    else chars text in
  filter truthy splits.

(** [_join_docs(docs, separator)] *)
Definition join_docs (docs : list string) (separator : string) : option string :=
  let text := strip (join separator docs) in
  if truthy text then Some text else None.

Definition opt_list {A : Type} (o : option A) : list A :=
  match o with Some x => [x] | None => [] end.

Section Sized.

Variables chunk_size chunk_overlap : Z.

(** The [while] loop of [_merge_splits]: pieces leave the front of
    [current_doc] while it is longer than the overlap, or too long
    for the next piece to fit. *)
Fixpoint pop_front (separator_len _len : Z) (current_doc : list string) (total : Z)
  : outcome (list string * Z) :=
  let go :=
    (chunk_overlap <? total)%Z
    || ((chunk_size <? total + _len
                       + (if nonempty current_doc then separator_len else 0))%Z
        && (0 <? total)%Z) in
  if go then
    match current_doc with
    | [] => Raises (OtherException "IndexError: list index out of range")
    | d0 :: rest =>
        pop_front separator_len _len rest
          (total - (len d0 + (if nonempty rest then separator_len else 0)))%Z
    end
  else Returns (current_doc, total).

Fixpoint merge_loop (separator : string) (splits docs current_doc : list string)
         (total : Z) : outcome (list string) :=
  let separator_len := len separator in
  match splits with
  | [] => Returns (docs ++ opt_list (join_docs current_doc separator))
  | d :: r =>
      let _len := len d in
      st <-
        (if (chunk_size <? total + _len
                           + (if nonempty current_doc then separator_len else 0))%Z
            && nonempty current_doc
         then
           popped <- pop_front separator_len _len current_doc total ;;
           Returns (docs ++ opt_list (join_docs current_doc separator), popped)
         else Returns (docs, (current_doc, total))) ;;
      let '(docs, (current_doc, total)) := st in
      merge_loop separator r docs (current_doc ++ [d])
        (total + _len + (if nonempty current_doc then separator_len else 0))%Z
  end.

(** [_merge_splits(splits, separator)] *)
Definition merge_splits (splits : list string) (separator : string)
  : outcome (list string) :=
  merge_loop separator splits [] [] 0%Z.

Definition flush_good (good_splits : list string) : outcome (list string) :=
  if nonempty good_splits then merge_splits good_splits "" else Returns [].

(** The loop of [_split_text] over the pieces; [deeper] splits a long
    piece with the remaining separators, when there are any. *)
Fixpoint split_loop (deeper : option (string -> outcome (list string)))
         (splits good_splits : list string) : outcome (list string) :=
  match splits with
  | [] => flush_good good_splits
  | s :: r =>
      if (len s <? chunk_size)%Z then split_loop deeper r (good_splits ++ [s])
      else
        merged <- flush_good good_splits ;;
        other <- match deeper with
                 | None => Returns [s]
                 | Some split => split s
                 end ;;
        rest <- split_loop deeper r [] ;;
        Returns (merged ++ other ++ rest)
  end.

(** [_split_text(text, separators)]: the first separator that is
    empty or occurs in [text] is used, the last one failing that. *)
Fixpoint _split_text (separators : list string) (text : string)
  : outcome (list string) :=
  match separators with
  | [] => Raises (OtherException "IndexError: list index out of range")
  | s :: new_separators =>
      if negb (truthy s) then
        split_loop None (split_text_with_regex text s) []
      else if contains s text then
        split_loop (if nonempty new_separators
                    then Some (_split_text new_separators) else None)
                   (split_text_with_regex text s) []
      else
        match new_separators with
        | [] => split_loop None (split_text_with_regex text s) []
        | _ :: _ => _split_text new_separators text
        end
  end.

(** The constructor's checks, then [split_text(text)]. *)
Definition split_text (separators : list string) (text : string)
  : outcome (list string) :=
  if (chunk_size <=? 0)%Z then
    Raises (ValueError "chunk_size must be > 0")
  else if (chunk_overlap <? 0)%Z then
    Raises (ValueError "chunk_overlap must be >= 0")
  else if (chunk_size <? chunk_overlap)%Z then
    Raises (ValueError "Got a larger chunk overlap than chunk size")
  else _split_text separators text.

End Sized.

End TextSplitter.

(* ================================================================= *)
(** ** scrape.py: the chunker and the fetch orchestrator *)

Module Fetch.
Import Bs4 Scrape.

(** The dictionary [{'html': ..., 'dom_data': ..., 'url': ...}]. *)
Record bundle : Type := mkBundle {
  b_html : string;
  b_dom_data : option dom_data;
  b_url : string
}.

(** What [scrape_website] returns: a [str] (markup or a failure
    sentinel) or the dictionary. *)
Inductive result : Type :=
| Str (s : string)
| Dict (b : bundle).

(** The argument of [create_content_chunks]. *)
Inductive content : Type :=
| CStr (s : string)
| CDict (b : bundle)
| COther (str : string).

(** [tag.decompose()] for every tag called one of [names]. *)
Fixpoint decompose (names : list string) (n : node) : list node :=
  match n with
  | Tag nm a cs =>
      if existsb (String.eqb nm) names then []
      else [Tag nm a (flat_map (decompose names) cs)]
  | _ => [n]
  end.

Definition separators : list string :=
  [String (ascii_of_nat 10) (String (ascii_of_nat 10) "");
   String (ascii_of_nat 10) "";
   ". "; "! "; "? "; " "; ""].

(** The text parts of the structured branch, in order. *)
Definition text_parts (d : dom_data) : list string :=
  (if truthy (title d) then ["Title: " +s+ title d] else [])
  ++ (if truthy (meta_description d)
      then ["Description: " +s+ meta_description d] else [])
  ++ map (fun heading => upper "h1" +s+ ": " +s+ heading) (h1 (headings d))
  ++ map (fun heading => upper "h2" +s+ ": " +s+ heading) (h2 (headings d))
  ++ map (fun heading => upper "h3" +s+ ": " +s+ heading) (h3 (headings d))
  ++ paragraphs d
  ++ flat_map list_items (lists d).

Definition newline : string := String (ascii_of_nat 10) "".

(** The outside world of the two fetch strategies: what the HTTP
    request and the browser session give for a URL. *)
Record world : Type := mkWorld {
  http_get : string -> outcome string;
  browser_get : string -> outcome string
}.

(** A strategy was invoked on a URL. *)
Inductive event : Type :=
| Requests (url : string)
| Selenium (url : string).

(** [scrape_with_requests(website)]: the response text, or [None] when
    anything in the [try] block raised. *)
Definition scrape_with_requests (w : world) (website : string)
  : option string * list event :=
  (match http_get w website with
   | Returns text => Some text
   | Raises _ => None
   end, [Requests website]).

(** [scrape_with_selenium(website)] *)
Definition scrape_with_selenium (w : world) (website : string)
  : option string * list event :=
  (match browser_get w website with
   | Returns html => Some html
   | Raises _ => None
   end, [Selenium website]).

Definition all_failed : string :=
  "❌ All scraping methods failed. The website might be blocking requests or requires special handling.".

Definition no_url : string := "❌ Please provide a valid URL".

(** [website.startswith(('http://', 'https://'))] *)
Definition has_protocol (website : string) : bool :=
  startswith website "http://" || startswith website "https://".

(** The "add protocol if missing" step. *)
Definition normalize (website : string) : string :=
  if has_protocol website then website else "https://" +s+ website.

(** The caller's test, [isinstance(result, str) and result.startswith("❌")]. *)
Definition is_failure (r : result) : bool :=
  match r with
  | Str s => startswith s error_marker
  | Dict _ => false
  end.

(** The markup a returned value carries: the string itself, or the
    dictionary's ['html']. *)
Definition markup_of (r : result) : string :=
  match r with
  | Str s => s
  | Dict b => b_html b
  end.

Definition event_url (e : event) : string :=
  match e with Requests url => url | Selenium url => url end.

Section WithParser.

Variable BeautifulSoup : string -> outcome soup.

(** [create_content_chunks(content, chunk_size, chunk_overlap)] *)
Definition create_content_chunks (c : content) (chunk_size chunk_overlap : Z)
  : outcome (list string) :=
  content_text <-
    match c with
    | CDict b =>
        match b_dom_data b with
        | Some d => Returns (join newline (text_parts d))
        | None => Raises (TypeError "'NoneType' object is not subscriptable")
        end
    | CStr s =>
        soup <- BeautifulSoup s ;;
        Returns (get_text (flat_map (decompose ["script"; "style"]) soup))
    | COther str => Returns str
    end ;;
  let content_text := strip (Re.sub_spaces content_text) in
  TextSplitter.split_text chunk_size chunk_overlap separators content_text.

(** [scrape_website(website, parse_dom)], with the strategies it
    invoked, in order. *)
Definition scrape_website (w : world) (website : string) (parse_dom : bool)
  : outcome result * list event :=
  if negb (truthy website) then (Returns (Str no_url), [])
  else
    let website := normalize website in
    let '(html, log1) := scrape_with_requests w website in
    let '(html, log2) :=
      if negb (truthy_opt html) then scrape_with_selenium w website
      else (html, []) in
    match html with
    | Some (String c r as html) =>
        if parse_dom then
          (dom <- parse_dom_content BeautifulSoup html website ;;
           Returns (Dict (mkBundle html dom website)), log1 ++ log2)
        else (Returns (Str html), log1 ++ log2)
    | _ => (Returns (Str all_failed), log1 ++ log2)
    end.

End WithParser.

End Fetch.


(* ================================================================= *)
(** ** scrape.py: the analysis of the chunks by the language model *)

Module Analyze.

(** [str(e)] *)
Definition str_exn (e : exn) : string :=
  match e with
  | AttributeError msg => msg
  | ValueError msg => msg
  | TypeError msg => msg
  | OtherException msg => msg
  end.

(** The Ollama service: [OllamaLLM(model=model_name)], and what the
    call numbered [i] (from 0) of [llm.invoke(prompt)] gives. *)
Record ollama : Type := mkOllama {
  connect : string -> outcome unit;
  invoke : nat -> string -> outcome string
}.

(** One entry of the list [analyze_content_with_llm] returns: the
    dictionary of a chunk, or the dictionary [{'error': ...}]. *)
Inductive analysis_result : Type :=
| ChunkAnalysis (chunk_id : nat) (chunk_preview analysis : string) (chunk_length : nat)
| AnalysisError (error : string).

(** The dictionary [prompts]. *)
Definition prompts : list (string * string) :=
  [("summarize",
    "Summarize the following content in 2-3 sentences, focusing on the main points:");
   ("extract_key_info",
    "Extract the most important information, key facts, and main topics from this content:");
   ("analyze_sentiment",
    "Analyze the sentiment and tone of this content. Is it positive, negative, or neutral? Explain:");
   ("find_contacts",
    "Find any contact information, company names, or important details from this content:");
   ("extract_topics",
    "What are the main topics and themes discussed in this content? List them:");
   ("generate_questions",
    "Generate 3-5 relevant questions that this content answers:");
   ("critique",
    "Provide a brief critique or analysis of this content - what's good, what could be improved:");
   ("keywords",
    "Extract the main keywords and important terms from this content:")].

(** [prompts.get(analysis_type, prompts["summarize"])] *)
Definition prompt_template (analysis_type : string) : string :=
  match Bs4.lookup analysis_type prompts with
  | Some p => p
  | None =>
      "Summarize the following content in 2-3 sentences, focusing on the main points:"
  end.

(** [chunk[:200] + "..." if len(chunk) > 200 else chunk] *)
Definition chunk_preview_of (chunk : string) : string :=
  if Nat.ltb 200 (String.length chunk) then substring 0 200 chunk +s+ "..." else chunk.

Definition two_newlines : string :=
  String (ascii_of_nat 10) (String (ascii_of_nat 10) "").

(** [f"{prompt_template}\n\n{chunk}\n\nAnalysis:"] *)
Definition full_prompt (template chunk : string) : string :=
  template +s+ two_newlines +s+ chunk +s+ two_newlines +s+ "Analysis:".

(** One round of the loop over [enumerate(chunks)]. *)
Definition analyze_chunk (llm : ollama) (template : string) (i : nat) (chunk : string)
  : analysis_result :=
  match invoke llm i (full_prompt template chunk) with
  | Returns response =>
      ChunkAnalysis (i + 1) (chunk_preview_of chunk) (strip response)
                    (String.length chunk)
  | Raises e =>
      ChunkAnalysis (i + 1) (chunk_preview_of chunk)
                    ("Error processing this chunk: " +s+ str_exn e)
                    (String.length chunk)
  end.

Fixpoint analyze_from (llm : ollama) (template : string) (i : nat)
         (chunks : list string) : list analysis_result :=
  match chunks with
  | [] => []
  | chunk :: r => analyze_chunk llm template i chunk :: analyze_from llm template (S i) r
  end.

(** [analyze_content_with_llm(chunks, analysis_type, model_name)] *)
Definition analyze_content_with_llm (llm : ollama) (chunks : list string)
           (analysis_type model_name : string) : list analysis_result :=
  match connect llm model_name with
  | Returns _ => analyze_from llm (prompt_template analysis_type) 0 chunks
  | Raises e => [AnalysisError ("LLM analysis failed: " +s+ str_exn e)]
  end.

Definition is_chunk_analysis (r : analysis_result) : bool :=
  match r with ChunkAnalysis _ _ _ _ => true | AnalysisError _ => false end.

Definition chunk_id_of (r : analysis_result) : nat :=
  match r with ChunkAnalysis i _ _ _ => i | AnalysisError _ => 0 end.

Definition preview_of (r : analysis_result) : string :=
  match r with ChunkAnalysis _ p _ _ => p | AnalysisError _ => "" end.

Definition analysis_of (r : analysis_result) : string :=
  match r with ChunkAnalysis _ _ a _ => a | AnalysisError e => e end.

Definition chunk_length_of (r : analysis_result) : nat :=
  match r with ChunkAnalysis _ _ _ n => n | AnalysisError _ => 0 end.

End Analyze.

(* ================================================================= *)
(** ** main.py and parse.py: text cleaning, extraction by the model,
       suggestions *)

Module Clean.
Import Bs4.

(** The ASCII line boundaries of [str.splitlines]: LF, VT, FF, CR, FS,
    GS and RS. *)
Definition linebreak (c : ascii) : bool :=
  in_range 10 13 c || in_range 28 30 c.

(** The lines of [s]; a line feed right after a carriage return belongs
    to the same boundary. *)
Fixpoint lines_from (after_cr : bool) (s : string) : list string :=
  match s with
  | EmptyString => []
  | String c r =>
      if after_cr && Nat.eqb (code c) 10 then lines_from false r
      else if linebreak c then "" :: lines_from (Nat.eqb (code c) 13) r
      else match lines_from false r with
           | [] => [String c ""]
           | l :: ls => String c l :: ls
           end
  end.

(** [text.splitlines()] *)
Definition splitlines (text : string) : list string := lines_from false text.

(** [line.split(sep)] for a non-empty separator. *)
Definition split (line sep : string) : list string :=
  TextSplitter.split_str sep line 0.

(** The phrases of the text: every line stripped, cut at each double
    space, every piece stripped. *)
Definition phrases (text : string) : list string :=
  flat_map (fun line => map strip (split (strip line) "  ")) (splitlines text).

(** [' '.join(chunk for chunk in chunks if chunk)] *)
Definition clean_text (text : string) : string :=
  join " " (filter truthy (phrases text)).

(** [for element in soup(tag_type): element.decompose()], for each tag
    type in turn. *)
Definition decompose_each (unwanted_tags : list string) (page : soup) : soup :=
  fold_left (fun s tag_type => flat_map (Fetch.decompose [tag_type]) s)
            unwanted_tags page.

Definition unwanted_tags : list string :=
  ["script"; "style"; "noscript"; "header"; "footer"; "nav"].

Definition no_match : string := "No matching information found.".

Definition truncation_note : string :=
  Analyze.two_newlines +s+ "[Note: Content was truncated due to length]".

(** [r'\$\d+', r'\d+\s*USD', r'Price:', r'Cost:'] under [re.IGNORECASE] *)
Definition ilit (c : ascii) : Re.item :=
  Re.Rep (fun x => Ascii.eqb (to_lower x) (to_lower c)) 1 (Some 1).

Definition price_patterns : list Re.regex :=
  [ [Re.lit "$"; Re.Rep Re.digit 1 None];
    [Re.Rep Re.digit 1 None; Re.Rep isspace 0 None; ilit "U"; ilit "S"; ilit "D"];
    [ilit "P"; ilit "r"; ilit "i"; ilit "c"; ilit "e"; Re.lit ":"];
    [ilit "C"; ilit "o"; ilit "s"; ilit "t"; Re.lit ":"] ].

Definition date_patterns : list Re.regex :=
  [ (* r'\b\d{1,2}[/-]\d{1,2}[/-]\d{2,4}\b' *)
    [Re.Boundary; Re.Rep Re.digit 1 (Some 2); Re.Rep (Re.one_of "/-") 1 (Some 1);
     Re.Rep Re.digit 1 (Some 2); Re.Rep (Re.one_of "/-") 1 (Some 1);
     Re.Rep Re.digit 2 (Some 4); Re.Boundary];
    (* r'\b\w+\s+\d{1,2},?\s+\d{4}\b' *)
    [Re.Boundary; Re.Rep Re.word_char 1 None; Re.Rep isspace 1 None;
     Re.Rep Re.digit 1 (Some 2); Re.Rep (Re.one_of ",") 0 (Some 1);
     Re.Rep isspace 1 None; Re.Rep Re.digit 4 (Some 4); Re.Boundary] ].

(** [r'\b\d{3}[-.]?\d{3}[-.]?\d{4}\b'] *)
Definition phone_pattern : Re.regex :=
  [Re.Boundary; Re.Rep Re.digit 3 (Some 3); Re.Rep (Re.one_of "-.") 0 (Some 1);
   Re.Rep Re.digit 3 (Some 3); Re.Rep (Re.one_of "-.") 0 (Some 1);
   Re.Rep Re.digit 4 (Some 4); Re.Boundary].

(** The truth value of [re.search(pattern, text)]. *)
Definition search (pattern : Re.regex) (text : string) : bool :=
  Scrape.nonempty (Re.findall pattern text).

Definition when (b : bool) (suggestion : string) : list string :=
  if b then [suggestion] else [].

(** The list [suggestions] before it is cut. *)
Definition suggestions_of (soup : soup) : list string :=
  let text_content := get_text soup in
  when (Scrape.nonempty (find_all ["h1"] soup)) "Main headings and titles"
  ++ when (Scrape.nonempty (find_all ["p"] soup)) "All paragraph text content"
  ++ when (Scrape.nonempty (find_all_with "a" "href" soup)) "All links and URLs"
  ++ when (Scrape.nonempty (find_all ["img"] soup)) "Image sources and alt text"
  ++ when (Scrape.nonempty (find_all ["ul"; "ol"] soup)) "List items and bullet points"
  ++ when (Scrape.nonempty (find_all ["table"] soup)) "Table data and structured information"
  ++ when (Scrape.nonempty (find_all ["form"] soup)) "Form fields and input elements"
  ++ when (search Scrape.email_pattern text_content) "Email addresses"
  ++ when (search phone_pattern text_content) "Phone numbers"
  ++ when (existsb (fun pattern => search pattern text_content) price_patterns)
          "Prices and pricing information"
  ++ when (existsb (fun pattern => search pattern text_content) date_patterns)
          "Dates and timestamps".

(** The list returned when the analysis raised. *)
Definition generic_suggestions : list string :=
  ["Main headings and titles"; "All links and URLs"; "Contact information";
   "Product names and descriptions"; "Prices and costs";
   "Email addresses and phone numbers"].

Section WithParser.

Variable BeautifulSoup : string -> outcome soup.

(** main.py, [clean_html_content(html_content)] *)
Definition clean_html_content (html_content : string) : string :=
  if negb (truthy html_content) || startswith html_content Scrape.error_marker
  then html_content
  else
    match BeautifulSoup html_content with
    | Returns soup =>
        clean_text (get_text (flat_map (Fetch.decompose ["script"; "style"]) soup))
    | Raises e =>
        "Content extracted but couldn't clean it: " +s+ Analyze.str_exn e
        +s+ Analyze.two_newlines +s+ "Raw content: "
        +s+ substring 0 1000 html_content +s+ "..."
    end.

(** parse.py, [clean_dom_content(html_content)] *)
Definition clean_dom_content (html_content : string) : string :=
  if negb (truthy html_content) then ""
  else
    match BeautifulSoup html_content with
    | Returns soup => clean_text (get_text (decompose_each unwanted_tags soup))
    | Raises _ => substring 0 5000 html_content
    end.

(** The content put in the prompt: the cleaned text, cut after 8000
    characters. *)
Definition prompt_content (dom_content : string) : string :=
  let cleaned_content := clean_dom_content dom_content in
  if Nat.ltb 8000 (String.length cleaned_content)
  then substring 0 8000 cleaned_content +s+ truncation_note
  else cleaned_content.

(** parse.py, [parse_with_llm(dom_content, parse_description)]; [chain]
    stands for [prompt | model] and its [invoke] on the two variables. *)
Definition parse_with_llm (chain : string -> string -> outcome string)
           (dom_content parse_description : string) : string :=
  match chain (prompt_content dom_content) parse_description with
  | Returns response =>
      let result := if truthy response then strip response else "" in
      if truthy result then result else no_match
  | Raises e => "Error during parsing: " +s+ Analyze.str_exn e
  end.

(** parse.py, [get_parsing_suggestions(dom_content)] *)
Definition get_parsing_suggestions (dom_content : string) : list string :=
  match BeautifulSoup dom_content with
  | Returns soup => firstn 8 (suggestions_of soup)
  | Raises _ => generic_suggestions
  end.

End WithParser.

End Clean.

(* ================================================================= *)
(** ** Kinds of references *)

Module Reference.

(** A relative reference: [urlsplit] finds neither a scheme nor a
    network location written in it. *)
Definition relative_reference (url : string) : bool :=
  match Urllib.urlsplit url "" with
  | Returns u => negb (truthy (Urllib.scheme u)) && negb (truthy (Urllib.netloc u))
  | Raises _ => false
  end.


(** The first and the last character of [s], if any, are not
    whitespace. *)
Definition stripped (s : string) : Prop := strip s = s.

(** The text is empty or ends with a character that is not whitespace. *)
Fixpoint ends_clean (s : string) : Prop :=
  match s with
  | EmptyString => True
  | String c EmptyString => isspace c = false
  | String _ r => ends_clean r
  end.

Definition head_is_space (s : string) : bool :=
  match s with
  | String c _ => Ascii.eqb c " "
  | EmptyString => false
  end.

(** No two spaces follow each other in [s]. *)
Fixpoint no_double_space (s : string) : bool :=
  match s with
  | EmptyString => true
  | String c r => negb (Ascii.eqb c " " && head_is_space r) && no_double_space r
  end.

(** Every character of [s] satisfies [p]. *)
Fixpoint all_chars (p : ascii -> bool) (s : string) : bool :=
  match s with
  | EmptyString => true
  | String c r => p c && all_chars p r
  end.

(** No line boundary occurs in [s]. *)
Definition no_linebreak (s : string) : bool :=
  all_chars (fun c => negb (Clean.linebreak c)) s.

(** The only whitespace in [s] is the space character. *)
Definition only_spaces (s : string) : bool :=
  all_chars (fun c => negb (isspace c) || Ascii.eqb c " ") s.

(** The text is empty or begins with a character that is not whitespace. *)
Definition starts_clean (s : string) : Prop :=
  match s with
  | EmptyString => True
  | String c _ => isspace c = false
  end.

(** The fallback chain obtains [markup] for [url]: the HTTP strategy
    gives it, or gives none and the browser strategy gives it; an
    empty text is no markup. *)
Definition obtains (w : Fetch.world) (url markup : string) : Prop :=
  markup <> ""
  /\ (fst (Fetch.scrape_with_requests w url) = Some markup
      \/ (truthy_opt (fst (Fetch.scrape_with_requests w url)) = false
          /\ fst (Fetch.scrape_with_selenium w url) = Some markup)).

(** Neither strategy gives markup for [url]. *)
Definition obtains_nothing (w : Fetch.world) (url : string) : Prop :=
  truthy_opt (fst (Fetch.scrape_with_requests w url)) = false
  /\ truthy_opt (fst (Fetch.scrape_with_selenium w url)) = false.

(** A phrase that is kept: not empty, clean at both ends, without line
    boundary or double space. *)
Definition tidy (s : string) : Prop :=
  s <> "" /\ starts_clean s /\ ends_clean s
  /\ no_double_space s = true /\ no_linebreak s = true.

End Reference.

(* ================================================================= *)
(** ** Vocabulary for the chunker *)

Module Chunks.
Import Bs4 Scrape Fetch.

(** The text [create_content_chunks] reads from the content, before it
    is normalised. *)
Definition raw_text (P : string -> outcome soup) (c : content) : outcome string :=
  match c with
  | CDict b =>
      match b_dom_data b with
      | Some d => Returns (join newline (text_parts d))
      | None => Raises (TypeError "'NoneType' object is not subscriptable")
      end
  | CStr s =>
      soup <- P s ;;
      Returns (get_text (flat_map (decompose ["script"; "style"]) soup))
  | COther str => Returns str
  end.

(** The pieces one after the other. *)
Fixpoint cat (pieces : list string) : string :=
  match pieces with
  | [] => ""
  | p :: r => p +s+ cat r
  end.

(** The lengths of the pieces, summed: what [_merge_splits] keeps in
    [total] while the separator is empty. *)
Fixpoint total_len (docs : list string) : Z :=
  match docs with
  | [] => 0%Z
  | d :: r => (TextSplitter.len d + total_len r)%Z
  end.

(** A chunk that fits: it is not empty and has at most [chunk_size]
    characters; it has no whitespace at either end when [chunk_size]
    is 2 or more. *)
Definition fits (chunk_size : Z) (chunk : string) : Prop :=
  chunk <> ""
  /\ (TextSplitter.len chunk <= chunk_size)%Z
  /\ ((2 <= chunk_size)%Z -> Reference.stripped chunk).

(** What the pieces that are too long for a merge become. *)
Definition long_piece_fits (chunk_size : Z) (deeper : option (string -> outcome (list string)))
           (s : string) : Prop :=
  match deeper with
  | Some split => exists out, split s = Returns out /\ Forall (fits chunk_size) out
  | None => fits chunk_size s
  end.

(** [chunk] is a contiguous part of [text]. *)
Definition occurs_in (chunk text : string) : Prop :=
  exists before after, text = before +s+ chunk +s+ after.

End Chunks.

(* ================================================================= *)
(** ** Sample pages and worlds *)

Module Samples.
Import Fetch.

(** Python lists of strings as values, to compare the nesting of two
    results. *)
Inductive value : Type :=
| VStr (s : string)
| VList (items : list value).

Definition of_row (row : list string) : value := VList (map VStr row).

Definition of_table (table : list (list string)) : value :=
  VList (map of_row table).

(** The value of [dom_data['tables']]. *)
Definition of_tables (tables : list (list (list string))) : value :=
  VList (map of_table tables).

Definition base_url : string := "https://example.com/".

Definition table_markup : string :=
  "<table><tr><td>A</td><td>B</td></tr></table>".

Definition empty_title_markup : string := "<title></title><p>Hello</p>".

Definition form_markup : string := "<form action='/submit'></form>".

Definition port_link_markup : string :=
  "<a href='https://example.com:443/about'>About</a>".

Definition contact_markup : string :=
  "<p>Write to a@b.co or a@b.co, call 555-123-4567 or 555-123-4567.</p>".

Definition page : string := "<p>hi</p>".

(** Both strategies fail. *)
Definition world_down : world :=
  mkWorld (fun _ => Raises (OtherException "ConnectionError"))
          (fun _ => Raises (OtherException "WebDriverException")).

(** The HTTP request fails, the browser gets the page. *)
Definition world_browser_only : world :=
  mkWorld (fun _ => Raises (OtherException "HTTPError 403"))
          (fun _ => Returns page).

(** The HTTP request succeeds with an empty body. *)
Definition world_empty_body : world :=
  mkWorld (fun _ => Returns "") (fun _ => Returns page).

(** The HTTP request gets the page. *)
Definition world_up : world :=
  mkWorld (fun _ => Returns page) (fun _ => Returns page).

(** The HTTP request gets a page whose title element is empty. *)
Definition world_empty_title : world :=
  mkWorld (fun _ => Returns empty_title_markup) (fun _ => Returns page).

(** The HTTP request gets a page that begins with the error marker. *)
Definition world_marker_page : world :=
  mkWorld (fun _ => Returns "❌ sold out") (fun _ => Returns page).

(** A language model that fails on the second chunk only. *)
Definition flaky_llm : Analyze.ollama :=
  Analyze.mkOllama
    (fun _ => Returns tt)
    (fun i _ => if Nat.eqb i 1 then Raises (OtherException "timeout")
                else Returns " ok ").

(** A page on which every check of [get_parsing_suggestions] fires. *)
Definition busy_markup : string :=
  "<h1>Shop</h1><p>Mail a@b.co or call 555-123-4567. Price: $5 until 1/2/2024.</p>"
  +s+ "<a href=/x>more</a><img src=i.png><ul><li>x</li></ul><table></table><form></form>".

Definition busy_page : Bs4.soup :=
  [Bs4.Tag "h1" [] [Bs4.NavigableString "Shop"];
   Bs4.Tag "p" []
     [Bs4.NavigableString "Mail a@b.co or call 555-123-4567. Price: $5 until 1/2/2024."];
   Bs4.Tag "a" [("href", "/x")] [Bs4.NavigableString "more"];
   Bs4.Tag "img" [("src", "i.png")] [];
   Bs4.Tag "ul" [] [Bs4.Tag "li" [] [Bs4.NavigableString "x"]];
   Bs4.Tag "table" [] []; Bs4.Tag "form" [] []].

End Samples.

(* ================================================================= *)
(** * Properties *)

Import Bs4 Scrape Fetch.

(** ** Exceptions and loops *)

Lemma bind_Returns {A B : Type} (c : outcome A) (k : A -> outcome B) (b : B) :
  Py.bind c k = Returns b -> exists a, c = Returns a /\ k a = Returns b.
Proof.
  destruct c as [a|e]; simpl; intros H.
  - exists a. split; [reflexivity | exact H].
  - discriminate H.
Qed.

Lemma mapM_Returns {A B : Type} (f : A -> outcome B) (xs : list A) (ys : list B) :
  mapM f xs = Returns ys -> Forall2 (fun x y => f x = Returns y) xs ys.
Proof.
  revert ys. induction xs as [|x r IH]; simpl; intros ys H.
  - injection H as <-. constructor.
  - apply bind_Returns in H. destruct H as [y [Hy H]].
    apply bind_Returns in H. destruct H as [ys' [Hr H]].
    injection H as <-. constructor; [exact Hy | apply IH, Hr].
Qed.

Lemma appended_In {A : Type} (rounds : list (option A)) (x : A) :
  In x (appended rounds) <-> In (Some x) rounds.
Proof.
  induction rounds as [|[y|] r IH]; simpl.
  - tauto.
  - rewrite IH. split; intros [H|H]; auto.
    + left. congruence.
    + left. congruence.
  - rewrite IH. split; [auto | intros [H|H]; [discriminate | exact H]].
Qed.

(** An entry appended by a loop comes from one round of it. *)
Lemma appended_round {A B : Type} (f : A -> outcome (option B)) xs rounds y :
  mapM f xs = Returns rounds -> In y (appended rounds) ->
  exists x, In x xs /\ f x = Returns (Some y).
Proof.
  intros HM HI. apply mapM_Returns in HM. apply appended_In in HI.
  induction HM as [|x r xs' rs Hx _ IH]; simpl in HI.
  - contradiction.
  - destruct HI as [-> | HI].
    + exists x. split; [left; reflexivity | exact Hx].
    + destruct (IH HI) as [x' [Hin Hf]]. exists x'. split; [right; exact Hin | exact Hf].
Qed.

(** ** The shape of a successful extraction *)

Lemma parse_dom_body_inv (P : string -> outcome soup) html base d :
  parse_dom_body P html base = Returns d ->
  exists soup link_rounds image_rounds,
    P html = Returns soup
    /\ extract_title soup = Returns (title d)
    /\ mapM (extract_link base) (find_all_with "a" "href" soup) = Returns link_rounds
    /\ mapM (extract_image base) (find_all ["img"] soup) = Returns image_rounds
    /\ links d = appended link_rounds
    /\ images d = appended image_rounds
    /\ tables d = filter nonempty (map extract_table (find_all ["table"] soup))
    /\ forms d = map extract_form (find_all ["form"] soup)
    /\ contact_info d = mkContact (extract_emails (get_text soup))
                                  (extract_phones (get_text soup)) [].
Proof.
  unfold parse_dom_body. intros H.
  apply bind_Returns in H. destruct H as [soup [HP H]].
  apply bind_Returns in H. destruct H as [t [HT H]].
  apply bind_Returns in H. destruct H as [lr [HL H]].
  apply bind_Returns in H. destruct H as [ir [HI H]].
  injection H as <-. simpl.
  exists soup, lr, ir. repeat split; assumption.
Qed.

Lemma parse_dom_content_inv (P : string -> outcome soup) html base d :
  parse_dom_content P html base = Returns (Some d) ->
  parse_dom_body P html base = Returns d.
Proof.
  unfold parse_dom_content.
  destruct (negb (truthy html) || startswith html error_marker); [discriminate|].
  destruct (parse_dom_body P html base) as [d'|e]; intros H.
  - congruence.
  - discriminate H.
Qed.

(** The [try] block catches whatever the extraction raises. *)
Lemma parse_dom_content_never_raises (P : string -> outcome soup) html base :
  exists r, parse_dom_content P html base = Returns r.
Proof.
  unfold parse_dom_content.
  destruct (negb (truthy html) || startswith html error_marker).
  - exists None. reflexivity.
  - destruct (parse_dom_body P html base) as [d|e].
    + exists (Some d). reflexivity.
    + exists None. reflexivity.
Qed.

(** ** [list(set(...))] *)

Lemma list_set_from_NoDup (xs acc : list string) :
  NoDup acc ->
  NoDup (fold_left (fun a x => set_add string_dec x a) xs acc).
Proof.
  revert acc. induction xs as [|x r IH]; simpl; intros acc H.
  - exact H.
  - apply IH. apply set_add_nodup. exact H.
Qed.

Lemma list_set_NoDup (xs : list string) : NoDup (list_set xs).
Proof. apply list_set_from_NoDup. constructor. Qed.

Lemma list_set_from_In (xs acc : list string) (x : string) :
  In x (fold_left (fun a y => set_add string_dec y a) xs acc) <-> In x acc \/ In x xs.
Proof.
  revert acc. induction xs as [|y r IH]; simpl; intros acc.
  - tauto.
  - rewrite IH, set_add_iff. split; intros H; repeat destruct H as [H|H]; auto.
Qed.

Lemma list_set_In (xs : list string) (x : string) : In x (list_set xs) <-> In x xs.
Proof.
  unfold list_set. rewrite list_set_from_In. simpl. tauto.
Qed.

(** ** Contact information *)

(** C7: whenever the extraction succeeds, [contact_info.emails] and
    [contact_info.phones] hold no value twice, however often a pattern
    matched in the page text. *)
Theorem contact_info_deduplicated (P : string -> outcome soup) html base d :
  parse_dom_content P html base = Returns (Some d) ->
  NoDup (emails (contact_info d)) /\ NoDup (phones (contact_info d)).
Proof.
  intros H. apply parse_dom_content_inv, parse_dom_body_inv in H.
  destruct H as (soup & lr & ir & _ & _ & _ & _ & _ & _ & _ & _ & HC).
  rewrite HC. simpl. split; apply list_set_NoDup.
Qed.

(** A page that repeats an address and a number. *)
Lemma contact_info_deduplicated_witness :
  exists d,
    parse_dom_content HtmlParser.BeautifulSoup Samples.contact_markup Samples.base_url
      = Returns (Some d)
    /\ emails (contact_info d) = ["a@b.co"]
    /\ phones (contact_info d) = ["555-123-4567"]
    /\ NoDup (emails (contact_info d)) /\ NoDup (phones (contact_info d)).
Proof.
  eexists. split; [vm_compute; reflexivity|].
  split; [reflexivity|]. split; [reflexivity|].
  apply (contact_info_deduplicated HtmlParser.BeautifulSoup
           Samples.contact_markup Samples.base_url).
  vm_compute. reflexivity.
Defined.

(** X6: nothing is lost either: the stored e-mail addresses and phone
    numbers are exactly the matches of the two patterns in the page
    text. *)
Lemma contact_info_members (P : string -> outcome soup) html base d :
  parse_dom_content P html base = Returns (Some d) ->
  exists soup,
    P html = Returns soup
    /\ (forall x, In x (emails (contact_info d))
                  <-> In x (Re.findall email_pattern (get_text soup)))
    /\ (forall x, In x (phones (contact_info d))
                  <-> exists pattern, In pattern phone_patterns
                                      /\ In x (Re.findall pattern (get_text soup))).
Proof.
  intros H. apply parse_dom_content_inv, parse_dom_body_inv in H.
  destruct H as (soup & lr & ir & HP & _ & _ & _ & _ & _ & _ & _ & HC).
  exists soup. rewrite HC. simpl. split; [exact HP|]. split; intros x.
  - apply list_set_In.
  - unfold extract_phones. rewrite list_set_In, in_flat_map. reflexivity.
Qed.

(** C10: whenever the extraction succeeds, [contact_info] carries an
    [addresses] entry besides [emails] and [phones], and it is the empty
    list. *)
Theorem contact_info_addresses_empty (P : string -> outcome soup) html base d :
  parse_dom_content P html base = Returns (Some d) ->
  addresses (contact_info d) = [].
Proof.
  intros H. apply parse_dom_content_inv, parse_dom_body_inv in H.
  destruct H as (soup & lr & ir & _ & _ & _ & _ & _ & _ & _ & _ & HC).
  rewrite HC. reflexivity.
Qed.

Lemma contact_info_addresses_empty_witness :
  exists d,
    parse_dom_content HtmlParser.BeautifulSoup Samples.contact_markup Samples.base_url
      = Returns (Some d)
    /\ emails (contact_info d) <> []
    /\ addresses (contact_info d) = [].
Proof.
  eexists. split; [vm_compute; reflexivity|].
  split; [discriminate|].
  apply (contact_info_addresses_empty HtmlParser.BeautifulSoup
           Samples.contact_markup Samples.base_url).
  vm_compute. reflexivity.
Defined.

(** ** Tables *)

Lemma filter_nonempty_Forall {A : Type} (l : list (list A)) :
  Forall (fun x => x <> []) (filter nonempty l).
Proof.
  apply Forall_forall. intros x Hx. apply filter_In in Hx.
  destruct Hx as [_ Hx]. destruct x; [discriminate Hx | discriminate].
Qed.

(** C9, as the code has it: [tables] holds one entry per table that has
    a row with a cell; the entry is the list of the table's rows that
    have a cell, each row the list of its stripped cell texts.  The
    sample markup yields one table of one row, [[["A","B"]]]. *)
Theorem tables_rows_of_cells :
  (forall (P : string -> outcome soup) html base d,
      parse_dom_content P html base = Returns (Some d) ->
      exists soup,
        P html = Returns soup
        /\ tables d =
           filter nonempty
             (map (fun table =>
                     filter nonempty
                       (map (fun row =>
                               map (fun cell => strip (node_text cell))
                                   (find_all ["td"; "th"] (tag_contents row)))
                            (find_all ["tr"] (tag_contents table))))
                  (find_all ["table"] soup))
        /\ Forall (fun table => table <> [] /\ Forall (fun row => row <> []) table)
                  (tables d))
  /\ (forall base,
         exists d,
           parse_dom_content HtmlParser.BeautifulSoup Samples.table_markup base
             = Returns (Some d)
           /\ tables d = [[["A"; "B"]]]).
Proof.
  split.
  - intros P html base d H. apply parse_dom_content_inv, parse_dom_body_inv in H.
    destruct H as (soup & lr & ir & HP & _ & _ & _ & _ & _ & HT & _ & _).
    exists soup. split; [exact HP|]. split; [exact HT|].
    rewrite HT. apply Forall_forall. intros t Ht.
    apply filter_In in Ht. destruct Ht as [Ht Hne]. split.
    + destruct t; [discriminate Hne | discriminate].
    + apply in_map_iff in Ht. destruct Ht as [tb [<- _]].
      apply filter_nonempty_Forall.
  - intros base. eexists. split; vm_compute; reflexivity.
Qed.

Lemma tables_rows_of_cells_witness :
  exists soup,
    HtmlParser.BeautifulSoup Samples.table_markup = Returns soup
    /\ filter nonempty (map extract_table (find_all ["table"] soup)) = [[["A"; "B"]]].
Proof.
  destruct (proj1 tables_rows_of_cells HtmlParser.BeautifulSoup Samples.table_markup
              Samples.base_url
              (mkDom "No title found" "" (mkHeadings [] [] []) [] [] [] []
                     [[["A"; "B"]]] [] (mkContact [] [] []))
              eq_refl) as (soup & HP & HT & _).
  exists soup. split; [exact HP|]. symmetry. exact HT.
Defined.

(** C9, the sample as the claim words it: the markup does not give the
    two-level list [["A","B"]]; [tables] nests one level deeper. *)
Lemma tables_sample_counterexample :
  exists d,
    parse_dom_content HtmlParser.BeautifulSoup Samples.table_markup Samples.base_url
      = Returns (Some d)
    /\ Samples.of_tables (tables d)
       = Samples.VList [Samples.VList [Samples.VList [Samples.VStr "A"; Samples.VStr "B"]]]
    /\ Samples.of_tables (tables d)
       <> Samples.VList [Samples.VList [Samples.VStr "A"; Samples.VStr "B"]].
Proof.
  eexists. split; [vm_compute; reflexivity|].
  split; [reflexivity|]. discriminate.
Qed.

(** ** Links *)

Lemma extract_link_inv base a l :
  extract_link base a = Returns (Some l) ->
  exists r b,
    Urllib.urljoin base (get a "href" "") = Returns (link_url l)
    /\ Urllib.urlparse (link_url l) "" = Returns r
    /\ Urllib.urlparse base "" = Returns b
    /\ link_text l = strip (node_text a)
    /\ truthy (link_text l) = true
    /\ link_is_external l = negb (String.eqb (Urllib.p_netloc r) (Urllib.p_netloc b)).
Proof.
  unfold extract_link. intros H.
  apply bind_Returns in H. destruct H as [u [HU H]].
  destruct (truthy (strip (node_text a))) eqn:HT; [|discriminate H].
  apply bind_Returns in H. destruct H as [r [HR H]].
  apply bind_Returns in H. destruct H as [b [HB H]].
  injection H as <-. simpl. exists r, b. repeat split; assumption.
Qed.

(** C4, as the code has it: the flag of every stored link is true
    exactly when the network location of the resolved URL (user
    information, host and port as written, compared as strings) differs
    from that of the base URL. *)
Theorem is_external_compares_netloc (P : string -> outcome soup) html base d l :
  parse_dom_content P html base = Returns (Some d) ->
  In l (links d) ->
  exists r b,
    Urllib.urlparse (link_url l) "" = Returns r
    /\ Urllib.urlparse base "" = Returns b
    /\ (link_is_external l = true <-> Urllib.p_netloc r <> Urllib.p_netloc b).
Proof.
  intros H Hin. apply parse_dom_content_inv, parse_dom_body_inv in H.
  destruct H as (soup & lr & ir & _ & _ & HL & _ & HLs & _).
  rewrite HLs in Hin.
  destruct (appended_round _ _ _ _ HL Hin) as (a & _ & Ha).
  apply extract_link_inv in Ha.
  destruct Ha as (r & b & _ & HR & HB & _ & _ & HE).
  exists r, b. split; [exact HR|]. split; [exact HB|].
  rewrite HE, negb_true_iff. split.
  - intros Hneq Heq. rewrite Heq, String.eqb_refl in Hneq. discriminate Hneq.
  - intros Hneq. destruct (String.eqb_spec (Urllib.p_netloc r) (Urllib.p_netloc b)).
    + contradiction.
    + reflexivity.
Qed.

Lemma is_external_compares_netloc_witness :
  exists r b,
    Urllib.urlparse "https://example.com:443/about" "" = Returns r
    /\ Urllib.urlparse Samples.base_url "" = Returns b
    /\ (true = true <-> Urllib.p_netloc r <> Urllib.p_netloc b).
Proof.
  apply (is_external_compares_netloc HtmlParser.BeautifulSoup
           Samples.port_link_markup Samples.base_url
           (mkDom "No title found" "" (mkHeadings [] [] [])
                  [mkLink "About" "https://example.com:443/about" true] [] [] []
                  [] [] (mkContact [] [] []))
           (mkLink "About" "https://example.com:443/about" true)).
  - vm_compute. reflexivity.
  - left. reflexivity.
Defined.

(** C4, as the claim words it: a link to the page's own host with the
    port written out is stored as external, though the two hosts are the
    same. *)
Lemma is_external_same_host_counterexample :
  exists d l,
    parse_dom_content HtmlParser.BeautifulSoup Samples.port_link_markup Samples.base_url
      = Returns (Some d)
    /\ links d = [l]
    /\ link_is_external l = true
    /\ Urllib.hostname (link_url l) = Returns "example.com"
    /\ Urllib.hostname Samples.base_url = Returns "example.com".
Proof.
  eexists. eexists. split; [vm_compute; reflexivity|].
  split; [reflexivity|]. repeat split; vm_compute; reflexivity.
Qed.

(** ** Missing elements *)

(** X8: a title element without a single string below it makes
    [soup.title.string] be [None]; the [strip] call raises and the
    [except] clause gives up the whole document. *)
Lemma title_without_string_aborts (P : string -> outcome soup) html base soup t :
  truthy html = true -> startswith html error_marker = false ->
  P html = Returns soup -> find "title" soup = Some t -> string_of t = None ->
  parse_dom_content P html base = Returns None.
Proof.
  intros Hne Hm HP Hf Hs. unfold parse_dom_content, parse_dom_body.
  rewrite Hne, Hm, HP. simpl. unfold extract_title. rewrite Hf, Hs. reflexivity.
Qed.

(** C2, at a page with an empty title element: the extraction returns
    [None]; the paragraph of the page is lost with it. *)
Theorem empty_title_aborts_extraction :
  parse_dom_content HtmlParser.BeautifulSoup Samples.empty_title_markup Samples.base_url
    = Returns None
  /\ HtmlParser.BeautifulSoup Samples.empty_title_markup
     = Returns [Tag "title" [] []; Tag "p" [] [NavigableString "Hello"]].
Proof. split; vm_compute; reflexivity. Qed.

(** Without the title element the same page is extracted. *)
Lemma missing_title_is_tolerated :
  exists d,
    parse_dom_content HtmlParser.BeautifulSoup "<p>Hello</p>" Samples.base_url
      = Returns (Some d)
    /\ title d = "No title found" /\ paragraphs d = ["Hello"]
    /\ links d = [] /\ images d = [] /\ tables d = [] /\ forms d = [].
Proof. eexists. split; [vm_compute; reflexivity|]. repeat split. Qed.

(** ** Stored URLs *)

(** Link and image URLs are what [urljoin] gives for the base URL and
    the attribute; the action of a form is the attribute as written. *)
Lemma stored_urls (P : string -> outcome soup) html base d :
  parse_dom_content P html base = Returns (Some d) ->
  exists soup,
    P html = Returns soup
    /\ (forall l, In l (links d) ->
          exists a, In a (find_all_with "a" "href" soup)
                    /\ Urllib.urljoin base (get a "href" "") = Returns (link_url l))
    /\ (forall i, In i (images d) ->
          exists img, In img (find_all ["img"] soup)
                      /\ Urllib.urljoin base (get img "src" "") = Returns (img_src i))
    /\ map form_action (forms d)
       = map (fun f => get f "action" "") (find_all ["form"] soup).
Proof.
  intros H. apply parse_dom_content_inv, parse_dom_body_inv in H.
  destruct H as (soup & lr & ir & HP & _ & HL & HI & HLs & HIs & _ & HF & _).
  exists soup. split; [exact HP|]. split; [|split].
  - intros l Hin. rewrite HLs in Hin.
    destruct (appended_round _ _ _ _ HL Hin) as (a & Ha & Hf).
    exists a. split; [exact Ha|].
    apply extract_link_inv in Hf. destruct Hf as (r & b & HU & _). exact HU.
  - intros i Hin. rewrite HIs in Hin.
    destruct (appended_round _ _ _ _ HI Hin) as (img & Ha & Hf).
    exists img. split; [exact Ha|].
    unfold extract_image in Hf.
    destruct (truthy (get img "src" "")); [|discriminate Hf].
    apply bind_Returns in Hf. destruct Hf as [u [HU Hf]].
    injection Hf as <-. exact HU.
  - rewrite HF, map_map. reflexivity.
Qed.

(** C3, at a page with a form whose action is a path: the action is
    stored as written, not as the absolute URL that [urljoin] gives for
    it. *)
Theorem form_action_stored_unresolved :
  exists d f,
    parse_dom_content HtmlParser.BeautifulSoup Samples.form_markup Samples.base_url
      = Returns (Some d)
    /\ forms d = [f]
    /\ form_action f = "/submit"
    /\ Urllib.is_absolute (form_action f) = false
    /\ Urllib.urljoin Samples.base_url "/submit" = Returns "https://example.com/submit".
Proof.
  eexists. eexists. split; [vm_compute; reflexivity|].
  split; [reflexivity|]. repeat split; vm_compute; reflexivity.
Qed.

(** ** The fetch orchestrator *)

Lemma prefix_app (p s : string) :
  String.prefix p s = true -> exists t, s = p +s+ t.
Proof.
  revert s. induction p as [|c p IH]; intros s H.
  - exists s. reflexivity.
  - destruct s as [|c' s]; simpl in H; [discriminate H|].
    destruct (ascii_dec c c') as [<-|]; [|discriminate H].
    destruct (IH s H) as [t ->]. exists t. reflexivity.
Qed.

(** A URL that starts with one of the two protocols has a scheme. *)
Lemma has_protocol_scheme (website : string) :
  has_protocol website = true -> Urllib.scheme_of website <> "".
Proof.
  unfold has_protocol, startswith. intros H.
  apply orb_true_iff in H. destruct H as [H|H];
    apply prefix_app in H; destruct H as [t ->]; discriminate.
Qed.

Lemma scrape_website_log (P : string -> outcome soup) w website parse_dom :
  website <> "" ->
  snd (scrape_website P w website parse_dom)
  = Requests (normalize website)
    :: (if truthy_opt (fst (scrape_with_requests w (normalize website)))
        then [] else [Selenium (normalize website)]).
Proof.
  intros Hne. unfold scrape_website.
  destruct website as [|c r]; [contradiction|]. cbn [truthy negb].
  set (url := normalize (String c r)).
  unfold scrape_with_requests, scrape_with_selenium. cbn [fst].
  destruct (http_get w url) as [[|c1 t1]|e]; cbn [truthy_opt truthy negb].
  - destruct (browser_get w url) as [[|c2 t2]|e2]; try reflexivity.
    destruct parse_dom; reflexivity.
  - destruct parse_dom; reflexivity.
  - destruct (browser_get w url) as [[|c2 t2]|e2]; try reflexivity.
    destruct parse_dom; reflexivity.
Qed.

(** What is returned once the first strategy gave no markup and the
    second gave some. *)
Lemma scrape_website_falls_back (P : string -> outcome soup) w website parse_dom markup :
  website <> "" ->
  truthy_opt (fst (scrape_with_requests w (normalize website))) = false ->
  fst (scrape_with_selenium w (normalize website)) = Some markup ->
  markup <> "" ->
  exists r,
    fst (scrape_website P w website parse_dom) = Returns r
    /\ markup_of r = markup
    /\ (parse_dom = false -> r = Str markup)
    /\ (parse_dom = true ->
        exists dom, r = Dict (mkBundle markup dom (normalize website))).
Proof.
  intros Hne HA HB Hm. unfold scrape_website.
  destruct website as [|c r]; [contradiction|]. cbn [truthy negb].
  set (url := normalize (String c r)) in *.
  destruct (scrape_with_requests w url) as [a log1]. cbn [fst] in HA.
  rewrite HA. cbn [negb].
  destruct (scrape_with_selenium w url) as [b log2]. cbn [fst] in HB. subst b.
  destruct markup as [|c1 t1]; [contradiction|].
  destruct parse_dom.
  - destruct (parse_dom_content_never_raises P (String c1 t1) url) as [dom Hd].
    cbn [fst]. rewrite Hd. cbn [Py.bind].
    eexists. split; [reflexivity|]. split; [reflexivity|].
    split; [discriminate|]. intros _. exists dom. reflexivity.
  - eexists. split; [reflexivity|]. split; [reflexivity|].
    split; [reflexivity | discriminate].
Qed.

(** C1, as the code has it: on the empty URL no strategy is invoked
    and the "valid URL" sentinel is returned, whatever the world and
    [parse_dom]; on a non-empty URL the HTTP strategy is invoked first
    and once, on the normalized URL; the browser strategy is invoked,
    once and after it on the same URL, exactly when the HTTP strategy
    gave no markup (it failed, or the body was empty); when the HTTP
    strategy fails and the browser gives non-empty markup, that markup
    is what the call returns. *)
Theorem scrape_website_fallback_chain (P : string -> outcome soup) w website parse_dom :
  scrape_website P w "" parse_dom = (Returns (Str no_url), [])
  /\ (website <> "" ->
      (truthy_opt (fst (scrape_with_requests w (normalize website))) = true ->
       snd (scrape_website P w website parse_dom) = [Requests (normalize website)])
      /\ (truthy_opt (fst (scrape_with_requests w (normalize website))) = false ->
          snd (scrape_website P w website parse_dom)
          = [Requests (normalize website); Selenium (normalize website)])
      /\ (forall markup,
             fst (scrape_with_requests w (normalize website)) = None ->
             fst (scrape_with_selenium w (normalize website)) = Some markup ->
             markup <> "" ->
             exists r,
               fst (scrape_website P w website parse_dom) = Returns r
               /\ markup_of r = markup
               /\ (parse_dom = false -> r = Str markup)
               /\ (parse_dom = true ->
                   exists dom, r = Dict (mkBundle markup dom (normalize website))))).
Proof.
  split; [reflexivity|].
  intros Hne. split; [|split].
  - intros HA. rewrite scrape_website_log, HA by exact Hne. reflexivity.
  - intros HA. rewrite scrape_website_log, HA by exact Hne. reflexivity.
  - intros markup HA HB Hm.
    apply scrape_website_falls_back; try assumption.
    rewrite HA. reflexivity.
Qed.

Lemma scrape_website_fallback_chain_witness :
  scrape_website HtmlParser.BeautifulSoup Samples.world_browser_only "" false
  = (Returns (Str no_url), [])
  /\ snd (scrape_website HtmlParser.BeautifulSoup Samples.world_browser_only
            "example.com" false)
     = [Requests "https://example.com"; Selenium "https://example.com"]
  /\ exists r,
       fst (scrape_website HtmlParser.BeautifulSoup Samples.world_browser_only
              "example.com" false) = Returns r
       /\ markup_of r = Samples.page.
Proof.
  assert (Hne : "example.com" <> "") by discriminate.
  destruct (scrape_website_fallback_chain HtmlParser.BeautifulSoup
              Samples.world_browser_only "example.com" false)
    as (H0 & H).
  destruct (H Hne) as (_ & H2 & H3).
  split; [exact H0|]. split.
  - apply H2. reflexivity.
  - destruct (H3 Samples.page eq_refl eq_refl) as (r & Hr & Hm & _).
    + discriminate.
    + exists r. split; [exact Hr | exact Hm].
Defined.

(** C1, as the claim words it: on the empty URL no strategy is invoked
    at all; and a request that succeeds with an empty body is followed
    by the browser all the same. *)
Lemma scrape_website_empty_url_counterexample :
  scrape_website HtmlParser.BeautifulSoup Samples.world_up "" false
  = (Returns (Str no_url), [])
  /\ http_get Samples.world_empty_body "https://example.com" = Returns ""
  /\ snd (scrape_website HtmlParser.BeautifulSoup Samples.world_empty_body
            "example.com" false)
     = [Requests "https://example.com"; Selenium "https://example.com"]
  /\ snd (scrape_website HtmlParser.BeautifulSoup Samples.world_up
            "example.com" false)
     = [Requests "https://example.com"].
Proof. repeat split. Qed.

(** C5: when both strategies fail the call returns a string that starts
    with the error marker, the one the callers test for; on a non-empty
    URL it is the "all methods failed" sentinel, and neither markup nor
    a dictionary is returned. *)
Theorem scrape_website_all_failed (P : string -> outcome soup) w website parse_dom :
  fst (scrape_with_requests w (normalize website)) = None ->
  fst (scrape_with_selenium w (normalize website)) = None ->
  exists s,
    fst (scrape_website P w website parse_dom) = Returns (Str s)
    /\ startswith s error_marker = true
    /\ is_failure (Str s) = true
    /\ (website <> "" -> s = all_failed).
Proof.
  intros HA HB. unfold scrape_website.
  destruct website as [|c r]; cbn [truthy negb].
  - exists no_url. repeat split. intros H. contradiction.
  - set (url := normalize (String c r)) in *.
    destruct (scrape_with_requests w url) as [a log1]. cbn [fst] in HA. subst a.
    cbn [truthy_opt negb].
    destruct (scrape_with_selenium w url) as [b log2]. cbn [fst] in HB. subst b.
    exists all_failed. repeat split.
Qed.

Lemma scrape_website_all_failed_witness :
  exists s,
    fst (scrape_website HtmlParser.BeautifulSoup Samples.world_down "example.com" true)
      = Returns (Str s)
    /\ startswith s error_marker = true
    /\ is_failure (Str s) = true
    /\ ("example.com" <> "" -> s = all_failed).
Proof.
  apply (scrape_website_all_failed HtmlParser.BeautifulSoup Samples.world_down
           "example.com" true); reflexivity.
Defined.

(** C6: a non-empty URL that does not begin with "http://" or
    "https://" is given the "https://" prefix before any strategy runs:
    every strategy invoked is invoked on the prefixed URL, the HTTP
    strategy first.  Every URL in which [urlsplit] finds no scheme is
    such a URL, and so is a host with a port, in which it finds one. *)
Theorem scrape_website_prefixes_https (P : string -> outcome soup) w website parse_dom :
  website <> "" ->
  (Urllib.scheme_of website = "" -> has_protocol website = false)
  /\ (has_protocol website = false ->
      normalize website = "https://" +s+ website
      /\ (exists rest,
             snd (scrape_website P w website parse_dom)
             = Requests ("https://" +s+ website) :: rest)
      /\ Forall (fun e => event_url e = "https://" +s+ website)
                (snd (scrape_website P w website parse_dom))).
Proof.
  intros Hne. split.
  - intros Hs. destruct (has_protocol website) eqn:HP; [|reflexivity].
    apply has_protocol_scheme in HP. contradiction.
  - intros HP.
    assert (HN : normalize website = "https://" +s+ website)
      by (unfold normalize; rewrite HP; reflexivity).
    split; [exact HN|].
    rewrite scrape_website_log by exact Hne. rewrite HN. split.
    + eexists. reflexivity.
    + constructor; [reflexivity|].
      destruct (truthy_opt _); constructor; [reflexivity | constructor].
Qed.

Lemma scrape_website_prefixes_https_witness :
  (normalize "example.com" = "https://example.com"
   /\ (exists rest,
          snd (scrape_website HtmlParser.BeautifulSoup Samples.world_browser_only
                 "example.com" false)
          = Requests "https://example.com" :: rest)
   /\ Forall (fun e => event_url e = "https://example.com")
             (snd (scrape_website HtmlParser.BeautifulSoup Samples.world_browser_only
                     "example.com" false)))
  /\ Urllib.scheme_of "localhost:8080" = "localhost"
  /\ normalize "localhost:8080" = "https://localhost:8080"
  /\ Forall (fun e => event_url e = "https://localhost:8080")
            (snd (scrape_website HtmlParser.BeautifulSoup Samples.world_up
                    "localhost:8080" false)).
Proof.
  assert (Hne : "example.com" <> "") by discriminate.
  assert (Hne' : "localhost:8080" <> "") by discriminate.
  destruct (scrape_website_prefixes_https HtmlParser.BeautifulSoup
              Samples.world_browser_only "example.com" false Hne) as [Hscheme Hprefix].
  destruct (scrape_website_prefixes_https HtmlParser.BeautifulSoup
              Samples.world_up "localhost:8080" false Hne') as [_ Hport].
  split; [exact (Hprefix (Hscheme eq_refl))|].
  split; [reflexivity|].
  destruct (Hport eq_refl) as (HN & _ & HF). split; [exact HN | exact HF].
Defined.

(** ** The chunker *)

Lemma split_text_empty (chunk_size chunk_overlap : Z) :
  (0 < chunk_size)%Z -> (0 <= chunk_overlap <= chunk_size)%Z ->
  TextSplitter.split_text chunk_size chunk_overlap separators "" = Returns [].
Proof.
  intros Hs Ho. unfold TextSplitter.split_text.
  destruct (Z.leb_spec chunk_size 0); [lia|].
  destruct (Z.ltb_spec chunk_overlap 0); [lia|].
  destruct (Z.ltb_spec chunk_size chunk_overlap); [lia|].
  reflexivity.
Qed.

(** C8: on the empty text, for a positive chunk size and an overlap
    within it, the chunker returns the empty list: it does not raise and
    gives no chunk, not even an empty one. *)
Theorem create_content_chunks_empty (P : string -> outcome soup) chunk_size chunk_overlap :
  P "" = Returns [] ->
  (0 < chunk_size)%Z -> (0 <= chunk_overlap <= chunk_size)%Z ->
  create_content_chunks P (CStr "") chunk_size chunk_overlap = Returns [].
Proof.
  intros HP Hs Ho. unfold create_content_chunks. rewrite HP. cbn.
  apply split_text_empty; assumption.
Qed.

Lemma create_content_chunks_empty_witness :
  create_content_chunks HtmlParser.BeautifulSoup (CStr "") 1000 200 = Returns [].
Proof.
  apply (create_content_chunks_empty HtmlParser.BeautifulSoup 1000 200).
  - reflexivity.
  - reflexivity.
  - split; discriminate.
Defined.

(** ** Resolved URLs are absolute *)

Lemma append_assoc (a b c : string) : (a +s+ b) +s+ c = a +s+ b +s+ c.
Proof. induction a as [|x a IH]; simpl; [reflexivity | rewrite IH; reflexivity]. Qed.

Lemma remove_unsafe_app (a b : string) :
  Urllib.remove_unsafe (a +s+ b) = Urllib.remove_unsafe a +s+ Urllib.remove_unsafe b.
Proof.
  induction a as [|x a IH]; simpl; [reflexivity|].
  destruct (Urllib.unsafe_byte x); simpl; rewrite IH; reflexivity.
Qed.

Lemma all_safe_remove_unsafe (s : string) :
  Urllib.all_safe (Urllib.remove_unsafe s) = true.
Proof.
  induction s as [|x s IH]; simpl; [reflexivity|].
  destruct (Urllib.unsafe_byte x) eqn:E; simpl; [exact IH | rewrite E, IH; reflexivity].
Qed.

Lemma remove_unsafe_safe (s : string) :
  Urllib.all_safe s = true -> Urllib.remove_unsafe s = s.
Proof.
  induction s as [|x s IH]; simpl; [reflexivity|]. intros H.
  apply andb_true_iff in H. destruct H as [Hx Hs].
  apply negb_true_iff in Hx. rewrite Hx, (IH Hs). reflexivity.
Qed.

Lemma all_safe_app (a b : string) :
  Urllib.all_safe (a +s+ b) = Urllib.all_safe a && Urllib.all_safe b.
Proof.
  induction a as [|x a IH]; simpl; [reflexivity|].
  rewrite IH, andb_assoc. reflexivity.
Qed.

Lemma break_at_spec (p : ascii -> bool) (s a b : string) :
  Urllib.break_at p s = (a, b) ->
  s = a +s+ b /\ Urllib.break_at p a = (a, "") /\ Urllib.begins_with p b.
Proof.
  revert a b. induction s as [|c s IH]; simpl; intros a b H.
  - injection H as <- <-. repeat split.
  - destruct (p c) eqn:E.
    + injection H as <- <-. simpl. rewrite E. repeat split.
    + destruct (Urllib.break_at p s) as [a' b'] eqn:E'.
      injection H as <- <-. destruct (IH a' b' eq_refl) as (-> & Ha & Hb).
      simpl. rewrite E, Ha. repeat split. exact Hb.
Qed.

Lemma break_at_app (p : ascii -> bool) (a b : string) :
  Urllib.break_at p a = (a, "") -> Urllib.begins_with p b ->
  Urllib.break_at p (a +s+ b) = (a, b).
Proof.
  induction a as [|c a IH]; simpl; intros Ha Hb.
  - destruct b as [|d b]; simpl; [reflexivity|]. simpl in Hb. rewrite Hb. reflexivity.
  - destruct (p c) eqn:E; [discriminate Ha|].
    destruct (Urllib.break_at p a) as [a' b'] eqn:E'.
    injection Ha as -> ->. rewrite (IH eq_refl Hb). reflexivity.
Qed.

Lemma scan_scheme_spec (s sch rest : string) :
  Urllib.scan_scheme s = Some (sch, rest) -> s = sch +s+ ":" +s+ rest.
Proof.
  revert sch. induction s as [|c s IH]; simpl; intros sch H; [discriminate H|].
  destruct (Ascii.eqb_spec c ":") as [->|_].
  - injection H as <- <-. reflexivity.
  - destruct (Urllib.scheme_char c); [|discriminate H].
    destruct (Urllib.scan_scheme s) as [[a b]|]; [|discriminate H].
    injection H as <- <-. rewrite (IH a eq_refl). reflexivity.
Qed.

(** What is left after the scheme is part of the text given. *)
Lemma split_scheme_safe (x d : string) :
  Urllib.all_safe x = true -> Urllib.all_safe (snd (Urllib.split_scheme x d)) = true.
Proof.
  intros Hx. unfold Urllib.split_scheme.
  destruct x as [|c x']; [reflexivity|].
  destruct (isalpha c); [|exact Hx].
  destruct (Urllib.scan_scheme (String c x')) as [[sch rest]|] eqn:E; [|exact Hx].
  apply scan_scheme_spec in E. rewrite E, !all_safe_app in Hx.
  apply andb_true_iff in Hx. destruct Hx as [_ Hx].
  apply andb_true_iff in Hx. destruct Hx as [_ Hx]. exact Hx.
Qed.

Lemma split_netloc_spec (x nl rest : string) :
  Urllib.all_safe x = true -> Urllib.split_netloc x = (nl, rest) ->
  Urllib.all_safe nl = true
  /\ Urllib.break_at (Urllib.one_of "/?#") nl = (nl, "").
Proof.
  intros Hx H. unfold Urllib.split_netloc in H.
  assert (Hnone : (EmptyString, x) = (nl, rest) ->
                  Urllib.all_safe nl = true
                  /\ Urllib.break_at (Urllib.one_of "/?#") nl = (nl, "")).
  { intros E. injection E as <- <-. split; reflexivity. }
  destruct x as [|c1 x]; [exact (Hnone H)|].
  destruct (Ascii.eqb_spec c1 "/") as [->|N1].
  2:{ apply Hnone. destruct c1 as [[] [] [] [] [] [] [] []]; try exact H.
      contradiction N1; reflexivity. }
  destruct x as [|c2 x]; [exact (Hnone H)|].
  destruct (Ascii.eqb_spec c2 "/") as [->|N2].
  2:{ apply Hnone. destruct c2 as [[] [] [] [] [] [] [] []]; try exact H.
      contradiction N2; reflexivity. }
  apply break_at_spec in H. destruct H as (E & Hb & _).
  split; [|exact Hb].
  simpl in Hx. rewrite E, all_safe_app in Hx.
  apply andb_true_iff in Hx. destruct Hx as [Hx _]. exact Hx.
Qed.

(** The checks at work: a character that normalises to "a/c" in the
    host, an IPv4 address or a name in brackets are refused; an IPv6
    address in brackets and a host with an umlaut are accepted. *)
Example urlsplit_checks_netloc :
  Urllib.urlsplit "http://a℀b/" ""
  = Raises (ValueError "netloc 'a℀b' contains invalid characters under NFKC normalization")
  /\ Urllib.urlsplit "http://[1.2.3.4]/x" ""
     = Raises (ValueError "An IPv4 address cannot be in brackets")
  /\ Urllib.urlsplit "http://[example]/x" ""
     = Raises (ValueError "'example' does not appear to be an IPv4 or IPv6 address")
  /\ Urllib.urlsplit "http://[::1]:80/x" ""
     = Returns (Urllib.mkSplit "http" "[::1]:80" "/x" "" "")
  /\ Urllib.urlsplit "http://münchen.de/" ""
     = Returns (Urllib.mkSplit "http" "münchen.de" "/" "" "")
  /\ parse_dom_content HtmlParser.BeautifulSoup "<a href='http://a℀b/'>t</a><p>k</p>"
       "https://example.com/" = Returns None.
Proof. repeat split; vm_compute; reflexivity. Qed.

(** The network location [urlsplit] returns has none of the characters
    it deletes and no delimiter, and it has passed the checks. *)
Lemma urlsplit_netloc (url d : string) r :
  Urllib.urlsplit url d = Returns r ->
  Urllib.all_safe (Urllib.netloc r) = true
  /\ Urllib.break_at (Urllib.one_of "/?#") (Urllib.netloc r) = (Urllib.netloc r, "")
  /\ Urllib.accepted (Urllib.netloc r).
Proof.
  unfold Urllib.urlsplit. intros H.
  pose proof (split_scheme_safe (Urllib.remove_unsafe (Urllib.lstrip_c0 url))
                (Urllib.remove_unsafe (Urllib.strip_c0 d))
                (all_safe_remove_unsafe _)) as Hs.
  destruct (Urllib.split_scheme _ _) as [sch x]. simpl in Hs.
  destruct (Urllib.split_netloc x) as [nl rest] eqn:EN.
  destruct (split_netloc_spec x nl rest Hs EN) as [Hsafe Hb].
  destruct (Urllib.check_brackets nl) as [[]|e] eqn:EB; [|discriminate H].
  cbn [Py.bind] in H.
  destruct (Urllib.partition "#" rest) as [[u1 b1] frag].
  destruct (Urllib.partition "?" u1) as [[u2 b2] qry].
  destruct (Urllib._checknetloc nl) as [[]|e] eqn:EC; [|discriminate H].
  injection H as <-. simpl. repeat split; assumption.
Qed.

Lemma begins_remove_unsafe T :
  Urllib.begins_with (Urllib.one_of "/?#") T ->
  Urllib.begins_with (Urllib.one_of "/?#") (Urllib.remove_unsafe T).
Proof.
  destruct T as [|c t]; simpl; [trivial|]. intros H.
  destruct (Urllib.unsafe_byte c) eqn:E.
  - destruct c as [[] [] [] [] [] [] [] []]; discriminate.
  - exact H.
Qed.

Lemma rebuilt_absolute sch nl T :
  sch = "http" \/ sch = "https" ->
  Urllib.all_safe nl = true ->
  Urllib.break_at (Urllib.one_of "/?#") nl = (nl, "") ->
  Urllib.accepted nl ->
  Urllib.begins_with (Urllib.one_of "/?#") T ->
  Urllib.is_absolute (sch +s+ ":" +s+ "//" +s+ nl +s+ T) = true.
Proof.
  intros Hs Hsafe Hb [Hbr Hck] HT.
  unfold Urllib.is_absolute, Urllib.urlsplit.
  destruct Hs as [-> | ->]; simpl;
    rewrite remove_unsafe_app, (remove_unsafe_safe nl Hsafe),
      (break_at_app _ nl _ Hb (begins_remove_unsafe T HT)), Hbr;
    cbn [Py.bind];
    destruct (Urllib.partition "#" _) as [[u1 b1] frag];
    destruct (Urllib.partition "?" u1) as [[u2 b2] qry];
    rewrite Hck; reflexivity.
Qed.

(** What [urlunsplit] builds around a network location. *)
Lemma urlunsplit_shape sch nl url qry frag :
  truthy sch = true -> truthy nl = true ->
  exists T,
    Urllib.urlunsplit sch nl url qry frag = sch +s+ ":" +s+ "//" +s+ nl +s+ T
    /\ Urllib.begins_with (Urllib.one_of "/?#") T.
Proof.
  intros Hs Hn. unfold Urllib.urlunsplit. rewrite Hs, Hn. simpl orb. cbv iota.
  set (p := if truthy url && negb (startswith url "/") then "/" +s+ url else url).
  assert (Hp : Urllib.begins_with (Urllib.one_of "/?#") p).
  { unfold p. destruct url as [|c u]; [exact I|].
    unfold startswith. cbn [truthy andb String.prefix].
    destruct (ascii_dec "/" c) as [<-|N].
    - destruct u; reflexivity.
    - reflexivity. }
  assert (Hq : forall x y, Urllib.begins_with (Urllib.one_of "/?#") x ->
                 Urllib.begins_with (Urllib.one_of "/?#") y ->
                 Urllib.begins_with (Urllib.one_of "/?#") (x +s+ y)).
  { intros [|c x] y Hx Hy; simpl; assumption. }
  destruct (truthy qry), (truthy frag).
  - exists (p +s+ ("?" +s+ qry) +s+ ("#" +s+ frag)). split.
    + rewrite !append_assoc. reflexivity.
    + apply Hq; [exact Hp|]. reflexivity.
  - exists (p +s+ ("?" +s+ qry)). split.
    + rewrite !append_assoc. reflexivity.
    + apply Hq; [exact Hp|]. reflexivity.
  - exists (p +s+ ("#" +s+ frag)). split.
    + rewrite !append_assoc. reflexivity.
    + apply Hq; [exact Hp|]. reflexivity.
  - exists p. split; [reflexivity | exact Hp].
Qed.

Lemma urlparse_inv url d u :
  Urllib.urlparse url d = Returns u ->
  exists r, Urllib.urlsplit url d = Returns r
            /\ Urllib.p_scheme u = Urllib.scheme r
            /\ Urllib.p_netloc u = Urllib.netloc r.
Proof.
  unfold Urllib.urlparse. intros H.
  apply bind_Returns in H. destruct H as [r [Hr H]].
  exists r. split; [exact Hr|].
  destruct (Urllib.mem (Urllib.scheme r) Urllib.uses_params
            && contains_char ";" (Urllib.path r));
    [destruct (Urllib.split_params (Urllib.path r)) as [pth prm]|];
    injection H as <-; split; reflexivity.
Qed.

(** Runs through the rest of [urlsplit] once the scheme is known. *)
Ltac after_scheme H :=
  destruct (Urllib.split_netloc _) as [? ?];
  destruct (Urllib.check_brackets _) as [[]|?]; [|discriminate H];
  cbn [Py.bind] in H |- *;
  destruct (Urllib.partition "#" _) as [[? ?] ?];
  destruct (Urllib.partition "?" _) as [[? ?] ?];
  destruct (Urllib._checknetloc _) as [[]|?]; [|discriminate H];
  cbn [Py.bind] in H |- *.

(** A scheme other than the default one was written in the URL. *)
Lemma explicit_scheme url d r :
  Urllib.remove_unsafe (Urllib.strip_c0 d) = d ->
  Urllib.urlsplit url d = Returns r -> Urllib.scheme r <> d ->
  Urllib.is_absolute url = true.
Proof.
  unfold Urllib.is_absolute, Urllib.urlsplit. intros Hd H Hneq.
  rewrite Hd in H. unfold Urllib.split_scheme in *.
  destruct (Urllib.remove_unsafe (Urllib.lstrip_c0 url)) as [|c x].
  { exfalso. after_scheme H. injection H as <-. apply Hneq. reflexivity. }
  destruct (isalpha c) eqn:Ec.
  2:{ exfalso. after_scheme H. injection H as <-. apply Hneq. reflexivity. }
  destruct (Urllib.scan_scheme (String c x)) as [[sch rest]|] eqn:E.
  2:{ exfalso. after_scheme H. injection H as <-. apply Hneq. reflexivity. }
  after_scheme H.
  simpl. simpl in E.
  destruct (Ascii.eqb_spec c ":") as [->|_]; [discriminate Ec|].
  destruct (Urllib.scheme_char c); [|discriminate E].
  destruct (Urllib.scan_scheme x) as [[sch' rest']|]; [|discriminate E].
  injection E as <- _. reflexivity.
Qed.

(** [urljoin] on a well-formed base gives an absolute URL. *)
Theorem urljoin_absolute base url r :
  Urllib.well_formed_base base = true ->
  Urllib.urljoin base url = Returns r ->
  Urllib.is_absolute r = true.
Proof.
  unfold Urllib.well_formed_base.
  destruct (Urllib.urlsplit base "") as [b|e] eqn:HB; [|discriminate].
  intros Hwf HJ. apply andb_true_iff in Hwf. destruct Hwf as [Hsch Hnl].
  assert (Hs : Urllib.scheme b = "http" \/ Urllib.scheme b = "https").
  { apply orb_true_iff in Hsch. destruct Hsch as [H|H]; apply String.eqb_eq in H; auto. }
  assert (Habs : Urllib.is_absolute base = true).
  { unfold Urllib.is_absolute. rewrite HB. destruct Hs as [-> | ->]; reflexivity. }
  unfold Urllib.urljoin in HJ.
  destruct base as [|c0 base'].
  { vm_compute in HB. injection HB as <-. destruct Hs; discriminate. }
  cbn [truthy negb] in HJ.
  destruct (truthy url); cbn [negb] in HJ.
  2:{ injection HJ as <-. exact Habs. }
  apply bind_Returns in HJ. destruct HJ as [pb [Hpb HJ]].
  apply bind_Returns in HJ. destruct HJ as [pu [Hpu HJ]].
  apply urlparse_inv in Hpb. destruct Hpb as (b' & Hb' & Hbs & Hbn).
  rewrite HB in Hb'. injection Hb' as <-.
  apply urlparse_inv in Hpu. destruct Hpu as (u & Hu & Hus & Hun).
  rewrite Hbs, Hus in *. rewrite Hbn, Hun in *. clear Hbs Hus Hbn Hun.
  destruct (urlsplit_netloc _ _ _ HB) as (Bsafe & Bbreak & Bbr).
  destruct (urlsplit_netloc _ _ _ Hu) as (Usafe & Ubreak & Ubr).
  destruct (String.eqb_spec (Urllib.scheme u) (Urllib.scheme b)) as [E|N].
  2:{ cbn [negb orb] in HJ. injection HJ as <-.
      apply (explicit_scheme url (Urllib.scheme b) u); try assumption.
      destruct Hs as [-> | ->]; reflexivity. }
  rewrite E in *.
  assert (Hrel : Urllib.mem (Urllib.scheme b) Urllib.uses_relative = true)
    by (destruct Hs as [-> | ->]; reflexivity).
  assert (Hnet : Urllib.mem (Urllib.scheme b) Urllib.uses_netloc = true)
    by (destruct Hs as [-> | ->]; reflexivity).
  assert (Hts : truthy (Urllib.scheme b) = true)
    by (destruct Hs as [-> | ->]; reflexivity).
  rewrite Hrel, Hnet in HJ. cbn [negb orb andb] in HJ.
  assert (Hfin : forall nl p q f,
             truthy nl = true -> Urllib.all_safe nl = true ->
             Urllib.break_at (Urllib.one_of "/?#") nl = (nl, "") ->
             Urllib.accepted nl ->
             Urllib.is_absolute (Urllib.urlunsplit (Urllib.scheme b) nl p q f) = true).
  { intros nl p q f Hn Hsafe Hbreak Hbr.
    destruct (urlunsplit_shape (Urllib.scheme b) nl p q f Hts Hn) as (T & -> & HT).
    apply rebuilt_absolute; assumption. }
  unfold Urllib.urlunparse in HJ.
  destruct (truthy (Urllib.netloc u)) eqn:Tn.
  - injection HJ as <-. apply Hfin; assumption.
  - destruct (negb (truthy (Urllib.p_path pu)) && negb (truthy (Urllib.p_params pu)));
      injection HJ as <-; apply Hfin; assumption.
Qed.

(** X7: the link and image URLs stored for a page with a well-formed
    base URL are absolute. *)
Theorem links_and_images_absolute (P : string -> outcome soup) html base d :
  Urllib.well_formed_base base = true ->
  parse_dom_content P html base = Returns (Some d) ->
  Forall (fun l => Urllib.is_absolute (link_url l) = true) (links d)
  /\ Forall (fun i => Urllib.is_absolute (img_src i) = true) (images d).
Proof.
  intros Hwf H. destruct (stored_urls P html base d H) as (soup & _ & HL & HI & _).
  split; apply Forall_forall.
  - intros l Hl. destruct (HL l Hl) as (a & _ & Ha).
    exact (urljoin_absolute base _ _ Hwf Ha).
  - intros i Hi. destruct (HI i Hi) as (img & _ & Ha).
    exact (urljoin_absolute base _ _ Hwf Ha).
Qed.


(** ** The analysis of the chunks *)

Lemma analyze_from_length llm template i chunks :
  List.length (Analyze.analyze_from llm template i chunks) = List.length chunks.
Proof.
  revert i. induction chunks as [|c r IH]; simpl; intros i; [reflexivity|].
  rewrite IH. reflexivity.
Qed.

Lemma analyze_from_nth llm template i chunks k chunk :
  nth_error chunks k = Some chunk ->
  nth_error (Analyze.analyze_from llm template i chunks) k
  = Some (Analyze.analyze_chunk llm template (i + k) chunk).
Proof.
  revert i k. induction chunks as [|c r IH]; intros i k H.
  - destruct k; discriminate H.
  - destruct k as [|k]; simpl in *.
    + injection H as ->. rewrite Nat.add_0_r. reflexivity.
    + rewrite (IH (S i) k H). f_equal. f_equal. lia.
Qed.

Lemma analyze_chunk_shape llm template i chunk :
  Analyze.is_chunk_analysis (Analyze.analyze_chunk llm template i chunk) = true
  /\ Analyze.chunk_id_of (Analyze.analyze_chunk llm template i chunk) = i + 1
  /\ Analyze.preview_of (Analyze.analyze_chunk llm template i chunk)
     = Analyze.chunk_preview_of chunk
  /\ Analyze.chunk_length_of (Analyze.analyze_chunk llm template i chunk)
     = String.length chunk.
Proof.
  unfold Analyze.analyze_chunk.
  destruct (Analyze.invoke llm i _); simpl; repeat split.
Qed.

(** X1: once the model is constructed, the analysis returns one record
    per chunk, in the order of the chunks: record number [k] (from 0)
    has [chunk_id] [k + 1], the preview and the length of chunk [k], and
    is never an error record, whatever the calls to the model do. *)
Theorem analysis_one_record_per_chunk llm chunks analysis_type model_name :
  Analyze.connect llm model_name = Returns tt ->
  List.length (Analyze.analyze_content_with_llm llm chunks analysis_type model_name)
  = List.length chunks
  /\ forall k chunk,
       nth_error chunks k = Some chunk ->
       exists r,
         nth_error (Analyze.analyze_content_with_llm llm chunks analysis_type model_name) k
         = Some r
         /\ Analyze.is_chunk_analysis r = true
         /\ Analyze.chunk_id_of r = k + 1
         /\ Analyze.preview_of r = Analyze.chunk_preview_of chunk
         /\ Analyze.chunk_length_of r = String.length chunk.
Proof.
  intros HC. unfold Analyze.analyze_content_with_llm. rewrite HC. split.
  - apply analyze_from_length.
  - intros k chunk Hk. eexists. split.
    + apply analyze_from_nth. exact Hk.
    + apply analyze_chunk_shape.
Qed.

Lemma analysis_one_record_per_chunk_witness :
  List.length (Analyze.analyze_content_with_llm Samples.flaky_llm
                 ["first"; "second"; "third"] "summarize" "llama3.2") = 3
  /\ forall k chunk,
       nth_error ["first"; "second"; "third"] k = Some chunk ->
       exists r,
         nth_error (Analyze.analyze_content_with_llm Samples.flaky_llm
                      ["first"; "second"; "third"] "summarize" "llama3.2") k
         = Some r
         /\ Analyze.is_chunk_analysis r = true
         /\ Analyze.chunk_id_of r = k + 1
         /\ Analyze.preview_of r = Analyze.chunk_preview_of chunk
         /\ Analyze.chunk_length_of r = String.length chunk.
Proof.
  apply (analysis_one_record_per_chunk Samples.flaky_llm
           ["first"; "second"; "third"] "summarize" "llama3.2").
  reflexivity.
Defined.

(** X2: a call to the model that raises spoils the record of its own
    chunk only: the analysis stored for chunk [k] is the stripped
    response of call [k], or the error text when call [k] raised; the
    other calls play no part in it. *)
Theorem analysis_contains_chunk_failure llm chunks analysis_type model_name k chunk :
  Analyze.connect llm model_name = Returns tt ->
  nth_error chunks k = Some chunk ->
  exists r,
    nth_error (Analyze.analyze_content_with_llm llm chunks analysis_type model_name) k
    = Some r
    /\ Analyze.analysis_of r
       = match Analyze.invoke llm k
                 (Analyze.full_prompt (Analyze.prompt_template analysis_type) chunk) with
         | Returns response => strip response
         | Raises e => "Error processing this chunk: " +s+ Analyze.str_exn e
         end.
Proof.
  intros HC Hk. unfold Analyze.analyze_content_with_llm. rewrite HC.
  eexists. split.
  - apply analyze_from_nth. exact Hk.
  - unfold Analyze.analyze_chunk. cbn [Nat.add].
    destruct (Analyze.invoke llm k _); reflexivity.
Qed.

Lemma analysis_contains_chunk_failure_witness :
  map Analyze.analysis_of
      (Analyze.analyze_content_with_llm Samples.flaky_llm
         ["first"; "second"; "third"] "summarize" "llama3.2")
  = ["ok"; "Error processing this chunk: timeout"; "ok"]
  /\ exists r,
       nth_error (Analyze.analyze_content_with_llm Samples.flaky_llm
                    ["first"; "second"; "third"] "summarize" "llama3.2") 1
       = Some r
       /\ Analyze.analysis_of r
          = match Analyze.invoke Samples.flaky_llm 1
                    (Analyze.full_prompt (Analyze.prompt_template "summarize") "second") with
            | Returns response => strip response
            | Raises e => "Error processing this chunk: " +s+ Analyze.str_exn e
            end.
Proof.
  split; [reflexivity|].
  apply (analysis_contains_chunk_failure Samples.flaky_llm
           ["first"; "second"; "third"] "summarize" "llama3.2" 1 "second");
    reflexivity.
Defined.

Lemma length_append (a b : string) :
  String.length (a +s+ b) = String.length a + String.length b.
Proof. induction a as [|c a IH]; simpl; [reflexivity | rewrite IH; reflexivity]. Qed.

Lemma length_substring_0 (n : nat) (s : string) :
  String.length (substring 0 n s) = Nat.min n (String.length s).
Proof.
  revert s. induction n as [|n IH]; intros s.
  - destruct s; reflexivity.
  - destruct s as [|c s]; simpl; [reflexivity|]. rewrite IH. reflexivity.
Qed.

(** X3: the preview stored with a chunk never exceeds 203 characters:
    a chunk of at most 200 characters is its own preview, a longer one
    is cut to its first 200 characters followed by three dots. *)
Theorem chunk_preview_bounded (chunk : string) :
  String.length (Analyze.chunk_preview_of chunk) <= 203
  /\ (String.length chunk <= 200 -> Analyze.chunk_preview_of chunk = chunk)
  /\ (200 < String.length chunk ->
      Analyze.chunk_preview_of chunk = substring 0 200 chunk +s+ "..."
      /\ String.length (Analyze.chunk_preview_of chunk) = 203).
Proof.
  unfold Analyze.chunk_preview_of.
  destruct (Nat.ltb_spec 200 (String.length chunk)) as [H|H].
  - rewrite length_append, length_substring_0.
    change (String.length "...") with 3.
    rewrite Nat.min_l by lia. repeat split; lia.
  - repeat split; lia.
Qed.

(** ** What the extractor stores *)

Lemma rstrip_idempotent (s : string) : rstrip (rstrip s) = rstrip s.
Proof.
  induction s as [|c r IH]; simpl; [reflexivity|].
  destruct (rstrip r) as [|d r'] eqn:E.
  - destruct (isspace c) eqn:Ec; simpl; [reflexivity|]. rewrite Ec. reflexivity.
  - change (rstrip (String c (String d r')))
      with (match rstrip (String d r') with
            | EmptyString => if isspace c then EmptyString else String c EmptyString
            | String x y => String c (String x y)
            end).
    rewrite IH. reflexivity.
Qed.

Lemma lstrip_starts_clean (s : string) : Reference.starts_clean (lstrip s).
Proof.
  induction s as [|c r IH]; simpl; [exact I|].
  destruct (isspace c) eqn:E; [exact IH | exact E].
Qed.

Lemma lstrip_clean (s : string) : Reference.starts_clean s -> lstrip s = s.
Proof. destruct s as [|c r]; simpl; [reflexivity|]. intros ->. reflexivity. Qed.

Lemma rstrip_starts_clean (s : string) : Reference.starts_clean s -> Reference.starts_clean (rstrip s).
Proof.
  destruct s as [|c r]; simpl; [trivial|]. intros E.
  destruct (rstrip r); [rewrite E|]; exact E.
Qed.

Lemma strip_idempotent (s : string) : strip (strip s) = strip s.
Proof.
  unfold strip.
  rewrite (lstrip_clean (rstrip (lstrip s)))
    by apply rstrip_starts_clean, lstrip_starts_clean.
  apply rstrip_idempotent.
Qed.

Lemma filter_In_truthy (l : list string) (x : string) :
  In x (filter truthy l) -> In x l /\ x <> "".
Proof.
  intros H. apply filter_In in H. destruct H as [H1 H2].
  split; [exact H1|]. intros ->. discriminate H2.
Qed.

Lemma truthy_not_empty (x : string) : truthy x = true -> x <> "".
Proof. intros H ->. discriminate H. Qed.

(** The fields of a successful extraction that hold texts. *)
Lemma parse_dom_body_texts (P : string -> outcome soup) html base d :
  parse_dom_body P html base = Returns d ->
  exists soup,
    P html = Returns soup
    /\ paragraphs d = filter truthy (stripped_texts (find_all ["p"] soup))
    /\ lists d = appended (map extract_list (find_all ["ul"; "ol"] soup))
    /\ headings d = mkHeadings (stripped_texts (find_all ["h1"] soup))
                               (stripped_texts (find_all ["h2"] soup))
                               (stripped_texts (find_all ["h3"] soup))
    /\ meta_description d = extract_meta_description soup.
Proof.
  unfold parse_dom_body. intros H.
  apply bind_Returns in H. destruct H as [soup [HP H]].
  apply bind_Returns in H. destruct H as [t [HT H]].
  apply bind_Returns in H. destruct H as [lr [HL H]].
  apply bind_Returns in H. destruct H as [ir [HI H]].
  injection H as <-. simpl. exists soup. repeat split. exact HP.
Qed.

(** X4: every stored link has a visible text: it is not empty and has
    no whitespace at either end; an anchor whose text is blank is not
    stored. *)
Theorem links_have_visible_text (P : string -> outcome soup) html base d l :
  parse_dom_content P html base = Returns (Some d) ->
  In l (links d) ->
  link_text l <> "" /\ Reference.stripped (link_text l).
Proof.
  intros H Hin. apply parse_dom_content_inv, parse_dom_body_inv in H.
  destruct H as (soup & lr & ir & _ & _ & HL & _ & HLs & _).
  rewrite HLs in Hin.
  destruct (appended_round _ _ _ _ HL Hin) as (a & _ & Ha).
  apply extract_link_inv in Ha.
  destruct Ha as (r & b & _ & _ & _ & Ht & Hne & _).
  split; [apply truthy_not_empty, Hne|].
  unfold Reference.stripped. rewrite Ht. apply strip_idempotent.
Qed.

Lemma links_have_visible_text_witness :
  "go" <> "" /\ Reference.stripped "go".
Proof.
  apply (links_have_visible_text HtmlParser.BeautifulSoup
           "<a href='/x'> go </a><a href='/y'>  </a>" Samples.base_url
           (mkDom "No title found" "" (mkHeadings [] [] [])
                  [mkLink "go" "https://example.com/x" false] [] [] []
                  [] [] (mkContact [] [] []))
           (mkLink "go" "https://example.com/x" false)).
  - vm_compute. reflexivity.
  - left. reflexivity.
Defined.

(** X5: no stored paragraph is empty or has whitespace at either end,
    and every stored list is a [ul] or an [ol] with at least one item;
    blank paragraphs and lists without items are left out. *)
Theorem paragraphs_and_lists_not_empty (P : string -> outcome soup) html base d :
  parse_dom_content P html base = Returns (Some d) ->
  Forall (fun p => p <> "" /\ Reference.stripped p) (paragraphs d)
  /\ Forall (fun l => list_items l <> []
                      /\ (list_type l = "ul" \/ list_type l = "ol"))
            (lists d).
Proof.
  intros H. apply parse_dom_content_inv, parse_dom_body_texts in H.
  destruct H as (soup & _ & HPa & HLi & _). split; apply Forall_forall.
  - intros p Hp. rewrite HPa in Hp. apply filter_In_truthy in Hp.
    destruct Hp as [Hp Hne]. split; [exact Hne|].
    unfold stripped_texts in Hp. apply in_map_iff in Hp.
    destruct Hp as (x & <- & _). apply strip_idempotent.
  - intros l Hl. rewrite HLi in Hl. apply appended_In in Hl.
    apply in_map_iff in Hl. destruct Hl as (ul & Hul & Hin).
    unfold extract_list in Hul.
    destruct (nonempty (stripped_texts (find_all ["li"] (tag_contents ul)))) eqn:E;
      [|discriminate Hul].
    injection Hul as <-. simpl. split.
    + intros Hnil. rewrite Hnil in E. discriminate E.
    + unfold find_all in Hin. apply filter_In in Hin. destruct Hin as [_ Hn].
      unfold name_in in Hn. apply andb_true_iff in Hn. destruct Hn as [_ Hn].
      simpl in Hn. rewrite orb_false_r in Hn. apply orb_true_iff in Hn.
      destruct Hn as [Hn|Hn]; apply String.eqb_eq in Hn; auto.
Qed.

Lemma paragraphs_and_lists_not_empty_witness :
  Forall (fun p => p <> "" /\ Reference.stripped p) ["one"]
  /\ Forall (fun l => list_items l <> []
                      /\ (list_type l = "ul" \/ list_type l = "ol"))
            [mkList "ol" ["a"]].
Proof.
  apply (paragraphs_and_lists_not_empty HtmlParser.BeautifulSoup
           "<p> one </p><p> </p><ul></ul><ol><li>a</li></ol>" Samples.base_url
           (mkDom "No title found" "" (mkHeadings [] [] []) [] [] ["one"]
                  [mkList "ol" ["a"]] [] [] (mkContact [] [] []))).
  vm_compute. reflexivity.
Defined.

Lemma title_without_string_aborts_witness :
  parse_dom_content HtmlParser.BeautifulSoup Samples.empty_title_markup
    Samples.base_url = Returns None.
Proof.
  apply (title_without_string_aborts HtmlParser.BeautifulSoup
           Samples.empty_title_markup Samples.base_url
           [Tag "title" [] []; Tag "p" [] [NavigableString "Hello"]]
           (Tag "title" [] []));
    reflexivity.
Defined.

Lemma contact_info_members_witness :
  exists soup,
    HtmlParser.BeautifulSoup Samples.contact_markup = Returns soup
    /\ (forall x, In x ["a@b.co"]
                  <-> In x (Re.findall email_pattern (get_text soup)))
    /\ (forall x, In x ["555-123-4567"]
                  <-> exists pattern, In pattern phone_patterns
                                      /\ In x (Re.findall pattern (get_text soup))).
Proof.
  apply (contact_info_members HtmlParser.BeautifulSoup Samples.contact_markup
           Samples.base_url
           (mkDom "No title found" "" (mkHeadings [] [] []) [] []
                  ["Write to a@b.co or a@b.co, call 555-123-4567 or 555-123-4567."]
                  [] [] [] (mkContact ["a@b.co"] ["555-123-4567"] []))).
  vm_compute. reflexivity.
Defined.

Lemma links_and_images_absolute_witness :
  Forall (fun l => Urllib.is_absolute (link_url l) = true)
         [mkLink "go" "https://example.com/dir/x" false]
  /\ Forall (fun i => Urllib.is_absolute (img_src i) = true)
            [mkImage "https://example.com/i.png" "" ""].
Proof.
  apply (links_and_images_absolute HtmlParser.BeautifulSoup
           "<a href='x'>go</a><img src='/i.png'>" "https://example.com/dir/"
           (mkDom "No title found" "" (mkHeadings [] [] [])
                  [mkLink "go" "https://example.com/dir/x" false]
                  [mkImage "https://example.com/i.png" "" ""] [] [] [] []
                  (mkContact [] [] []))).
  - reflexivity.
  - vm_compute. reflexivity.
Defined.

(** ** Relative links *)

Lemma rebuilt_netloc sch nl T :
  sch = "http" \/ sch = "https" ->
  Urllib.all_safe nl = true ->
  Urllib.break_at (Urllib.one_of "/?#") nl = (nl, "") ->
  Urllib.accepted nl ->
  Urllib.begins_with (Urllib.one_of "/?#") T ->
  exists r, Urllib.urlsplit (sch +s+ ":" +s+ "//" +s+ nl +s+ T) "" = Returns r
            /\ Urllib.netloc r = nl.
Proof.
  intros Hs Hsafe Hb [Hbr Hck] HT. unfold Urllib.urlsplit.
  destruct Hs as [-> | ->]; simpl;
    rewrite remove_unsafe_app, (remove_unsafe_safe nl Hsafe),
      (break_at_app _ nl _ Hb (begins_remove_unsafe T HT)), Hbr;
    cbn [Py.bind];
    destruct (Urllib.partition "#" _) as [[u1 b1] frag];
    destruct (Urllib.partition "?" u1) as [[u2 b2] qry];
    rewrite Hck; eexists; split; reflexivity.
Qed.

Lemma urlparse_of_urlsplit url d r :
  Urllib.urlsplit url d = Returns r ->
  exists pr, Urllib.urlparse url d = Returns pr
             /\ Urllib.p_scheme pr = Urllib.scheme r
             /\ Urllib.p_netloc pr = Urllib.netloc r.
Proof.
  intros H. unfold Urllib.urlparse. rewrite H. cbn [Py.bind].
  destruct (Urllib.mem (Urllib.scheme r) Urllib.uses_params
            && contains_char ";" (Urllib.path r));
    [destruct (Urllib.split_params (Urllib.path r)) as [pth prm]|];
    eexists; repeat split.
Qed.

(** Without a scheme of its own a URL takes the default one, and
    nothing else changes. *)
Lemma urlsplit_default url d u :
  Urllib.urlsplit url "" = Returns u -> Urllib.scheme u = "" ->
  exists u', Urllib.urlsplit url d = Returns u'
             /\ Urllib.scheme u' = Urllib.remove_unsafe (Urllib.strip_c0 d)
             /\ Urllib.netloc u' = Urllib.netloc u.
Proof.
  unfold Urllib.urlsplit. intros H Hs.
  change (Urllib.remove_unsafe (Urllib.strip_c0 "")) with "" in H.
  unfold Urllib.split_scheme in *.
  destruct (Urllib.remove_unsafe (Urllib.lstrip_c0 url)) as [|c x].
  { after_scheme H. injection H as <-. eexists. repeat split. }
  destruct (isalpha c) eqn:Ec.
  2:{ after_scheme H. injection H as <-. eexists. repeat split. }
  destruct (Urllib.scan_scheme (String c x)) as [[sch rest]|] eqn:E.
  2:{ after_scheme H. injection H as <-. eexists. repeat split. }
  exfalso. after_scheme H. injection H as <-. simpl in Hs.
  simpl in E.
  destruct (Ascii.eqb_spec c ":") as [->|_]; [discriminate Ec|].
  destruct (Urllib.scheme_char c); [|discriminate E].
  destruct (Urllib.scan_scheme x) as [[sch' rest']|]; [|discriminate E].
  injection E as <- _. discriminate Hs.
Qed.

(** [urljoin] puts a relative reference under the network location of
    the base. *)
Lemma urljoin_keeps_netloc base url r b :
  Urllib.well_formed_base base = true ->
  Urllib.urlsplit base "" = Returns b ->
  Reference.relative_reference url = true ->
  Urllib.urljoin base url = Returns r ->
  exists pr, Urllib.urlparse r "" = Returns pr
             /\ Urllib.p_netloc pr = Urllib.netloc b.
Proof.
  unfold Urllib.well_formed_base, Reference.relative_reference.
  intros Hwf HB Hrel HJ. rewrite HB in Hwf.
  apply andb_true_iff in Hwf. destruct Hwf as [Hsch Hnl].
  assert (Hs : Urllib.scheme b = "http" \/ Urllib.scheme b = "https").
  { apply orb_true_iff in Hsch. destruct Hsch as [H|H]; apply String.eqb_eq in H; auto. }
  destruct (Urllib.urlsplit url "") as [u0|e] eqn:HU0; [|discriminate Hrel].
  apply andb_true_iff in Hrel. destruct Hrel as [Hu0s Hu0n].
  assert (Es : Urllib.scheme u0 = "") by (destruct (Urllib.scheme u0); [reflexivity | discriminate Hu0s]).
  assert (En : Urllib.netloc u0 = "") by (destruct (Urllib.netloc u0); [reflexivity | discriminate Hu0n]).
  assert (Hbase : exists pr, Urllib.urlparse base "" = Returns pr
                             /\ Urllib.p_netloc pr = Urllib.netloc b).
  { destruct (urlparse_of_urlsplit _ _ _ HB) as (pr & Hpr & _ & Hn).
    exists pr. split; assumption. }
  unfold Urllib.urljoin in HJ.
  destruct base as [|c0 base'].
  { vm_compute in HB. injection HB as <-. destruct Hs; discriminate. }
  cbn [truthy negb] in HJ.
  destruct (truthy url); cbn [negb] in HJ.
  2:{ injection HJ as <-. exact Hbase. }
  apply bind_Returns in HJ. destruct HJ as [pb [Hpb HJ]].
  apply bind_Returns in HJ. destruct HJ as [pu [Hpu HJ]].
  apply urlparse_inv in Hpb. destruct Hpb as (b' & Hb' & Hbs & Hbn).
  rewrite HB in Hb'. injection Hb' as <-.
  apply urlparse_inv in Hpu. destruct Hpu as (u & Hu & Hus & Hun).
  destruct (urlsplit_default url (Urllib.scheme b) u0 HU0 Es) as (u' & Hu' & Hu's & Hu'n).
  rewrite Hbs in Hu. rewrite Hu in Hu'. injection Hu' as <-.
  assert (Hclean : Urllib.remove_unsafe (Urllib.strip_c0 (Urllib.scheme b)) = Urllib.scheme b)
    by (destruct Hs as [-> | ->]; reflexivity).
  rewrite Hclean in Hu's. rewrite En in Hu'n.
  rewrite Hus, Hbs, Hun, Hbn, Hu's, Hu'n in HJ.
  rewrite String.eqb_refl in HJ.
  assert (Hrel : Urllib.mem (Urllib.scheme b) Urllib.uses_relative = true)
    by (destruct Hs as [-> | ->]; reflexivity).
  assert (Hnet : Urllib.mem (Urllib.scheme b) Urllib.uses_netloc = true)
    by (destruct Hs as [-> | ->]; reflexivity).
  assert (Hts : truthy (Urllib.scheme b) = true)
    by (destruct Hs as [-> | ->]; reflexivity).
  rewrite Hrel, Hnet in HJ. cbn [negb orb andb truthy] in HJ.
  destruct (urlsplit_netloc _ _ _ HB) as (Bsafe & Bbreak & Bbr).
  assert (Hfin : forall p q f,
             exists pr,
               Urllib.urlparse (Urllib.urlunsplit (Urllib.scheme b) (Urllib.netloc b) p q f) ""
               = Returns pr
               /\ Urllib.p_netloc pr = Urllib.netloc b).
  { intros p q f.
    destruct (urlunsplit_shape (Urllib.scheme b) (Urllib.netloc b) p q f Hts Hnl)
      as (T & -> & HT).
    destruct (rebuilt_netloc _ _ _ Hs Bsafe Bbreak Bbr HT) as (r' & Hr' & Hn').
    destruct (urlparse_of_urlsplit _ _ _ Hr') as (pr & Hpr & _ & Hn).
    exists pr. split; [exact Hpr | congruence]. }
  unfold Urllib.urlunparse in HJ.
  destruct (negb (truthy (Urllib.p_path pu)) && negb (truthy (Urllib.p_params pu)));
    injection HJ as <-; apply Hfin.
Qed.

Lemma mapM_In {A B : Type} (f : A -> outcome B) xs ys x :
  mapM f xs = Returns ys -> In x xs -> exists y, f x = Returns y /\ In y ys.
Proof.
  intros HM Hin. apply mapM_Returns in HM.
  induction HM as [|x' y' xs' ys' Hx _ IH]; simpl in Hin; [contradiction|].
  destruct Hin as [-> | Hin].
  - exists y'. split; [exact Hx | left; reflexivity].
  - destruct (IH Hin) as (y & Hy & Hiny). exists y. split; [exact Hy | right; exact Hiny].
Qed.

(** X9: for a well-formed base URL, an anchor with visible text whose href is a relative reference
    is stored as an internal link. *)
Theorem relative_links_are_internal (P : string -> outcome soup) html base d soup a :
  Urllib.well_formed_base base = true ->
  parse_dom_content P html base = Returns (Some d) ->
  P html = Returns soup ->
  In a (find_all_with "a" "href" soup) ->
  strip (node_text a) <> "" ->
  Reference.relative_reference (get a "href" "") = true ->
  exists l,
    In l (links d)
    /\ link_text l = strip (node_text a)
    /\ link_is_external l = false.
Proof.
  intros Hwf H HP Ha Htext Hrel.
  apply parse_dom_content_inv, parse_dom_body_inv in H.
  destruct H as (soup' & lr & ir & HP' & _ & HL & _ & HLs & _).
  rewrite HP in HP'. injection HP' as <-.
  destruct (mapM_In _ _ _ _ HL Ha) as (round & Hround & Hin).
  unfold extract_link in Hround.
  apply bind_Returns in Hround. destruct Hround as [u [HU Hround]].
  destruct (truthy (strip (node_text a))) eqn:HT.
  2:{ destruct (strip (node_text a)); [contradiction | discriminate HT]. }
  apply bind_Returns in Hround. destruct Hround as [r [HR Hround]].
  apply bind_Returns in Hround. destruct Hround as [b [HB Hround]].
  injection Hround as <-.
  eexists. split; [rewrite HLs; apply appended_In; exact Hin|].
  split; [reflexivity|]. cbn [link_is_external].
  apply urlparse_inv in HB. destruct HB as (sb & Hsb & _ & Hbn).
  destruct (urljoin_keeps_netloc base _ u sb Hwf Hsb Hrel HU) as (pr & Hpr & Hn).
  rewrite HR in Hpr. injection Hpr as <-.
  rewrite Hn, Hbn, String.eqb_refl. reflexivity.
Qed.

(** ** When the extraction succeeds *)


















Lemma relative_links_are_internal_witness :
  exists l,
    In l [mkLink "About" "https://example.com/about" false]
    /\ link_text l = "About"
    /\ link_is_external l = false.
Proof.
  apply (relative_links_are_internal HtmlParser.BeautifulSoup
           "<a href='../about'> About </a>" "https://example.com/dir/page"
           (mkDom "No title found" "" (mkHeadings [] [] [])
                  [mkLink "About" "https://example.com/about" false] [] [] []
                  [] [] (mkContact [] [] []))
           [Tag "a" [("href", "../about")] [NavigableString " About "]]
           (Tag "a" [("href", "../about")] [NavigableString " About "])).
  - reflexivity.
  - vm_compute. reflexivity.
  - reflexivity.
  - left. reflexivity.
  - discriminate.
  - reflexivity.
Defined.


(** ** More on the fetch orchestrator *)

(** The markup the two strategies leave the orchestrator with. *)
Lemma scrape_website_cases (P : string -> outcome soup) w website parse_dom :
  website <> "" ->
  (exists m,
      m <> ""
      /\ (fst (scrape_with_requests w (normalize website)) = Some m
          \/ (truthy_opt (fst (scrape_with_requests w (normalize website))) = false
              /\ fst (scrape_with_selenium w (normalize website)) = Some m))
      /\ fst (scrape_website P w website parse_dom)
         = (if parse_dom
            then dom <- parse_dom_content P m (normalize website) ;;
                 Returns (Dict (mkBundle m dom (normalize website)))
            else Returns (Str m)))
  \/ (truthy_opt (fst (scrape_with_requests w (normalize website))) = false
      /\ truthy_opt (fst (scrape_with_selenium w (normalize website))) = false
      /\ fst (scrape_website P w website parse_dom) = Returns (Str all_failed)).
Proof.
  intros Hne. unfold scrape_website.
  destruct website as [|c r]; [contradiction|]. cbn [truthy negb].
  set (url := normalize (String c r)).
  destruct (scrape_with_requests w url) as [[[|c1 m1]|] log1]; cbn [fst truthy_opt truthy negb].
  - destruct (scrape_with_selenium w url) as [[[|c2 m2]|] log2]; cbn [fst truthy_opt truthy].
    + right. repeat split.
    + left. exists (String c2 m2). split; [discriminate|]. split; [right; split; reflexivity|].
      destruct parse_dom; reflexivity.
    + right. repeat split.
  - left. exists (String c1 m1). split; [discriminate|]. split; [left; reflexivity|].
    destruct parse_dom; reflexivity.
  - destruct (scrape_with_selenium w url) as [[[|c2 m2]|] log2]; cbn [fst truthy_opt truthy].
    + right. repeat split.
    + left. exists (String c2 m2). split; [discriminate|]. split; [right; split; reflexivity|].
      destruct parse_dom; reflexivity.
    + right. repeat split.
Qed.

(** What the call returns for what the fallback chain obtained. *)
Lemma scrape_website_result (P : string -> outcome soup) w website parse_dom :
  website <> "" ->
  (Reference.obtains_nothing w (normalize website) ->
   fst (scrape_website P w website parse_dom) = Returns (Str all_failed))
  /\ (forall markup,
         Reference.obtains w (normalize website) markup ->
         fst (scrape_website P w website parse_dom)
         = (if parse_dom
            then dom <- parse_dom_content P markup (normalize website) ;;
                 Returns (Dict (mkBundle markup dom (normalize website)))
            else Returns (Str markup))).
Proof.
  intros Hne. unfold Reference.obtains_nothing, Reference.obtains, scrape_website.
  destruct website as [|c r]; [contradiction|]. cbn [truthy negb].
  set (url := normalize (String c r)).
  destruct (scrape_with_requests w url) as [[[|c1 m1]|] log1];
    destruct (scrape_with_selenium w url) as [[[|c2 m2]|] log2];
    cbn [fst truthy_opt truthy negb]; split;
      try (intros [HA HB]; (discriminate HA || discriminate HB || reflexivity));
      intros markup [Hm [HA | [HA HB]]];
      try discriminate HA; try discriminate HB;
      try (injection HA as <-); try (injection HB as <-);
      try (contradiction Hm; reflexivity);
      destruct parse_dom; reflexivity.
Qed.

(** X11: [scrape_website] never raises.  On the empty URL it returns
    the "valid URL" sentinel; when neither strategy gives markup, the
    "all methods failed" sentinel; when the fallback chain obtains
    markup, that markup itself if [parse_dom] is off, and if it is on
    the dictionary whose ['html'] is that markup, whose ['url'] is the
    normalized URL and whose ['dom_data'] is what [parse_dom_content]
    gives for that markup with the normalized URL as base. *)
Theorem scrape_website_returns (P : string -> outcome soup) w website parse_dom :
  (exists r, fst (scrape_website P w website parse_dom) = Returns r)
  /\ fst (scrape_website P w "" parse_dom) = Returns (Str no_url)
  /\ (website <> "" -> Reference.obtains_nothing w (normalize website) ->
      fst (scrape_website P w website parse_dom) = Returns (Str all_failed))
  /\ (forall markup,
         website <> "" -> Reference.obtains w (normalize website) markup ->
         (parse_dom = false ->
          fst (scrape_website P w website parse_dom) = Returns (Str markup))
         /\ (parse_dom = true ->
             exists dom,
               parse_dom_content P markup (normalize website) = Returns dom
               /\ fst (scrape_website P w website parse_dom)
                  = Returns (Dict (mkBundle markup dom (normalize website))))).
Proof.
  split; [|split; [reflexivity|split]].
  - destruct website as [|c r] eqn:Ew; [eexists; reflexivity|].
    rewrite <- Ew. assert (Hne : website <> "") by (rewrite Ew; discriminate).
    destruct (scrape_website_cases P w website parse_dom Hne)
      as [(m & _ & _ & Hr) | (_ & _ & Hr)]; rewrite Hr; [|eexists; reflexivity].
    destruct parse_dom; [|eexists; reflexivity].
    destruct (parse_dom_content_never_raises P m (normalize website)) as [dom ->].
    eexists. reflexivity.
  - intros Hne Hnone. apply (scrape_website_result P w website parse_dom Hne), Hnone.
  - intros markup Hne Hm.
    destruct (scrape_website_result P w website parse_dom Hne) as [_ Hr].
    rewrite (Hr markup Hm). split; intros ->; [reflexivity|].
    destruct (parse_dom_content_never_raises P markup (normalize website)) as [dom Hd].
    exists dom. rewrite Hd. split; reflexivity.
Qed.

(** X12: the callers' failure test on what [scrape_website] returns for
    a non-empty URL: it holds when neither strategy gave markup; when
    the fallback chain obtained markup, it holds exactly if [parse_dom]
    is off and the markup itself begins with the error marker. *)
Theorem is_failure_characterised (P : string -> outcome soup) w website parse_dom :
  website <> "" ->
  exists r,
    fst (scrape_website P w website parse_dom) = Returns r
    /\ (Reference.obtains_nothing w (normalize website) -> is_failure r = true)
    /\ (forall markup,
           Reference.obtains w (normalize website) markup ->
           is_failure r = negb parse_dom && startswith markup error_marker).
Proof.
  intros Hne.
  destruct (scrape_website_result P w website parse_dom Hne) as [Hnone Hsome].
  destruct (scrape_website_cases P w website parse_dom Hne)
    as [(m & Hm & HAB & Hr) | (HA & HB & Hr)].
  - assert (Hobt : Reference.obtains w (normalize website) m) by (split; assumption).
    assert (Hr' : exists r, fst (scrape_website P w website parse_dom) = Returns r).
    { rewrite Hr. destruct parse_dom; [|eexists; reflexivity].
      destruct (parse_dom_content_never_raises P m (normalize website)) as [dom ->].
      eexists. reflexivity. }
    destruct Hr' as [r Hres]. exists r. split; [exact Hres|]. split.
    + intros Hn. rewrite (Hnone Hn) in Hres. injection Hres as <-. reflexivity.
    + intros markup Hmk. rewrite (Hsome markup Hmk) in Hres.
      destruct parse_dom.
      * destruct (parse_dom_content_never_raises P markup (normalize website))
          as [dom Hd].
        rewrite Hd in Hres. injection Hres as <-. reflexivity.
      * injection Hres as <-. reflexivity.
  - exists (Str all_failed). split; [exact Hr|]. split; [reflexivity|].
    intros markup Hmk. rewrite (Hsome markup Hmk) in Hr.
    destruct parse_dom.
    + destruct (parse_dom_content_never_raises P markup (normalize website))
        as [dom Hd].
      rewrite Hd in Hr. discriminate Hr.
    + injection Hr as ->. reflexivity.
Qed.

Lemma is_failure_characterised_witness :
  exists r,
    fst (scrape_website HtmlParser.BeautifulSoup Samples.world_marker_page
           "example.com" false) = Returns r
    /\ markup_of r = "❌ sold out"
    /\ is_failure r = true.
Proof.
  assert (Hne : "example.com" <> "") by discriminate.
  destruct (is_failure_characterised HtmlParser.BeautifulSoup Samples.world_marker_page
              "example.com" false Hne) as (r & Hr & _ & Hm).
  exists r. split; [exact Hr|]. split.
  - vm_compute in Hr. injection Hr as <-. reflexivity.
  - rewrite (Hm "❌ sold out"); [reflexivity|].
    split; [discriminate | left; reflexivity].
Defined.

Lemma prefix_of_app (p t : string) : String.prefix p (p +s+ t) = true.
Proof.
  induction p as [|c p IH]; simpl; [destruct t; reflexivity|].
  destruct (ascii_dec c c) as [_|N]; [exact IH | contradiction N; reflexivity].
Qed.

Lemma normalize_has_protocol (website : string) :
  has_protocol (normalize website) = true.
Proof.
  unfold normalize. destruct (has_protocol website) eqn:E; [exact E|].
  unfold has_protocol, startswith.
  rewrite (prefix_of_app "https://" website). apply orb_true_r.
Qed.

(** X13: every strategy is invoked on a URL that starts with "http://"
    or "https://", and normalizing a URL twice is normalizing it once: a
    URL is never given the prefix twice. *)
Theorem strategies_get_a_protocol (P : string -> outcome soup) w website parse_dom :
  Forall (fun e => has_protocol (event_url e) = true)
         (snd (scrape_website P w website parse_dom))
  /\ normalize (normalize website) = normalize website.
Proof.
  split.
  - destruct website as [|c r] eqn:Ew; [constructor|]. rewrite <- Ew.
    rewrite scrape_website_log by (rewrite Ew; discriminate).
    constructor; [apply normalize_has_protocol|].
    destruct (truthy_opt _); constructor; [apply normalize_has_protocol | constructor].
  - unfold normalize at 1. rewrite normalize_has_protocol. reflexivity.
Qed.

(** X14: a dictionary returned by [scrape_website] for a page that
    [parse_dom_content] gave up on carries [None] as ['dom_data'], and
    [create_content_chunks] raises a [TypeError] on it instead of
    falling back to the markup it also carries. *)
Theorem unparsed_bundle_cannot_be_chunked (P : string -> outcome soup) w website b
        chunk_size chunk_overlap :
  fst (scrape_website P w website true) = Returns (Dict b) ->
  parse_dom_content P (b_html b) (b_url b) = Returns None ->
  b_dom_data b = None
  /\ create_content_chunks P (CDict b) chunk_size chunk_overlap
     = Raises (TypeError "'NoneType' object is not subscriptable").
Proof.
  intros Hr Hp.
  assert (Hne : website <> "").
  { intros ->. unfold scrape_website in Hr. cbn in Hr. discriminate. }
  destruct (scrape_website_cases P w website true Hne)
    as [(m & _ & _ & Hc) | (_ & _ & Hc)]; rewrite Hc in Hr; [|discriminate].
  destruct (parse_dom_content_never_raises P m (normalize website)) as [dom Hd].
  rewrite Hd in Hr. cbn [Py.bind] in Hr. injection Hr as <-.
  cbn [b_html b_url b_dom_data] in *. rewrite Hd in Hp. injection Hp as ->.
  split; reflexivity.
Qed.

Lemma unparsed_bundle_cannot_be_chunked_witness :
  b_dom_data (mkBundle Samples.empty_title_markup None "https://example.com") = None
  /\ create_content_chunks HtmlParser.BeautifulSoup
       (CDict (mkBundle Samples.empty_title_markup None "https://example.com")) 1000 200
     = Raises (TypeError "'NoneType' object is not subscriptable").
Proof.
  apply (unparsed_bundle_cannot_be_chunked HtmlParser.BeautifulSoup
           Samples.world_empty_title "example.com"
           (mkBundle Samples.empty_title_markup None "https://example.com") 1000 200).
  - vm_compute. reflexivity.
  - vm_compute. reflexivity.
Defined.

(** ** Removing elements from the tree *)

(** Induction on a tree with the hypothesis for every child. *)
Lemma node_induction (Q : node -> Prop) :
  (forall nm a cs, Forall Q cs -> Q (Tag nm a cs)) ->
  (forall s, Q (NavigableString s)) ->
  (forall s, Q (OtherString s)) ->
  forall n, Q n.
Proof.
  intros HT HN HO. fix IH 1. intros [nm a cs|s|s].
  - apply HT. induction cs as [|c r IHr]; constructor; [apply IH | exact IHr].
  - apply HN.
  - apply HO.
Qed.

Lemma descendants_of_flat_map {A : Type} (g : A -> list node) (xs : list A) :
  descendants_of (flat_map g xs) = flat_map (fun x => descendants_of (g x)) xs.
Proof.
  unfold descendants_of. induction xs as [|x r IH]; simpl; [reflexivity|].
  rewrite flat_map_app, IH. reflexivity.
Qed.

Lemma filter_flat_map_nil {A B : Type} (p : B -> bool) (g : A -> list B) (xs : list A) :
  Forall (fun x => filter p (g x) = []) xs -> filter p (flat_map g xs) = [].
Proof.
  induction 1 as [|x r Hx _ IH]; simpl; [reflexivity|].
  rewrite filter_app, Hx, IH. reflexivity.
Qed.

Lemma decompose_none_left (names : list string) (n : node) :
  find_all names (decompose names n) = [].
Proof.
  induction n as [nm a cs IH|s|s] using node_induction; unfold find_all; simpl.
  - destruct (existsb (String.eqb nm) names) eqn:E; [reflexivity|].
    unfold descendants_of. simpl. rewrite app_nil_r.
    unfold name_in at 1. simpl. rewrite E. simpl.
    fold (descendants_of (flat_map (decompose names) cs)).
    rewrite descendants_of_flat_map. apply filter_flat_map_nil.
    exact IH.
  - reflexivity.
  - reflexivity.
Qed.

Lemma flat_map_id_on {A : Type} (g : A -> list A) (xs : list A) :
  Forall (fun x => g x = [x]) xs -> flat_map g xs = xs.
Proof.
  induction 1 as [|x r Hx _ IH]; simpl; [reflexivity|].
  rewrite Hx, IH. reflexivity.
Qed.

Lemma flat_map_ext_on {A B : Type} (g h : A -> list B) (xs : list A) :
  Forall (fun x => g x = h x) xs -> flat_map g xs = flat_map h xs.
Proof.
  induction 1 as [|x r Hx _ IH]; simpl; [reflexivity|].
  rewrite Hx, IH. reflexivity.
Qed.

Lemma flat_map_flat_map {A B C : Type} (g : A -> list B) (h : B -> list C) (xs : list A) :
  flat_map h (flat_map g xs) = flat_map (fun x => flat_map h (g x)) xs.
Proof.
  induction xs as [|x r IH]; simpl; [reflexivity|].
  rewrite flat_map_app, IH. reflexivity.
Qed.

(** Removing one more tag type from what is left is removing it along
    with the others. *)
Lemma decompose_then (acc : list string) (name : string) (n : node) :
  flat_map (decompose [name]) (decompose acc n) = decompose (acc ++ [name]) n.
Proof.
  induction n as [nm a cs IH|s|s] using node_induction; simpl; try reflexivity.
  rewrite existsb_app. simpl. rewrite orb_false_r.
  destruct (existsb (String.eqb nm) acc); simpl; [reflexivity|].
  rewrite orb_false_r, app_nil_r.
  destruct (String.eqb nm name); [reflexivity|].
  rewrite flat_map_flat_map. f_equal. f_equal.
  apply flat_map_ext_on. exact IH.
Qed.

Lemma decompose_nothing (n : node) : decompose [] n = [n].
Proof.
  induction n as [nm a cs IH|s|s] using node_induction; simpl; try reflexivity.
  rewrite (flat_map_id_on _ _ IH). reflexivity.
Qed.

Lemma decompose_each_from (names acc : list string) (page : soup) :
  fold_left (fun s tag_type => flat_map (decompose [tag_type]) s) names
            (flat_map (decompose acc) page)
  = flat_map (decompose (acc ++ names)) page.
Proof.
  revert acc. induction names as [|name r IH]; intros acc; simpl.
  - rewrite app_nil_r. reflexivity.
  - rewrite flat_map_flat_map.
    rewrite (flat_map_ext_on _ (decompose (acc ++ [name])) page).
    + rewrite IH, <- app_assoc. reflexivity.
    + apply Forall_forall. intros n _. apply decompose_then.
Qed.

Lemma decompose_each_is_decompose (names : list string) (page : soup) :
  Clean.decompose_each names page = flat_map (decompose names) page.
Proof.
  unfold Clean.decompose_each.
  rewrite <- (flat_map_id_on (decompose []) page) at 1
    by (apply Forall_forall; intros n _; apply decompose_nothing).
  apply decompose_each_from.
Qed.

(** X15: removing the unwanted elements one tag type after the other,
    as [clean_dom_content] does, leaves the tree that removing all of
    them in one pass leaves, and no element of these types is left in
    it. *)
Theorem decompose_each_all_at_once (names : list string) (page : soup) :
  Clean.decompose_each names page = flat_map (decompose names) page
  /\ find_all names (Clean.decompose_each names page) = [].
Proof.
  split; [apply decompose_each_is_decompose|].
  rewrite decompose_each_is_decompose. unfold find_all.
  rewrite descendants_of_flat_map. apply filter_flat_map_nil.
  apply Forall_forall. intros n _. apply (decompose_none_left names n).
Qed.

Lemma filter_flat_map_nil_inv {A B : Type} (p : B -> bool) (g : A -> list B)
      (xs : list A) :
  filter p (flat_map g xs) = [] -> Forall (fun x => filter p (g x) = []) xs.
Proof.
  induction xs as [|x r IH]; simpl; intros H; [constructor|].
  rewrite filter_app in H. apply app_eq_nil in H. destruct H as [Hx Hr].
  constructor; [exact Hx | apply IH, Hr].
Qed.

(** A tree without elements of the given types is left as it is. *)
Lemma decompose_absent (names : list string) (n : node) :
  find_all names [n] = [] -> decompose names n = [n].
Proof.
  induction n as [nm a cs IH|s|s] using node_induction; try reflexivity.
  unfold find_all, descendants_of. simpl. rewrite app_nil_r.
  unfold name_in at 1. simpl.
  destruct (existsb (String.eqb nm) names); [discriminate|]. intros H.
  apply filter_flat_map_nil_inv in H.
  f_equal. f_equal. apply flat_map_id_on.
  rewrite Forall_forall in IH, H. apply Forall_forall. intros c Hc.
  apply IH; [exact Hc|].
  unfold find_all, descendants_of. simpl. rewrite app_nil_r.
  exact (H c Hc).
Qed.

Lemma find_all_singleton (names : list string) (n : node) :
  find_all names [n] = filter (name_in names) (n :: descendants n).
Proof. unfold find_all, descendants_of. simpl. rewrite app_nil_r. reflexivity. Qed.

(** Removing elements brings no element of another type in. *)
Lemma find_all_decompose_none (names other : list string) (n : node) :
  find_all names [n] = [] -> find_all names (decompose other n) = [].
Proof.
  induction n as [nm a cs IH|s|s] using node_induction; try (intros H; exact H).
  intros H. simpl. destruct (existsb (String.eqb nm) other); [reflexivity|].
  rewrite find_all_singleton in *. simpl in *.
  destruct (name_in names (Tag nm a cs)) eqn:E; [discriminate H|].
  change (name_in names (Tag nm a (flat_map (decompose other) cs)))
    with (name_in names (Tag nm a cs)). rewrite E.
  apply filter_flat_map_nil_inv in H.
  fold (descendants_of (flat_map (decompose other) cs)).
  rewrite descendants_of_flat_map. apply filter_flat_map_nil.
  rewrite Forall_forall in IH, H. apply Forall_forall. intros c Hc.
  apply (IH c Hc). rewrite find_all_singleton. exact (H c Hc).
Qed.

Lemma decompose_absent_all (names : list string) (page : soup) :
  find_all names page = [] -> flat_map (decompose names) page = page.
Proof.
  intros H. apply flat_map_id_on. unfold find_all, descendants_of in H.
  apply filter_flat_map_nil_inv in H.
  rewrite Forall_forall in H. apply Forall_forall. intros n Hn.
  apply decompose_absent. rewrite find_all_singleton. exact (H n Hn).
Qed.

(** X16: on a page without [noscript], [header], [footer] and [nav]
    elements the two cleaners agree: [clean_dom_content] of parse.py
    returns what [clean_html_content] of main.py returns. *)
Theorem cleaners_agree (P : string -> outcome soup) html page :
  html <> "" ->
  startswith html error_marker = false ->
  P html = Returns page ->
  find_all ["noscript"; "header"; "footer"; "nav"] page = [] ->
  Clean.clean_dom_content P html = Clean.clean_html_content P html.
Proof.
  intros Hne Hm HP Hnone.
  unfold Clean.clean_dom_content, Clean.clean_html_content.
  destruct html as [|c h]; [contradiction|]. cbn [truthy negb orb].
  rewrite Hm, HP. f_equal. f_equal.
  unfold Clean.decompose_each, Clean.unwanted_tags.
  change (fold_left (fun s tag_type => flat_map (decompose [tag_type]) s)
            ["script"; "style"; "noscript"; "header"; "footer"; "nav"] page)
    with (fold_left (fun s tag_type => flat_map (decompose [tag_type]) s)
            ["noscript"; "header"; "footer"; "nav"]
            (Clean.decompose_each ["script"; "style"] page)).
  rewrite decompose_each_is_decompose.
  fold (Clean.decompose_each ["noscript"; "header"; "footer"; "nav"]
          (flat_map (decompose ["script"; "style"]) page)).
  rewrite decompose_each_is_decompose.
  apply decompose_absent_all.
  unfold find_all. rewrite descendants_of_flat_map. apply filter_flat_map_nil.
  unfold find_all, descendants_of in Hnone. apply filter_flat_map_nil_inv in Hnone.
  rewrite Forall_forall in Hnone. apply Forall_forall. intros n Hn.
  apply (find_all_decompose_none _ ["script"; "style"] n).
  rewrite find_all_singleton. exact (Hnone n Hn).
Qed.

Lemma cleaners_agree_witness :
  Clean.clean_dom_content HtmlParser.BeautifulSoup
    "<p>Shop  now</p><script>track()</script><style>p{}</style>"
  = Clean.clean_html_content HtmlParser.BeautifulSoup
      "<p>Shop  now</p><script>track()</script><style>p{}</style>".
Proof.
  apply (cleaners_agree HtmlParser.BeautifulSoup
           "<p>Shop  now</p><script>track()</script><style>p{}</style>"
           [Tag "p" [] [NavigableString "Shop  now"];
            Tag "script" [] [NavigableString "track()"];
            Tag "style" [] [NavigableString "p{}"]]).
  - discriminate.
  - reflexivity.
  - reflexivity.
  - reflexivity.
Defined.

(** ** Tidy text *)

Lemma all_chars_app p (a b : string) :
  Reference.all_chars p (a +s+ b) = Reference.all_chars p a && Reference.all_chars p b.
Proof.
  induction a as [|c a IH]; simpl; [reflexivity|]. rewrite IH, andb_assoc. reflexivity.
Qed.

Lemma all_chars_lstrip p s : Reference.all_chars p s = true -> Reference.all_chars p (lstrip s) = true.
Proof.
  induction s as [|c r IH]; simpl; [trivial|]. intros H.
  destruct (isspace c); [|exact H].
  apply andb_true_iff in H. apply IH, H.
Qed.

Lemma all_chars_rstrip p s : Reference.all_chars p s = true -> Reference.all_chars p (rstrip s) = true.
Proof.
  induction s as [|c r IH]; simpl; [trivial|]. intros H.
  apply andb_true_iff in H. destruct H as [Hc Hr]. specialize (IH Hr).
  destruct (rstrip r) as [|d r'].
  - destruct (isspace c); [reflexivity|]. simpl. rewrite Hc. reflexivity.
  - cbn [Reference.all_chars]. rewrite Hc. exact IH.
Qed.

Lemma all_chars_strip p s : Reference.all_chars p s = true -> Reference.all_chars p (strip s) = true.
Proof. intros H. apply all_chars_rstrip, all_chars_lstrip, H. Qed.

Lemma all_chars_split p sep text skip :
  Reference.all_chars p text = true ->
  Forall (fun piece => Reference.all_chars p piece = true) (TextSplitter.split_str sep text skip).
Proof.
  revert skip. induction text as [|c r IH]; intros skip H.
  - repeat constructor.
  - cbn [Reference.all_chars] in H. apply andb_true_iff in H. destruct H as [Hc Hr].
    cbn [TextSplitter.split_str].
    destruct skip as [|k]; [|apply IH, Hr].
    destruct (String.prefix sep (String c r)).
    + constructor; [reflexivity | apply IH, Hr].
    + specialize (IH 0 Hr). destruct (TextSplitter.split_str sep r 0) as [|h t].
      * constructor; [simpl; rewrite Hc; reflexivity | constructor].
      * inversion IH as [|? ? Hh Ht]; subst. constructor; [|exact Ht].
        simpl. rewrite Hc. exact Hh.
Qed.

Lemma all_chars_join p sep parts :
  Reference.all_chars p sep = true -> Forall (fun x => Reference.all_chars p x = true) parts ->
  Reference.all_chars p (join sep parts) = true.
Proof.
  intros Hs. induction 1 as [|x r Hx Hr IH]; [reflexivity|].
  destruct r as [|y r']; [exact Hx|].
  change (join sep (x :: y :: r')) with (x +s+ sep +s+ join sep (y :: r')).
  rewrite !all_chars_app, Hx, Hs, IH. reflexivity.
Qed.

(** The lines of a text hold no line boundary. *)
Lemma lines_no_linebreak after_cr s :
  Forall (fun line => Reference.no_linebreak line = true) (Clean.lines_from after_cr s).
Proof.
  revert after_cr. induction s as [|c r IH]; intros after_cr; simpl; [constructor|].
  destruct (after_cr && Nat.eqb (code c) 10); [apply IH|].
  destruct (Clean.linebreak c) eqn:E.
  - constructor; [reflexivity | apply IH].
  - specialize (IH false). destruct (Clean.lines_from false r) as [|l ls].
    + constructor; [|constructor]. unfold Reference.no_linebreak. simpl. rewrite E. reflexivity.
    + inversion IH as [|? ? Hl Hls]; subst. constructor; [|exact Hls].
      unfold Reference.no_linebreak in *. simpl. rewrite E. exact Hl.
Qed.

Lemma no_double_space_tail c r :
  Reference.no_double_space (String c r) = true -> Reference.no_double_space r = true.
Proof. simpl. intros H. apply andb_true_iff in H. apply H. Qed.

Lemma no_double_space_lstrip s :
  Reference.no_double_space s = true -> Reference.no_double_space (lstrip s) = true.
Proof.
  induction s as [|c r IH]; simpl lstrip; [trivial|]. intros H.
  destruct (isspace c); [|exact H]. apply IH, (no_double_space_tail c r H).
Qed.

Lemma rstrip_head s : Reference.head_is_space (rstrip s) = true -> Reference.head_is_space s = true.
Proof.
  destruct s as [|c r]; simpl; [trivial|].
  destruct (rstrip r); [destruct (isspace c)|]; simpl; trivial. discriminate.
Qed.

Lemma no_double_space_rstrip s :
  Reference.no_double_space s = true -> Reference.no_double_space (rstrip s) = true.
Proof.
  induction s as [|c r IH]; [trivial|]. intros H.
  pose proof (IH (no_double_space_tail c r H)) as Hr.
  simpl in H. apply andb_true_iff in H. destruct H as [Hc _].
  simpl rstrip. destruct (rstrip r) as [|d r'] eqn:E.
  - destruct (isspace c); [reflexivity|]. simpl. rewrite andb_false_r. reflexivity.
  - change (Reference.no_double_space (String c (String d r')))
      with (negb (Ascii.eqb c " " && Reference.head_is_space (String d r'))
            && Reference.no_double_space (String d r')).
    rewrite Hr, andb_true_r.
    destruct (Reference.head_is_space (String d r')) eqn:Eh; [|rewrite andb_false_r; reflexivity].
    rewrite <- E in Eh. apply rstrip_head in Eh. rewrite Eh in Hc. exact Hc.
Qed.

Lemma no_double_space_strip s :
  Reference.no_double_space s = true -> Reference.no_double_space (strip s) = true.
Proof. intros H. apply no_double_space_rstrip, no_double_space_lstrip, H. Qed.

Lemma rstrip_ends_clean s : Reference.ends_clean (rstrip s).
Proof.
  induction s as [|c r IH]; simpl; [exact I|].
  destruct (rstrip r) as [|d r'] eqn:E.
  - destruct (isspace c) eqn:Ec; simpl; [exact I | exact Ec].
  - exact IH.
Qed.

Lemma rstrip_clean s : Reference.ends_clean s -> rstrip s = s.
Proof.
  induction s as [|c r IH]; [reflexivity|]. intros H. simpl.
  destruct r as [|d r'].
  - simpl in *. rewrite H. reflexivity.
  - rewrite (IH H). reflexivity.
Qed.

Lemma strip_edges s : Reference.starts_clean (strip s) /\ Reference.ends_clean (strip s).
Proof.
  split; [apply rstrip_starts_clean, lstrip_starts_clean | apply rstrip_ends_clean].
Qed.

Lemma edges_stripped s : Reference.starts_clean s -> Reference.ends_clean s -> Reference.stripped s.
Proof.
  intros Hs He. unfold Reference.stripped, strip. rewrite (lstrip_clean s Hs). apply rstrip_clean, He.
Qed.

Lemma prefix_double_space c r :
  String.prefix "  " (String c r) = Ascii.eqb c " " && Reference.head_is_space r.
Proof.
  cbn [String.prefix]. destruct (ascii_dec " " c) as [<-|N].
  - rewrite Ascii.eqb_refl. cbn [andb].
    destruct r as [|d r']; [reflexivity|]. cbn [String.prefix Reference.head_is_space].
    destruct (ascii_dec " " d) as [<-|N'].
    + rewrite Ascii.eqb_refl. destruct r'; reflexivity.
    + destruct (Ascii.eqb_spec d " ") as [->|_]; [contradiction N'|]; reflexivity.
  - destruct (Ascii.eqb_spec c " ") as [->|_]; [contradiction N|]; reflexivity.
Qed.

Lemma split_head text :
  Reference.head_is_space (hd "" (TextSplitter.split_str "  " text 0)) = true ->
  Reference.head_is_space text = true.
Proof.
  destruct text as [|c r]; [trivial|].
  cbn [TextSplitter.split_str].
  destruct (String.prefix "  " (String c r)); [discriminate|].
  destruct (TextSplitter.split_str "  " r 0); trivial.
Qed.

(** The pieces between double spaces hold no double space. *)
Lemma split_no_double_space text skip :
  Forall (fun piece => Reference.no_double_space piece = true)
         (TextSplitter.split_str "  " text skip).
Proof.
  revert skip. induction text as [|c r IH]; intros skip.
  - repeat constructor.
  - cbn [TextSplitter.split_str]. destruct skip as [|k]; [|apply IH].
    rewrite prefix_double_space.
    destruct (Ascii.eqb c " " && Reference.head_is_space r) eqn:E.
    + constructor; [reflexivity | apply IH].
    + pose proof (split_head r) as Hh. specialize (IH 0).
      destruct (TextSplitter.split_str "  " r 0) as [|h t].
      * constructor; [|constructor]. simpl. rewrite andb_false_r. reflexivity.
      * inversion IH as [|? ? Hh' Ht]; subst. constructor; [|exact Ht].
        change (Reference.no_double_space (String c h))
          with (negb (Ascii.eqb c " " && Reference.head_is_space h) && Reference.no_double_space h).
        rewrite Hh', andb_true_r. cbn [hd] in Hh.
        destruct (Reference.head_is_space h); [|rewrite andb_false_r; reflexivity].
        rewrite (Hh eq_refl) in E. rewrite E. reflexivity.
Qed.

Lemma starts_clean_app a b : a <> "" -> Reference.starts_clean a -> Reference.starts_clean (a +s+ b).
Proof. destruct a as [|c a']; [contradiction | trivial]. Qed.

Lemma ends_clean_app a b : b <> "" -> Reference.ends_clean b -> Reference.ends_clean (a +s+ b).
Proof.
  intros Hb He. induction a as [|c a' IH]; [exact He|].
  change (String c a' +s+ b) with (String c (a' +s+ b)).
  destruct (a' +s+ b) as [|d x] eqn:E; [|exact IH].
  destruct a'; [contradiction | discriminate E].
Qed.

Lemma head_is_space_app a b : a <> "" -> Reference.head_is_space (a +s+ b) = Reference.head_is_space a.
Proof. destruct a as [|c a']; [contradiction | reflexivity]. Qed.

Lemma ends_clean_not_space c : isspace c = false -> Ascii.eqb c " " = false.
Proof.
  intros H. destruct (Ascii.eqb_spec c " ") as [->|_]; [discriminate H | reflexivity].
Qed.

(** Two texts without double space stay so when a single space joins
    them, if the first does not end and the second does not begin with
    one. *)
Lemma no_double_space_joined a b :
  a <> "" -> Reference.ends_clean a -> Reference.no_double_space a = true ->
  Reference.head_is_space b = false -> Reference.no_double_space b = true ->
  Reference.no_double_space (a +s+ " " +s+ b) = true.
Proof.
  intros Ha He Hn Hb Hnb. induction a as [|c a' IH]; [contradiction|].
  change (String c a' +s+ " " +s+ b) with (String c (a' +s+ " " +s+ b)).
  change (Reference.no_double_space (String c (a' +s+ " " +s+ b)))
    with (negb (Ascii.eqb c " " && Reference.head_is_space (a' +s+ " " +s+ b))
          && Reference.no_double_space (a' +s+ " " +s+ b)).
  destruct a' as [|d a''].
  - cbn [Reference.ends_clean] in He. rewrite (ends_clean_not_space c He).
    cbn [String.append Reference.no_double_space Reference.head_is_space andb negb].
    rewrite Ascii.eqb_refl, Hb, Hnb. reflexivity.
  - rewrite IH; [|discriminate|exact He|exact (no_double_space_tail c _ Hn)].
    rewrite andb_true_r, head_is_space_app by discriminate.
    cbn [Reference.no_double_space] in Hn. apply andb_true_iff in Hn. apply Hn.
Qed.

Lemma starts_clean_head s : Reference.starts_clean s -> Reference.head_is_space s = false.
Proof.
  destruct s as [|c r]; [reflexivity|]. simpl. apply ends_clean_not_space.
Qed.

Lemma join_tidy (parts : list string) :
  Forall Reference.tidy parts -> parts <> [] -> Reference.tidy (join " " parts).
Proof.
  induction 1 as [|x r Hx Hr IH]; intros Hne; [contradiction|].
  destruct r as [|y r']; [exact Hx|].
  change (join " " (x :: y :: r')) with (x +s+ " " +s+ join " " (y :: r')).
  destruct Hx as (Hx0 & Hxs & Hxe & Hxd & Hxl).
  destruct IH as (Hj0 & Hjs & Hje & Hjd & Hjl); [discriminate|].
  repeat split.
  - destruct x; [contradiction | discriminate].
  - apply starts_clean_app; assumption.
  - apply ends_clean_app; [discriminate|].
    apply (ends_clean_app " " _ Hj0 Hje).
  - apply no_double_space_joined; try assumption. apply starts_clean_head, Hjs.
  - unfold Reference.no_linebreak in *. rewrite !all_chars_app, Hxl, Hjl. reflexivity.
Qed.

Lemma phrases_tidy (text : string) :
  Forall Reference.tidy (filter truthy (Clean.phrases text)).
Proof.
  apply Forall_forall. intros p Hp. apply filter_In in Hp. destruct Hp as [Hp Hne].
  unfold Clean.phrases in Hp. apply in_flat_map in Hp.
  destruct Hp as (line & Hline & Hp). apply in_map_iff in Hp.
  destruct Hp as (piece & <- & Hpiece).
  pose proof (lines_no_linebreak false text) as HL. rewrite Forall_forall in HL.
  specialize (HL line Hline).
  pose proof (all_chars_split _ "  " (strip line) 0 (all_chars_strip _ line HL)) as HS.
  pose proof (split_no_double_space (strip line) 0) as HD.
  rewrite Forall_forall in HS, HD. unfold Clean.split in Hpiece.
  destruct (strip_edges piece) as [Hs He].
  repeat split.
  - intros E. rewrite E in Hne. discriminate Hne.
  - exact Hs.
  - exact He.
  - apply no_double_space_strip, HD, Hpiece.
  - apply all_chars_strip, HS, Hpiece.
Qed.

(** The cleaned text has no line boundary, no two spaces in a row and
    no whitespace at either end. *)
Lemma clean_text_tidy (text : string) :
  Reference.no_linebreak (Clean.clean_text text) = true
  /\ Reference.no_double_space (Clean.clean_text text) = true
  /\ Reference.stripped (Clean.clean_text text).
Proof.
  unfold Clean.clean_text. pose proof (phrases_tidy text) as H.
  destruct (filter truthy (Clean.phrases text)) as [|x r] eqn:E.
  - repeat split.
  - destruct (join_tidy (x :: r) H) as (_ & Hs & He & Hd & Hl); [discriminate|].
    repeat split; [exact Hl | exact Hd | apply edges_stripped; assumption].
Qed.

(** X17: when the parser accepts the page, what [clean_dom_content]
    returns has no line boundary, no two spaces in a row and no
    whitespace at either end; the same holds for [clean_html_content]
    on a page that is not a failure sentinel. *)
Theorem cleaned_content_is_tidy (P : string -> outcome soup) html page :
  P html = Returns page ->
  (Reference.no_linebreak (Clean.clean_dom_content P html) = true
   /\ Reference.no_double_space (Clean.clean_dom_content P html) = true
   /\ Reference.stripped (Clean.clean_dom_content P html))
  /\ (startswith html error_marker = false ->
      Reference.no_linebreak (Clean.clean_html_content P html) = true
      /\ Reference.no_double_space (Clean.clean_html_content P html) = true
      /\ Reference.stripped (Clean.clean_html_content P html)).
Proof.
  intros HP. unfold Clean.clean_dom_content, Clean.clean_html_content.
  destruct html as [|c h]; [repeat split|]. cbn [truthy negb orb]. rewrite HP.
  split; [apply clean_text_tidy|]. intros ->. apply clean_text_tidy.
Qed.

Lemma cleaned_content_is_tidy_witness :
  Clean.clean_dom_content HtmlParser.BeautifulSoup
    "<p> Shop  now </p><nav>menu</nav><p>open</p>" = "Shop now open"
  /\ Clean.clean_html_content HtmlParser.BeautifulSoup
       "<p> Shop  now </p><nav>menu</nav><p>open</p>" = "Shop now menuopen"
  /\ Reference.no_double_space
       (Clean.clean_dom_content HtmlParser.BeautifulSoup
          "<p> Shop  now </p><nav>menu</nav><p>open</p>") = true
  /\ Reference.stripped
       (Clean.clean_html_content HtmlParser.BeautifulSoup
          "<p> Shop  now </p><nav>menu</nav><p>open</p>").
Proof.
  destruct (cleaned_content_is_tidy HtmlParser.BeautifulSoup
              "<p> Shop  now </p><nav>menu</nav><p>open</p>"
              [Tag "p" [] [NavigableString " Shop  now "];
               Tag "nav" [] [NavigableString "menu"];
               Tag "p" [] [NavigableString "open"]] eq_refl)
    as ((_ & Hd & _) & H2).
  destruct (H2 eq_refl) as (_ & _ & Hs).
  split; [reflexivity|]. split; [reflexivity|]. split; [exact Hd | exact Hs].
Defined.

(** ** The chunks of [create_content_chunks] *)






Lemma len_nonneg s : (0 <= TextSplitter.len s)%Z.
Proof. unfold TextSplitter.len. lia. Qed.

Lemma total_len_nonneg docs : (0 <= Chunks.total_len docs)%Z.
Proof.
  induction docs as [|d r IH]; simpl; [lia|]. pose proof (len_nonneg d). lia.
Qed.

Lemma total_len_app a b : Chunks.total_len (a ++ b) = (Chunks.total_len a + Chunks.total_len b)%Z.
Proof. induction a as [|d r IH]; simpl; [reflexivity|]. rewrite IH. lia. Qed.

Lemma len_append a b : TextSplitter.len (a +s+ b) = (TextSplitter.len a + TextSplitter.len b)%Z.
Proof. unfold TextSplitter.len. rewrite length_append. lia. Qed.

Lemma len_join_empty docs : TextSplitter.len (join "" docs) = Chunks.total_len docs.
Proof.
  induction docs as [|d r IH]; [reflexivity|].
  destruct r as [|e r']; [simpl; lia|].
  change (join "" (d :: e :: r')) with (d +s+ "" +s+ join "" (e :: r')).
  rewrite len_append. change ("" +s+ join "" (e :: r')) with (join "" (e :: r')).
  rewrite IH. reflexivity.
Qed.

Lemma length_lstrip s : String.length (lstrip s) <= String.length s.
Proof.
  induction s as [|c r IH]; simpl; [lia|]. destruct (isspace c); simpl; lia.
Qed.

Lemma length_rstrip s : String.length (rstrip s) <= String.length s.
Proof.
  induction s as [|c r IH]; simpl; [lia|].
  destruct (rstrip r); [destruct (isspace c)|]; simpl in *; lia.
Qed.

Lemma len_strip s : (TextSplitter.len (strip s) <= TextSplitter.len s)%Z.
Proof.
  unfold TextSplitter.len, strip.
  pose proof (length_rstrip (lstrip s)). pose proof (length_lstrip s). lia.
Qed.

Section Fits.

Variables chunk_size chunk_overlap : Z.
Hypothesis size_positive : (0 < chunk_size)%Z.
Hypothesis overlap_in_range : (0 <= chunk_overlap <= chunk_size)%Z.

Lemma join_docs_fits docs :
  (Chunks.total_len docs <= chunk_size)%Z ->
  Forall (Chunks.fits chunk_size) (TextSplitter.opt_list (TextSplitter.join_docs docs "")).
Proof.
  intros H. unfold TextSplitter.join_docs.
  destruct (strip (join "" docs)) as [|c r] eqn:E; [constructor|].
  cbn [truthy TextSplitter.opt_list]. constructor; [|constructor].
  split; [discriminate|]. split.
  - rewrite <- E. pose proof (len_strip (join "" docs)).
    rewrite len_join_empty in *. lia.
  - intros _. unfold Reference.stripped. rewrite <- E. apply strip_idempotent.
Qed.

Lemma pop_front_returns _len current_doc :
  exists rest,
    TextSplitter.pop_front chunk_size chunk_overlap 0 _len current_doc (Chunks.total_len current_doc)
    = Returns (rest, Chunks.total_len rest)
    /\ (Chunks.total_len rest <= Chunks.total_len current_doc)%Z
    /\ ((Chunks.total_len rest + _len <= chunk_size)%Z \/ Chunks.total_len rest = 0%Z).
Proof.
  induction current_doc as [|d0 rest IH].
  - exists []. cbn [TextSplitter.pop_front Chunks.total_len fold_right TextSplitter.nonempty].
    destruct (Z.ltb_spec chunk_overlap 0); [lia|].
    rewrite andb_false_r. cbn [orb]. split; [reflexivity|]. split; [lia | right; reflexivity].
  - cbn [TextSplitter.pop_front].
    destruct ((chunk_overlap <? Chunks.total_len (d0 :: rest))%Z
              || (chunk_size <? Chunks.total_len (d0 :: rest) + _len
                                + (if TextSplitter.nonempty (d0 :: rest) then 0 else 0))%Z
                 && (0 <? Chunks.total_len (d0 :: rest))%Z) eqn:Ego.
    + destruct IH as (rest' & HR & Hle & Hfit).
      exists rest'.
      replace (Chunks.total_len (d0 :: rest)
               - (TextSplitter.len d0 + (if TextSplitter.nonempty rest then 0 else 0)))%Z
        with (Chunks.total_len rest)
        by (cbn [Chunks.total_len]; destruct (TextSplitter.nonempty rest); lia).
      split; [exact HR|]. split; [|exact Hfit].
      cbn [Chunks.total_len]. pose proof (len_nonneg d0). lia.
    + exists (d0 :: rest). split; [reflexivity|]. split; [lia|].
      apply orb_false_iff in Ego. destruct Ego as [_ Ego].
      cbn [TextSplitter.nonempty] in Ego. apply andb_false_iff in Ego.
      pose proof (total_len_nonneg (d0 :: rest)).
      destruct Ego as [Ego | Ego].
      * apply Z.ltb_ge in Ego. left. lia.
      * apply Z.ltb_ge in Ego. right. lia.
Qed.

Lemma merge_loop_fits splits :
  Forall (fun d => (TextSplitter.len d <= chunk_size)%Z) splits ->
  forall docs current_doc,
    Forall (Chunks.fits chunk_size) docs ->
    (Chunks.total_len current_doc <= chunk_size)%Z ->
    exists out,
      TextSplitter.merge_loop chunk_size chunk_overlap "" splits docs current_doc
        (Chunks.total_len current_doc) = Returns out
      /\ Forall (Chunks.fits chunk_size) out.
Proof.
  induction 1 as [|d r Hd Hr IH]; intros docs current_doc Hdocs Htot.
  - cbn [TextSplitter.merge_loop]. eexists. split; [reflexivity|].
    apply Forall_app. split; [exact Hdocs | apply join_docs_fits, Htot].
  - cbn [TextSplitter.merge_loop]. change (TextSplitter.len "") with 0%Z.
    destruct ((chunk_size <? Chunks.total_len current_doc + TextSplitter.len d
                             + (if TextSplitter.nonempty current_doc then 0 else 0))%Z
              && TextSplitter.nonempty current_doc) eqn:Efull.
    + destruct (pop_front_returns (TextSplitter.len d) current_doc)
        as (rest & HR & Hle & Hfit).
      rewrite HR. cbn [Py.bind].
      replace (Chunks.total_len rest + TextSplitter.len d
               + (if TextSplitter.nonempty rest then 0 else 0))%Z
        with (Chunks.total_len (rest ++ [d]))
        by (rewrite total_len_app; cbn [Chunks.total_len];
            destruct (TextSplitter.nonempty rest); lia).
      apply IH.
      * apply Forall_app. split; [exact Hdocs | apply join_docs_fits, Htot].
      * rewrite total_len_app. cbn [Chunks.total_len]. lia.
    + cbn [Py.bind].
      replace (Chunks.total_len current_doc + TextSplitter.len d
               + (if TextSplitter.nonempty current_doc then 0 else 0))%Z
        with (Chunks.total_len (current_doc ++ [d]))
        by (rewrite total_len_app; cbn [Chunks.total_len];
            destruct (TextSplitter.nonempty current_doc); lia).
      apply IH; [exact Hdocs|].
      rewrite total_len_app. cbn [Chunks.total_len].
      apply andb_false_iff in Efull. destruct Efull as [E | E].
      * apply Z.ltb_ge in E. destruct (TextSplitter.nonempty current_doc); lia.
      * destruct current_doc; [cbn [Chunks.total_len]; lia | discriminate].
Qed.

Lemma flush_good_fits good_splits :
  Forall (fun d => (TextSplitter.len d <= chunk_size)%Z) good_splits ->
  exists out,
    TextSplitter.flush_good chunk_size chunk_overlap good_splits = Returns out
    /\ Forall (Chunks.fits chunk_size) out.
Proof.
  intros H. unfold TextSplitter.flush_good.
  destruct (TextSplitter.nonempty good_splits).
  - unfold TextSplitter.merge_splits.
    apply (merge_loop_fits good_splits H [] []); [constructor | cbn; lia].
  - eexists. split; [reflexivity | constructor].
Qed.


Lemma split_loop_fits deeper splits :
  Forall (fun s => (chunk_size <= TextSplitter.len s)%Z -> Chunks.long_piece_fits chunk_size deeper s) splits ->
  forall good_splits,
    Forall (fun d => (TextSplitter.len d <= chunk_size)%Z) good_splits ->
    exists out,
      TextSplitter.split_loop chunk_size chunk_overlap deeper splits good_splits = Returns out
      /\ Forall (Chunks.fits chunk_size) out.
Proof.
  induction 1 as [|s r Hs Hr IH]; intros good_splits Hgood.
  - cbn [TextSplitter.split_loop]. apply flush_good_fits, Hgood.
  - cbn [TextSplitter.split_loop]. destruct (Z.ltb_spec (TextSplitter.len s) chunk_size) as [Hlt | Hge].
    + apply IH. apply Forall_app. split; [exact Hgood|]. constructor; [lia | constructor].
    + destruct (flush_good_fits good_splits Hgood) as (merged & -> & Hmerged).
      cbn [Py.bind]. specialize (Hs Hge).
      destruct (IH [] (Forall_nil _)) as (rest & Hrest & Hrest_fits).
      destruct deeper as [split|]; cbn [Chunks.long_piece_fits] in Hs.
      * destruct Hs as (other & -> & Hother). cbn [Py.bind]. rewrite Hrest. cbn [Py.bind].
        eexists. split; [reflexivity|]. repeat (apply Forall_app; split); assumption.
      * cbn [Py.bind]. rewrite Hrest. cbn [Py.bind].
        eexists. split; [reflexivity|].
        apply Forall_app; split; [assumption|]. constructor; assumption.
Qed.

Lemma chars_single text :
  Forall (fun s => String.length s = 1) (TextSplitter.chars text).
Proof. induction text as [|c r IH]; simpl; constructor; [reflexivity | exact IH]. Qed.

Lemma filter_Forall {A} (p : A -> bool) (Q : A -> Prop) l :
  Forall Q l -> Forall Q (filter p l).
Proof.
  induction 1 as [|x r Hx Hr IH]; simpl; [constructor|].
  destruct (p x); [constructor|]; assumption.
Qed.

Lemma split_text_rec_fits separators :
  In "" separators ->
  forall text,
    exists out,
      TextSplitter._split_text chunk_size chunk_overlap separators text = Returns out
      /\ Forall (Chunks.fits chunk_size) out.
Proof.
  induction separators as [|s new_separators IH]; intros Hin text; [contradiction|].
  cbn [TextSplitter._split_text].
  destruct s as [|c s'].
  - cbn [truthy negb]. apply split_loop_fits; [|constructor].
    unfold TextSplitter.split_text_with_regex. cbn [truthy].
    apply filter_Forall. eapply Forall_impl; [|apply chars_single].
    intros piece Hone Hge. cbn [Chunks.long_piece_fits]. unfold Chunks.fits, TextSplitter.len in *.
    rewrite Hone in *. split; [destruct piece; [discriminate Hone | discriminate]|].
    split; lia.
  - cbn [truthy negb].
    assert (Hin' : In "" new_separators) by (destruct Hin as [H | H]; [discriminate | exact H]).
    destruct (TextSplitter.contains (String c s') text).
    + destruct new_separators as [|s1 more]; [contradiction|]. cbn [TextSplitter.nonempty].
      apply split_loop_fits; [|constructor].
      apply Forall_forall. intros piece _ _. cbn [Chunks.long_piece_fits]. apply IH, Hin'.
    + destruct new_separators as [|s1 more]; [contradiction|]. apply IH, Hin'.
Qed.

End Fits.


Lemma split_text_fits chunk_size chunk_overlap text :
  (0 < chunk_size)%Z -> (0 <= chunk_overlap <= chunk_size)%Z ->
  exists chunks,
    TextSplitter.split_text chunk_size chunk_overlap separators text = Returns chunks
    /\ Forall (Chunks.fits chunk_size) chunks.
Proof.
  intros Hs Ho. unfold TextSplitter.split_text.
  destruct (Z.leb_spec chunk_size 0); [lia|].
  destruct (Z.ltb_spec chunk_overlap 0); [lia|].
  destruct (Z.ltb_spec chunk_size chunk_overlap); [lia|].
  apply split_text_rec_fits; [assumption | assumption |].
  unfold separators. simpl. tauto.
Qed.

Lemma create_content_chunks_text (P : string -> outcome soup) c chunk_size chunk_overlap raw :
  Chunks.raw_text P c = Returns raw ->
  create_content_chunks P c chunk_size chunk_overlap
  = TextSplitter.split_text chunk_size chunk_overlap separators (strip (Re.sub_spaces raw)).
Proof.
  unfold create_content_chunks, Chunks.raw_text. intros H.
  destruct c as [s | b | o].
  - destruct (P s); [|discriminate H]. cbn [Py.bind] in *. injection H as <-. reflexivity.
  - destruct (b_dom_data b); [|discriminate H]. injection H as <-. reflexivity.
  - injection H as <-. reflexivity.
Qed.

(** X18: for a chunk size of 1 or more and an overlap between 0 and
    the chunk size, [create_content_chunks] returns whenever the text
    of the content can be read, and every chunk it returns is not
    empty and has at most [chunk_size] characters; from a chunk size
    of 2 on, no chunk has whitespace at either end. *)
Theorem chunks_fit_chunk_size (P : string -> outcome soup) (c : content)
        (chunk_size chunk_overlap : Z) raw :
  (0 < chunk_size)%Z -> (0 <= chunk_overlap <= chunk_size)%Z ->
  Chunks.raw_text P c = Returns raw ->
  exists chunks,
    create_content_chunks P c chunk_size chunk_overlap = Returns chunks
    /\ Forall (Chunks.fits chunk_size) chunks.
Proof.
  intros Hs Ho Hc. rewrite (create_content_chunks_text P c _ _ raw Hc).
  apply split_text_fits; assumption.
Qed.

(** *** A short text is one chunk *)

Lemma append_empty_r s : s +s+ "" = s.
Proof. induction s as [|c s IH]; simpl; [reflexivity | rewrite IH; reflexivity]. Qed.

Lemma join_empty_cat pieces : join "" pieces = Chunks.cat pieces.
Proof.
  induction pieces as [|p r IH]; [reflexivity|].
  destruct r as [|q r']; [cbn [join Chunks.cat]; rewrite append_empty_r; reflexivity|].
  change (join "" (p :: q :: r')) with (p +s+ "" +s+ join "" (q :: r')).
  rewrite IH. reflexivity.
Qed.

Lemma cat_filter pieces : Chunks.cat (filter truthy pieces) = Chunks.cat pieces.
Proof.
  induction pieces as [|p r IH]; [reflexivity|]. simpl.
  destruct p; simpl; rewrite IH; reflexivity.
Qed.

Lemma cat_app a b : Chunks.cat (a ++ b) = Chunks.cat a +s+ Chunks.cat b.
Proof.
  induction a as [|p r IH]; simpl; [reflexivity|]. rewrite IH, append_assoc. reflexivity.
Qed.

Lemma len_cat pieces : TextSplitter.len (Chunks.cat pieces) = Chunks.total_len pieces.
Proof.
  induction pieces as [|p r IH]; simpl; [reflexivity|]. rewrite len_append, IH. reflexivity.
Qed.

Lemma split_str_not_nil sep text skip : TextSplitter.split_str sep text skip <> [].
Proof.
  revert skip. induction text as [|c r IH]; intros skip; cbn [TextSplitter.split_str];
    [discriminate|].
  destruct skip; [|apply IH].
  destruct (String.prefix sep (String c r)); [discriminate|].
  destruct (TextSplitter.split_str sep r 0); discriminate.
Qed.

Lemma split_str_skip sep a t :
  TextSplitter.split_str sep (a +s+ t) (String.length a) = TextSplitter.split_str sep t 0.
Proof. induction a as [|c a IH]; [reflexivity | exact IH]. Qed.

Lemma join_cons sep p q r : join sep (p :: q :: r) = p +s+ sep +s+ join sep (q :: r).
Proof. reflexivity. Qed.

(** Joining what [split] gives with the separator gives the text back. *)
Lemma join_split_str sep text :
  sep <> "" -> join sep (TextSplitter.split_str sep text 0) = text.
Proof.
  intros Hsep. remember (String.length text) as n eqn:Hn.
  revert text Hn. induction n as [n IH] using lt_wf_ind. intros text Hn.
  destruct text as [|c r]; [reflexivity|].
  cbn [TextSplitter.split_str].
  destruct (String.prefix sep (String c r)) eqn:Ep.
  - destruct (prefix_app _ _ Ep) as [t Ht].
    destruct sep as [|c' sep']; [contradiction|].
    cbn [append] in Ht. injection Ht as <- ->.
    cbn [String.length pred]. rewrite split_str_skip.
    pose proof (split_str_not_nil (String c sep') t 0) as Hnn.
    destruct (TextSplitter.split_str (String c sep') t 0) as [|q qs] eqn:Eq; [contradiction|].
    rewrite join_cons. rewrite <- Eq.
    rewrite (IH (String.length t)) with (text := t); [reflexivity| |reflexivity].
    subst n. cbn [String.length]. rewrite length_append. lia.
  - pose proof (split_str_not_nil sep r 0) as Hnn.
    assert (Hr : join sep (TextSplitter.split_str sep r 0) = r).
    { apply (IH (String.length r)); [subst n; simpl; lia | reflexivity]. }
    destruct (TextSplitter.split_str sep r 0) as [|p ps]; [contradiction|].
    destruct ps as [|q ps']; [simpl in *; congruence|].
    rewrite join_cons in *. cbn [append]. rewrite Hr. reflexivity.
Qed.

Lemma cat_kept sep pieces :
  Chunks.cat (map (fun piece => sep +s+ piece) pieces)
  = match pieces with [] => "" | _ :: _ => sep +s+ join sep pieces end.
Proof.
  induction pieces as [|p r IH]; [reflexivity|].
  cbn [map Chunks.cat]. rewrite IH. destruct r as [|q r'].
  - cbn [join Chunks.cat]. rewrite !append_empty_r. reflexivity.
  - rewrite join_cons, append_assoc. reflexivity.
Qed.

(** The pieces of [_split_text_with_regex] make up the text. *)
Lemma cat_split_text_with_regex text separator :
  Chunks.cat (TextSplitter.split_text_with_regex text separator) = text.
Proof.
  unfold TextSplitter.split_text_with_regex. rewrite cat_filter.
  destruct separator as [|c s]; cbn [truthy].
  - induction text as [|x r IH]; simpl; [reflexivity | rewrite IH; reflexivity].
  - pose proof (join_split_str (String c s) text) as HJ.
    destruct (TextSplitter.split_str (String c s) text 0) as [|first pieces];
      [apply HJ; discriminate|].
    cbn [Chunks.cat]. rewrite cat_kept. rewrite <- HJ by discriminate.
    destruct pieces as [|q r]; [cbn [join]; apply append_empty_r|].
    rewrite join_cons. reflexivity.
Qed.

Lemma split_text_with_regex_truthy text separator :
  Forall (fun piece => truthy piece = true) (TextSplitter.split_text_with_regex text separator).
Proof.
  unfold TextSplitter.split_text_with_regex. apply Forall_forall.
  intros x Hx. apply filter_In in Hx. apply Hx.
Qed.

Lemma truthy_len s : truthy s = true -> (1 <= TextSplitter.len s)%Z.
Proof. destruct s; [discriminate|]. unfold TextSplitter.len. simpl. lia. Qed.

Lemma total_len_zero pieces :
  Forall (fun piece => truthy piece = true) pieces -> (Chunks.total_len pieces <= 0)%Z -> pieces = [].
Proof.
  intros H Hz. destruct H as [|p r Hp Hr]; [reflexivity|].
  cbn [Chunks.total_len] in Hz. apply truthy_len in Hp. pose proof (total_len_nonneg r). lia.
Qed.

Section Short.

Variables chunk_size chunk_overlap : Z.
Hypothesis size_positive : (0 < chunk_size)%Z.
Hypothesis overlap_in_range : (0 <= chunk_overlap <= chunk_size)%Z.

Lemma merge_loop_all splits : forall docs current_doc,
  (Chunks.total_len (current_doc ++ splits) <= chunk_size)%Z ->
  TextSplitter.merge_loop chunk_size chunk_overlap "" splits docs current_doc
    (Chunks.total_len current_doc)
  = Returns (docs ++ TextSplitter.opt_list (TextSplitter.join_docs (current_doc ++ splits) "")).
Proof.
  induction splits as [|d r IH]; intros docs current_doc Htot.
  - rewrite app_nil_r. reflexivity.
  - cbn [TextSplitter.merge_loop]. change (TextSplitter.len "") with 0%Z.
    rewrite total_len_app in Htot. cbn [Chunks.total_len] in Htot.
    pose proof (total_len_nonneg r).
    destruct (Z.ltb_spec chunk_size
                (Chunks.total_len current_doc + TextSplitter.len d
                 + (if TextSplitter.nonempty current_doc then 0 else 0)));
      [destruct (TextSplitter.nonempty current_doc); lia|].
    cbn [andb Py.bind].
    replace (Chunks.total_len current_doc + TextSplitter.len d
             + (if TextSplitter.nonempty current_doc then 0 else 0))%Z
      with (Chunks.total_len (current_doc ++ [d]))
      by (rewrite total_len_app; cbn [Chunks.total_len];
          destruct (TextSplitter.nonempty current_doc); lia).
    rewrite IH; [rewrite <- app_assoc; reflexivity|].
    rewrite !total_len_app. cbn [Chunks.total_len]. lia.
Qed.

Lemma split_loop_short deeper splits : forall good_splits,
  Forall (fun piece => truthy piece = true) (good_splits ++ splits) ->
  (Chunks.total_len (good_splits ++ splits) <= chunk_size)%Z ->
  good_splits ++ splits <> [] ->
  strip (Chunks.cat (good_splits ++ splits)) = Chunks.cat (good_splits ++ splits) ->
  match deeper with
  | Some split => split (Chunks.cat (good_splits ++ splits))
                  = Returns [Chunks.cat (good_splits ++ splits)]
  | None => True
  end ->
  TextSplitter.split_loop chunk_size chunk_overlap deeper splits good_splits
  = Returns [Chunks.cat (good_splits ++ splits)].
Proof.
  induction splits as [|s r IH]; intros good_splits Htruthy Htot Hne Hstrip Hdeeper.
  - rewrite app_nil_r in *. cbn [TextSplitter.split_loop].
    unfold TextSplitter.flush_good.
    destruct good_splits as [|g gs]; [contradiction|]. cbn [TextSplitter.nonempty].
    unfold TextSplitter.merge_splits. change 0%Z with (Chunks.total_len []).
    rewrite (merge_loop_all (g :: gs) [] []) by exact Htot.
    cbn [app]. unfold TextSplitter.join_docs. rewrite join_empty_cat, Hstrip.
    destruct (Chunks.cat (g :: gs)) eqn:E; [|reflexivity].
    exfalso. apply Forall_inv in Htruthy. destruct g; [discriminate | discriminate E].
  - cbn [TextSplitter.split_loop].
    destruct (Z.ltb_spec (TextSplitter.len s) chunk_size) as [Hlt | Hge].
    + replace (good_splits ++ s :: r) with ((good_splits ++ [s]) ++ r) in *
        by (rewrite <- app_assoc; reflexivity).
      apply IH; assumption.
    + assert (Hg : good_splits = []).
      { apply total_len_zero.
        - apply Forall_app in Htruthy. apply Htruthy.
        - rewrite total_len_app in Htot. cbn [Chunks.total_len] in Htot.
          pose proof (total_len_nonneg r). lia. }
      assert (Hr : r = []).
      { apply total_len_zero.
        - apply Forall_app in Htruthy. destruct Htruthy as [_ H]. inversion H; assumption.
        - rewrite total_len_app in Htot. cbn [Chunks.total_len] in Htot.
          pose proof (total_len_nonneg good_splits). lia. }
      subst good_splits r. cbn [app Chunks.cat] in *. rewrite append_empty_r in *.
      cbn [TextSplitter.flush_good TextSplitter.nonempty TextSplitter.split_loop Py.bind].
      destruct deeper as [split|].
      * rewrite Hdeeper. reflexivity.
      * reflexivity.
Qed.

Lemma split_text_rec_short separators :
  In "" separators ->
  forall text,
    text <> "" -> strip text = text -> (TextSplitter.len text <= chunk_size)%Z ->
    TextSplitter._split_text chunk_size chunk_overlap separators text = Returns [text].
Proof.
  induction separators as [|s new_separators IH]; intros Hin text Hne Hstrip Hlen;
    [contradiction|].
  assert (Hloop : forall deeper,
             match deeper with
             | Some split => split text = Returns [text]
             | None => True
             end ->
             TextSplitter.split_loop chunk_size chunk_overlap deeper
               (TextSplitter.split_text_with_regex text s) [] = Returns [text]).
  { intros deeper Hdeeper.
    pose proof (cat_split_text_with_regex text s) as Hcat.
    rewrite <- Hcat at 2.
    apply (split_loop_short deeper (TextSplitter.split_text_with_regex text s) []);
      cbn [app]; rewrite ?Hcat.
    - apply split_text_with_regex_truthy.
    - rewrite <- len_cat, Hcat. exact Hlen.
    - intros E. rewrite E in Hcat. apply Hne. symmetry. exact Hcat.
    - exact Hstrip.
    - exact Hdeeper. }
  cbn [TextSplitter._split_text].
  destruct s as [|c s'].
  - cbn [truthy negb]. apply Hloop. exact I.
  - cbn [truthy negb].
    assert (Hin' : In "" new_separators) by (destruct Hin as [H | H]; [discriminate | exact H]).
    destruct new_separators as [|s1 more]; [contradiction|]. cbn [TextSplitter.nonempty].
    destruct (TextSplitter.contains (String c s') text).
    + apply Hloop. apply IH; assumption.
    + apply IH; assumption.
Qed.

End Short.

(** X19: a content whose normalised text is not empty and no longer
    than [chunk_size] gives a single chunk: that text. *)
Theorem short_text_is_one_chunk (P : string -> outcome soup) (c : content)
        (chunk_size chunk_overlap : Z) raw :
  (0 < chunk_size)%Z -> (0 <= chunk_overlap <= chunk_size)%Z ->
  Chunks.raw_text P c = Returns raw ->
  strip (Re.sub_spaces raw) <> "" ->
  (TextSplitter.len (strip (Re.sub_spaces raw)) <= chunk_size)%Z ->
  create_content_chunks P c chunk_size chunk_overlap
  = Returns [strip (Re.sub_spaces raw)].
Proof.
  intros Hs Ho Hc Hne Hlen. rewrite (create_content_chunks_text P c _ _ raw Hc).
  unfold TextSplitter.split_text.
  destruct (Z.leb_spec chunk_size 0); [lia|].
  destruct (Z.ltb_spec chunk_overlap 0); [lia|].
  destruct (Z.ltb_spec chunk_size chunk_overlap); [lia|].
  apply split_text_rec_short; try assumption.
  - unfold separators. simpl. tauto.
  - apply strip_idempotent.
Qed.

(** *** Chunks are pieces of the text *)


Lemma occurs_in_refl s : Chunks.occurs_in s s.
Proof. exists "", "". cbn [append]. rewrite append_empty_r. reflexivity. Qed.

Lemma occurs_in_trans a b c : Chunks.occurs_in a b -> Chunks.occurs_in b c -> Chunks.occurs_in a c.
Proof.
  intros (x & y & ->) (u & v & ->). exists (u +s+ x), (y +s+ v).
  rewrite !append_assoc. reflexivity.
Qed.

Lemma occurs_in_left a b : Chunks.occurs_in a (a +s+ b).
Proof. exists "", b. reflexivity. Qed.

Lemma occurs_in_right a b : Chunks.occurs_in b (a +s+ b).
Proof. exists a, "". rewrite append_empty_r. reflexivity. Qed.

Lemma lstrip_occurs s : Chunks.occurs_in (lstrip s) s.
Proof.
  induction s as [|c r IH]; [apply occurs_in_refl|]. cbn [lstrip].
  destruct (isspace c); [|apply occurs_in_refl].
  eapply occurs_in_trans; [exact IH|]. apply (occurs_in_right (String c "") r).
Qed.

Lemma rstrip_prefix s : exists after, s = rstrip s +s+ after.
Proof.
  induction s as [|c r IH]; [exists ""; reflexivity|]. cbn [rstrip].
  destruct IH as [after IH]. destruct (rstrip r) as [|c' r'] eqn:E.
  - destruct (isspace c); [exists (String c r); reflexivity|].
    exists r. reflexivity.
  - exists after. cbn [append] in *. rewrite <- IH. reflexivity.
Qed.

Lemma strip_occurs s : Chunks.occurs_in (strip s) s.
Proof.
  unfold strip. eapply occurs_in_trans; [|apply lstrip_occurs].
  destruct (rstrip_prefix (lstrip s)) as [after H]. rewrite H at 2. apply occurs_in_left.
Qed.

Lemma join_docs_occurs docs text :
  Chunks.occurs_in (Chunks.cat docs) text ->
  Forall (fun chunk => Chunks.occurs_in chunk text)
         (TextSplitter.opt_list (TextSplitter.join_docs docs "")).
Proof.
  intros H. unfold TextSplitter.join_docs. rewrite join_empty_cat.
  destruct (truthy (strip (Chunks.cat docs))); [|constructor].
  constructor; [|constructor]. eapply occurs_in_trans; [apply strip_occurs | exact H].
Qed.

Section Pieces.

Variables chunk_size chunk_overlap : Z.

Lemma pop_front_suffix separator_len _len current_doc : forall total rest total',
  TextSplitter.pop_front chunk_size chunk_overlap separator_len _len current_doc total
  = Returns (rest, total') ->
  exists dropped, current_doc = dropped ++ rest.
Proof.
  induction current_doc as [|d0 r IH]; intros total rest total' H;
    cbn [TextSplitter.pop_front] in H.
  - match type of H with (if ?g then _ else _) = _ => destruct g end; [discriminate H|].
    injection H as <- _. exists []. reflexivity.
  - match type of H with (if ?g then _ else _) = _ => destruct g end.
    + apply IH in H. destruct H as [dropped ->]. exists (d0 :: dropped). reflexivity.
    + injection H as <- _. exists []. reflexivity.
Qed.

Lemma merge_loop_occurs text splits : forall docs current_doc total out,
  Forall (fun chunk => Chunks.occurs_in chunk text) docs ->
  Chunks.occurs_in (Chunks.cat current_doc +s+ Chunks.cat splits) text ->
  TextSplitter.merge_loop chunk_size chunk_overlap "" splits docs current_doc total
  = Returns out ->
  Forall (fun chunk => Chunks.occurs_in chunk text) out.
Proof.
  induction splits as [|d r IH]; intros docs current_doc total out Hdocs Hocc H;
    cbn [TextSplitter.merge_loop] in H.
  - injection H as <-. apply Forall_app. split; [exact Hdocs|].
    apply join_docs_occurs. cbn [Chunks.cat] in Hocc. rewrite append_empty_r in Hocc. exact Hocc.
  - match type of H with
    | context [if ?g then _ else _] => destruct g
    end.
    + destruct (TextSplitter.pop_front chunk_size chunk_overlap (TextSplitter.len "")
                  (TextSplitter.len d) current_doc total) as [[rest total']|e] eqn:Epop;
        [|discriminate H].
      cbn [Py.bind] in H. apply pop_front_suffix in Epop. destruct Epop as [dropped ->].
      apply IH in H; [exact H | |].
      * apply Forall_app. split; [exact Hdocs|]. apply join_docs_occurs.
        eapply occurs_in_trans; [apply occurs_in_left | exact Hocc].
      * eapply occurs_in_trans; [|exact Hocc].
        rewrite !cat_app. cbn [Chunks.cat]. rewrite append_empty_r, !append_assoc.
        apply occurs_in_right.
    + cbn [Py.bind] in H. apply IH in H; [exact H | exact Hdocs |].
      rewrite cat_app. cbn [Chunks.cat]. rewrite append_empty_r, append_assoc. exact Hocc.
Qed.

Lemma flush_good_occurs good_splits out :
  TextSplitter.flush_good chunk_size chunk_overlap good_splits = Returns out ->
  Forall (fun chunk => Chunks.occurs_in chunk (Chunks.cat good_splits)) out.
Proof.
  unfold TextSplitter.flush_good, TextSplitter.merge_splits.
  destruct (TextSplitter.nonempty good_splits); [|intros H; injection H as <-; constructor].
  apply merge_loop_occurs; [constructor | apply occurs_in_refl].
Qed.

Lemma Forall_occurs_in chunks a b :
  Chunks.occurs_in a b ->
  Forall (fun chunk => Chunks.occurs_in chunk a) chunks ->
  Forall (fun chunk => Chunks.occurs_in chunk b) chunks.
Proof.
  intros Hab H. eapply Forall_impl; [|exact H].
  intros chunk Hc. eapply occurs_in_trans; [exact Hc | exact Hab].
Qed.

Lemma split_loop_occurs deeper splits :
  match deeper with
  | Some split => forall s out, split s = Returns out ->
                                Forall (fun chunk => Chunks.occurs_in chunk s) out
  | None => True
  end ->
  forall good_splits out,
    TextSplitter.split_loop chunk_size chunk_overlap deeper splits good_splits = Returns out ->
    Forall (fun chunk => Chunks.occurs_in chunk (Chunks.cat (good_splits ++ splits))) out.
Proof.
  intros Hdeeper. induction splits as [|s r IH]; intros good_splits out H;
    cbn [TextSplitter.split_loop] in H.
  - rewrite app_nil_r. apply flush_good_occurs, H.
  - destruct (TextSplitter.len s <? chunk_size)%Z.
    + apply IH in H. rewrite <- app_assoc in H. exact H.
    + destruct (TextSplitter.flush_good chunk_size chunk_overlap good_splits)
        as [merged|e] eqn:Em; [|discriminate H].
      cbn [Py.bind] in H. apply flush_good_occurs in Em.
      assert (Hother : exists other,
                 match deeper with
                 | Some split => split s
                 | None => Returns [s]
                 end = Returns other
                 /\ Forall (fun chunk => Chunks.occurs_in chunk s) other).
      { destruct deeper as [split|].
        - destruct (split s) as [other|e] eqn:Es; [|discriminate H].
          exists other. split; [reflexivity | apply (Hdeeper s), Es].
        - exists [s]. split; [reflexivity|]. constructor; [apply occurs_in_refl | constructor]. }
      destruct Hother as (other & Eo & Hother). rewrite Eo in H. cbn [Py.bind] in H.
      destruct (TextSplitter.split_loop chunk_size chunk_overlap deeper r [])
        as [rest|e] eqn:Er; [|discriminate H].
      cbn [Py.bind] in H. injection H as <-. apply IH in Er. cbn [app] in Er.
      rewrite cat_app. cbn [Chunks.cat].
      apply Forall_app. split; [|apply Forall_app; split].
      * eapply Forall_occurs_in; [apply occurs_in_left | exact Em].
      * eapply Forall_occurs_in; [|exact Hother].
        eapply occurs_in_trans; [apply occurs_in_left | apply occurs_in_right].
      * eapply Forall_occurs_in; [|exact Er].
        eapply occurs_in_trans; apply occurs_in_right.
Qed.

Lemma split_text_rec_occurs separators : forall text out,
  TextSplitter._split_text chunk_size chunk_overlap separators text = Returns out ->
  Forall (fun chunk => Chunks.occurs_in chunk text) out.
Proof.
  induction separators as [|s new_separators IH]; intros text out H;
    cbn [TextSplitter._split_text] in H; [discriminate H|].
  assert (Hloop : forall deeper,
             match deeper with
             | Some split => forall s out, split s = Returns out ->
                                           Forall (fun chunk => Chunks.occurs_in chunk s) out
             | None => True
             end ->
             TextSplitter.split_loop chunk_size chunk_overlap deeper
               (TextSplitter.split_text_with_regex text s) [] = Returns out ->
             Forall (fun chunk => Chunks.occurs_in chunk text) out).
  { intros deeper Hdeeper Hl. apply (split_loop_occurs deeper _ Hdeeper) in Hl.
    cbn [app] in Hl. rewrite cat_split_text_with_regex in Hl. exact Hl. }
  destruct (negb (truthy s)); [apply (Hloop None I), H|].
  destruct (TextSplitter.contains s text).
  - destruct (TextSplitter.nonempty new_separators);
      [apply (Hloop (Some _) IH), H | apply (Hloop None I), H].
  - destruct new_separators as [|s1 more]; [apply (Hloop None I), H | apply IH, H].
Qed.

End Pieces.

Lemma all_chars_sub_spaces in_run s :
  Reference.only_spaces (Re.sub_spaces_from in_run s) = true.
Proof.
  revert in_run. unfold Reference.only_spaces.
  induction s as [|c r IH]; intros in_run; cbn [Re.sub_spaces_from]; [reflexivity|].
  destruct (isspace c) eqn:E.
  - destruct in_run; [apply IH|]. cbn [Reference.all_chars]. rewrite IH.
    rewrite orb_true_r. reflexivity.
  - cbn [Reference.all_chars]. rewrite E, IH. reflexivity.
Qed.

Lemma no_double_space_sub_spaces s :
  (forall in_run, Reference.no_double_space (Re.sub_spaces_from in_run s) = true)
  /\ Reference.head_is_space (Re.sub_spaces_from true s) = false.
Proof.
  induction s as [|c r [IH1 IH2]]; [split; reflexivity|]. split.
  - intros in_run. cbn [Re.sub_spaces_from]. destruct (isspace c) eqn:E.
    + destruct in_run; [apply IH1|]. cbn [Reference.no_double_space].
      rewrite IH2, IH1. rewrite andb_false_r. reflexivity.
    + cbn [Reference.no_double_space]. rewrite IH1, (ends_clean_not_space c E). reflexivity.
  - cbn [Re.sub_spaces_from]. destruct (isspace c) eqn:E; [exact IH2|].
    cbn [Reference.head_is_space]. apply ends_clean_not_space, E.
Qed.

Lemma no_double_space_app a b :
  Reference.no_double_space (a +s+ b) = true ->
  Reference.no_double_space a = true /\ Reference.no_double_space b = true.
Proof.
  induction a as [|c a IH]; [intros H; split; [reflexivity | exact H]|].
  change (String c a +s+ b) with (String c (a +s+ b)). cbn [Reference.no_double_space].
  intros H. apply andb_true_iff in H. destruct H as [Hc Hr].
  destruct (IH Hr) as [Ha Hb]. split; [|exact Hb]. rewrite Ha, andb_true_r.
  destruct a as [|c' a']; [cbn [Reference.head_is_space]; rewrite andb_false_r; reflexivity|].
  exact Hc.
Qed.

(** X20: every chunk is a contiguous part of the normalised text: the
    chunker drops and repeats text, it adds none.  With the text, the
    chunks have the space as their only whitespace, and never two in
    a row. *)
Theorem chunks_are_pieces_of_the_text (P : string -> outcome soup) (c : content)
        (chunk_size chunk_overlap : Z) raw :
  (0 < chunk_size)%Z -> (0 <= chunk_overlap <= chunk_size)%Z ->
  Chunks.raw_text P c = Returns raw ->
  exists chunks,
    create_content_chunks P c chunk_size chunk_overlap = Returns chunks
    /\ Forall (fun chunk =>
                 Chunks.occurs_in chunk (strip (Re.sub_spaces raw))
                 /\ Reference.only_spaces chunk = true
                 /\ Reference.no_double_space chunk = true) chunks.
Proof.
  intros Hs Ho Hc. rewrite (create_content_chunks_text P c _ _ raw Hc).
  destruct (split_text_fits chunk_size chunk_overlap (strip (Re.sub_spaces raw)) Hs Ho)
    as (chunks & Hr & _).
  exists chunks. split; [exact Hr|].
  unfold TextSplitter.split_text in Hr.
  destruct (chunk_size <=? 0)%Z; [discriminate Hr|].
  destruct (chunk_overlap <? 0)%Z; [discriminate Hr|].
  destruct (chunk_size <? chunk_overlap)%Z; [discriminate Hr|].
  apply split_text_rec_occurs in Hr. eapply Forall_impl; [|exact Hr].
  intros chunk Hocc. split; [exact Hocc|].
  destruct Hocc as (before & after & E).
  assert (H1 : Reference.only_spaces (strip (Re.sub_spaces raw)) = true)
    by apply all_chars_strip, all_chars_sub_spaces.
  assert (H2 : Reference.no_double_space (strip (Re.sub_spaces raw)) = true)
    by apply no_double_space_strip, no_double_space_sub_spaces.
  rewrite E in H1, H2. split.
  - unfold Reference.only_spaces in *. rewrite !all_chars_app in H1.
    apply andb_true_iff in H1. destruct H1 as [_ H1].
    apply andb_true_iff in H1. apply H1.
  - apply no_double_space_app in H2. destruct H2 as [_ H2].
    apply no_double_space_app in H2. apply H2.
Qed.

Lemma chunks_fit_chunk_size_witness :
  create_content_chunks HtmlParser.BeautifulSoup
    (CStr "<p>one two  three</p><script>x()</script> <p>four. five six</p>") 10 3
  = Returns ["one two"; "three"; "four"; ". five six"]
  /\ Forall (Chunks.fits 10) ["one two"; "three"; "four"; ". five six"].
Proof.
  destruct (chunks_fit_chunk_size HtmlParser.BeautifulSoup
              (CStr "<p>one two  three</p><script>x()</script> <p>four. five six</p>")
              10 3 "one two  three four. five six")
    as (chunks & Hr & Hfit); [lia | lia | reflexivity|].
  vm_compute in Hr. injection Hr as <-. split; [reflexivity | exact Hfit].
Defined.

Lemma short_text_is_one_chunk_witness :
  create_content_chunks HtmlParser.BeautifulSoup
    (CStr "<p> Shop  now </p><style>p {}</style><p>open</p>") 1000 200
  = Returns ["Shop now open"].
Proof.
  apply (short_text_is_one_chunk HtmlParser.BeautifulSoup
           (CStr "<p> Shop  now </p><style>p {}</style><p>open</p>") 1000 200
           " Shop  now open").
  - lia.
  - lia.
  - reflexivity.
  - vm_compute. discriminate.
  - vm_compute. discriminate.
Defined.

Lemma chunks_are_pieces_of_the_text_witness :
  create_content_chunks HtmlParser.BeautifulSoup (CStr "<p>abcdefghijklmnop qr</p>") 5 2
  = Returns ["abcde"; "defgh"; "ghijk"; "jklmn"; "mnop"; "qr"]
  /\ Forall (fun chunk => Chunks.occurs_in chunk "abcdefghijklmnop qr")
            ["abcde"; "defgh"; "ghijk"; "jklmn"; "mnop"; "qr"].
Proof.
  destruct (chunks_are_pieces_of_the_text HtmlParser.BeautifulSoup
              (CStr "<p>abcdefghijklmnop qr</p>") 5 2 "abcdefghijklmnop qr")
    as (chunks & Hr & Hin); [lia | lia | reflexivity|].
  vm_compute in Hr. injection Hr as <-. split; [reflexivity|].
  eapply Forall_impl; [|exact Hin]. intros chunk H. apply H.
Defined.

(** ** The suggestions of [get_parsing_suggestions] *)

Lemma existsb_eqb_In (s : string) (l : list string) :
  existsb (String.eqb s) l = true <-> In s l.
Proof.
  rewrite existsb_exists. split.
  - intros (x & Hx & E). apply String.eqb_eq in E. subst x. exact Hx.
  - intros H. exists s. split; [exact H | apply String.eqb_refl].
Qed.

(** The eleven checks and the cut after eight suggestions, for every
    outcome of the checks. *)
Lemma suggestions_cut_checks (h1 p a img ul table form email phone price date : bool) :
  let suggestions :=
    Clean.when h1 "Main headings and titles"
    ++ Clean.when p "All paragraph text content"
    ++ Clean.when a "All links and URLs"
    ++ Clean.when img "Image sources and alt text"
    ++ Clean.when ul "List items and bullet points"
    ++ Clean.when table "Table data and structured information"
    ++ Clean.when form "Form fields and input elements"
    ++ Clean.when email "Email addresses"
    ++ Clean.when phone "Phone numbers"
    ++ Clean.when price "Prices and pricing information"
    ++ Clean.when date "Dates and timestamps" in
  nodup string_dec (firstn 8 suggestions) = firstn 8 suggestions
  /\ forallb (fun s => existsb (String.eqb s) (firstn 8 suggestions)
                       || existsb (String.eqb s)
                            ["Phone numbers"; "Prices and pricing information";
                             "Dates and timestamps"]) suggestions = true
  /\ existsb (String.eqb "Email addresses") (firstn 8 suggestions) = email
  /\ existsb (String.eqb "Dates and timestamps") (firstn 8 suggestions)
     = date && Nat.leb (List.length suggestions) 8.
Proof.
  destruct h1, p, a, img, ul, table, form, email, phone, price, date;
    vm_compute; repeat split.
Qed.

(** X21: when the parser accepts the page, at most eight suggestions
    are returned, no suggestion twice; only the suggestions of the last
    three checks (phone numbers, prices, dates) can be cut off.  E-mail
    addresses are suggested exactly when the pattern matches the page
    text; dates exactly when a date pattern matches and the checks
    gave at most eight suggestions in all. *)
Theorem suggestions_are_cut_after_eight (P : string -> outcome soup) dom_content page :
  P dom_content = Returns page ->
  List.length (Clean.get_parsing_suggestions P dom_content) <= 8
  /\ NoDup (Clean.get_parsing_suggestions P dom_content)
  /\ (forall s, In s (Clean.suggestions_of page) ->
                In s (Clean.get_parsing_suggestions P dom_content)
                \/ In s ["Phone numbers"; "Prices and pricing information";
                         "Dates and timestamps"])
  /\ (In "Email addresses" (Clean.get_parsing_suggestions P dom_content)
      <-> Clean.search email_pattern (get_text page) = true)
  /\ (In "Dates and timestamps" (Clean.get_parsing_suggestions P dom_content)
      <-> existsb (fun pattern => Clean.search pattern (get_text page)) Clean.date_patterns
          = true
          /\ List.length (Clean.suggestions_of page) <= 8).
Proof.
  intros HP. unfold Clean.get_parsing_suggestions. rewrite HP.
  unfold Clean.suggestions_of. cbv zeta.
  destruct (suggestions_cut_checks
              (Scrape.nonempty (find_all ["h1"] page))
              (Scrape.nonempty (find_all ["p"] page))
              (Scrape.nonempty (find_all_with "a" "href" page))
              (Scrape.nonempty (find_all ["img"] page))
              (Scrape.nonempty (find_all ["ul"; "ol"] page))
              (Scrape.nonempty (find_all ["table"] page))
              (Scrape.nonempty (find_all ["form"] page))
              (Clean.search email_pattern (get_text page))
              (Clean.search Clean.phone_pattern (get_text page))
              (existsb (fun pattern => Clean.search pattern (get_text page))
                       Clean.price_patterns)
              (existsb (fun pattern => Clean.search pattern (get_text page))
                       Clean.date_patterns))
    as (Hnodup & Hkept & Hemail & Hdate).
  cbv zeta in *.
  match goal with
  | |- context [firstn 8 ?l] => set (suggestions := l) in *
  end.
  split; [apply firstn_le_length|].
  split; [rewrite <- Hnodup; apply NoDup_nodup|].
  split; [|split].
  - intros s Hs. rewrite forallb_forall in Hkept. specialize (Hkept s Hs).
    apply orb_true_iff in Hkept. rewrite !existsb_eqb_In in Hkept. exact Hkept.
  - rewrite <- existsb_eqb_In, Hemail. reflexivity.
  - rewrite <- existsb_eqb_In, Hdate, andb_true_iff, Nat.leb_le. reflexivity.
Qed.

Lemma suggestions_are_cut_after_eight_witness :
  HtmlParser.BeautifulSoup Samples.busy_markup = Returns Samples.busy_page
  /\ Clean.suggestions_of Samples.busy_page
     = ["Main headings and titles"; "All paragraph text content"; "All links and URLs";
        "Image sources and alt text"; "List items and bullet points";
        "Table data and structured information"; "Form fields and input elements";
        "Email addresses"; "Phone numbers"; "Prices and pricing information";
        "Dates and timestamps"]
  /\ Clean.get_parsing_suggestions HtmlParser.BeautifulSoup Samples.busy_markup
     = ["Main headings and titles"; "All paragraph text content"; "All links and URLs";
        "Image sources and alt text"; "List items and bullet points";
        "Table data and structured information"; "Form fields and input elements";
        "Email addresses"]
  /\ NoDup (Clean.get_parsing_suggestions HtmlParser.BeautifulSoup Samples.busy_markup).
Proof.
  destruct (suggestions_are_cut_after_eight HtmlParser.BeautifulSoup Samples.busy_markup
              Samples.busy_page eq_refl) as (_ & Hnodup & _).
  split; [reflexivity|]. split; [reflexivity|]. split; [reflexivity | exact Hnodup].
Defined.

(** ** The answer of [parse_with_llm] *)

(** X22: the content put in the prompt has at most 8045 characters
    (8000 and the truncation note) and is the cleaned text itself
    unless that is longer than 8000 characters; and [parse_with_llm]
    never returns the empty string, whatever the chain answers or
    raises. *)
Theorem parse_with_llm_answer (P : string -> outcome soup)
        (chain : string -> string -> outcome string) dom_content parse_description :
  (TextSplitter.len (Clean.prompt_content P dom_content) <= 8045)%Z
  /\ ((8000 < TextSplitter.len (Clean.clean_dom_content P dom_content))%Z
      \/ Clean.prompt_content P dom_content = Clean.clean_dom_content P dom_content)
  /\ truthy (Clean.parse_with_llm P chain dom_content parse_description) = true.
Proof.
  split; [|split].
  - unfold Clean.prompt_content. cbv zeta. unfold TextSplitter.len.
    destruct (Nat.ltb_spec 8000 (String.length (Clean.clean_dom_content P dom_content)))
      as [Hlong | Hshort].
    + rewrite length_append, length_substring_0.
      replace (String.length Clean.truncation_note) with 45 by reflexivity.
      pose proof (Nat.le_min_l 8000 (String.length (Clean.clean_dom_content P dom_content))).
      change 8045%Z with (Z.of_nat 8000 + 45)%Z. lia.
    + change 8045%Z with (Z.of_nat 8000 + 45)%Z. lia.
  - unfold Clean.prompt_content. cbv zeta. unfold TextSplitter.len.
    destruct (Nat.ltb_spec 8000 (String.length (Clean.clean_dom_content P dom_content)));
      [left; change 8000%Z with (Z.of_nat 8000); lia | right; reflexivity].
  - unfold Clean.parse_with_llm.
    destruct (chain (Clean.prompt_content P dom_content) parse_description) as [response|e];
      [|reflexivity].
    destruct (truthy (if truthy response then strip response else "")) eqn:E;
      [exact E | reflexivity].
Qed.
